(** * my-shoppingmall: cart, checkout, order status and payment actions

    A shallow embedding of the server actions of the storefront
    (actions/cart.ts, actions/orders.ts, actions/payments.ts,
    actions/get-products.ts, lib/utils/orders.ts) and the properties of
    its transactional core.

    Conventions of the embedding:
    - a JS [number] that holds a price, a quantity or an amount is a [Z]
      (the store keeps whole won and whole units); the totals of price
      times quantity, and the counts of units, that the code adds up are
      rounded the way a JS number, an IEEE 754 double, rounds them
      ([js_add], [js_mul]), while the sum of a stored quantity and a
      requested one, which addToCart compares with the stock, is taken
      exactly;
    - a timestamp is a [Z] read from the clock of the world;
    - the relational store is four tables, each a list of rows; one
      [await supabase...] is one store call, which either answers from the
      tables or answers with the error the world has scheduled for it, and
      a call that answers with an error leaves the tables as they were;
      every call is recorded;
    - the payment gateway is a function of the world from the request to
      what [fetch] does; every request is recorded;
    - an [async] function is an action on the world that completes
      normally or by a thrown exception; [try_catch] is [try { } catch { }];
    - every [return] statement of an action is a constructor of its exit
      type, and the object the caller receives is the rendering of the exit
      ([success], [message] and the optional fields, with the literal
      texts of the source). *)

From Stdlib Require Import ZArith List String Ascii Bool Lia DecimalString.
Import ListNotations.

Open Scope string_scope.
Open Scope Z_scope.

(** ** Types (types/product.ts, types/cart.ts, types/order.ts, types/payment.ts) *)

Inductive OrderStatus : Type :=
| pending | confirmed | shipped | delivered | cancelled.

Inductive PaymentStatus : Type :=
| pay_pending | pay_success | pay_failed | pay_cancelled.

(** "카드" | "가상계좌" | "계좌이체" | "휴대폰" | "상품권" | "도서문화상품권" |
    "게임문화상품권" *)
Inductive PaymentMethod : Type :=
| pm_card | pm_virtual_account | pm_transfer | pm_mobile
| pm_gift | pm_book_gift | pm_game_gift.

Record ShippingAddress : Type := {
  sa_name : string;
  sa_phone : string;
  sa_postcode : string;
  sa_address : string;
  sa_detailAddress : string
}.

Module Product.
Record t : Type := {
  id : string;
  name : string;
  description : option string;
  price : Z;
  category : option string;
  stock_quantity : Z;
  is_active : bool;
  created_at : Z;
  updated_at : Z
}.
End Product.

Module CartItem.
Record t : Type := {
  id : string;
  clerk_id : string;
  product_id : string;
  quantity : Z;
  created_at : Z;
  updated_at : Z
}.
End CartItem.

(** CartItemWithProduct: a cart row with the product row joined to it. *)
Module CartItemWithProduct.
Record t : Type := {
  id : string;
  clerk_id : string;
  product_id : string;
  quantity : Z;
  created_at : Z;
  updated_at : Z;
  product : Product.t
}.
End CartItemWithProduct.

Record Receipt : Type := { receiptKey : string; receiptUrl : string }.
Record Fee : Type := { fee_amount : Z; fee_payer : string }.
Record Failure : Type := { failure_code : string; failure_message : string }.
Record Cancel : Type := {
  cancelAmount : Z; cancelReason : string; cancelledAt : string
}.

Module PaymentInfo.
Record t : Type := {
  amount : Z;
  method : PaymentMethod;
  paymentKey : string;
  orderId : string;
  receipt : option Receipt;
  fee : option Fee;
  failure : option Failure;
  cancels : option (list Cancel)
}.
End PaymentInfo.

Module Order.
Record t : Type := {
  id : string;
  clerk_id : string;
  total_amount : Z;
  status : OrderStatus;
  shipping_address : option ShippingAddress;
  order_note : option string;
  payment_id : option string;
  payment_method : option PaymentMethod;
  payment_status : option PaymentStatus;
  paid_at : option Z;
  payment_info : option PaymentInfo.t;
  created_at : Z;
  updated_at : Z
}.
End Order.

Module OrderItem.
Record t : Type := {
  id : string;
  order_id : string;
  product_id : string;
  product_name : string;
  quantity : Z;
  price : Z;
  created_at : Z
}.
End OrderItem.

(** OrderWithItems extends Order with [order_items]. *)
Record OrderWithItems : Type := {
  owi_order : Order.t;
  owi_order_items : list OrderItem.t
}.

(** ** The world an action runs in *)

(** The [error] object of a store reply. *)
Record StoreError : Type := { code : string; error_message : string }.

(** The body of a gateway response, as far as confirmPayment reads it:
    [message] of an error body, and the payment object of a success. *)
Record TossBody : Type := {
  body_message : option string;
  body_method : string;
  body_totalAmount : Z;
  body_paymentKey : string;
  body_orderId : string;
  body_receipt : option Receipt;
  body_fee : option Fee
}.

(** What [fetch] does: it rejects (no connection, the connection breaks,
    the request is aborted), or it resolves to a response with its [ok]
    flag, whose [json()] yields a body or rejects ([None]). *)
Inductive FetchOutcome : Type :=
| FetchRejects
| FetchResponse (ok : bool) (body : option TossBody).

(** The request of confirmPayment to [/payments/confirm]: the secret key
    its Basic authorization header is built from, and the JSON body. *)
Record TossRequest : Type := {
  req_secretKey : string;
  req_paymentKey : string;
  req_orderId : string;
  req_amount : Z
}.

(** The four tables. *)
Record Store : Type := {
  products : list Product.t;
  cart_items : list CartItem.t;
  orders : list Order.t;
  order_items : list OrderItem.t
}.

Inductive Table : Type := t_products | t_cart_items | t_orders | t_order_items.
Inductive StoreOp : Type := op_select | op_insert | op_update | op_delete.

(** - [session]: what [auth()] resolves [userId] to;
    - [toss_secret_key]: [process.env.TOSS_PAYMENTS_SECRET_KEY];
    - [store_faults]: the error, if any, each coming store call answers
      with, in call order (none once the list is used up);
    - [store_calls]: every store call made so far, failed ones included;
    - [uuid_gen], [uuid_ctr]: the ids the store gives to inserted rows;
    - [toss], [toss_calls]: the gateway and the requests sent to it. *)
Record World : Type := {
  session : option string;
  toss_secret_key : option string;
  db : Store;
  store_faults : list (option StoreError);
  store_calls : list (StoreOp * Table);
  uuid_gen : nat -> string;
  uuid_ctr : nat;
  clock : Z;
  toss : TossRequest -> FetchOutcome;
  toss_calls : list TossRequest
}.

Definition set_db (s : Store) (w : World) : World :=
  {| session := session w; toss_secret_key := toss_secret_key w;
     db := s; store_faults := store_faults w; store_calls := store_calls w;
     uuid_gen := uuid_gen w; uuid_ctr := uuid_ctr w; clock := clock w;
     toss := toss w; toss_calls := toss_calls w |}.

Definition set_store_faults (l : list (option StoreError)) (w : World) : World :=
  {| session := session w; toss_secret_key := toss_secret_key w;
     db := db w; store_faults := l; store_calls := store_calls w;
     uuid_gen := uuid_gen w; uuid_ctr := uuid_ctr w; clock := clock w;
     toss := toss w; toss_calls := toss_calls w |}.

Definition set_store_calls (l : list (StoreOp * Table)) (w : World) : World :=
  {| session := session w; toss_secret_key := toss_secret_key w;
     db := db w; store_faults := store_faults w; store_calls := l;
     uuid_gen := uuid_gen w; uuid_ctr := uuid_ctr w; clock := clock w;
     toss := toss w; toss_calls := toss_calls w |}.

Definition set_uuid_ctr (n : nat) (w : World) : World :=
  {| session := session w; toss_secret_key := toss_secret_key w;
     db := db w; store_faults := store_faults w; store_calls := store_calls w;
     uuid_gen := uuid_gen w; uuid_ctr := n; clock := clock w;
     toss := toss w; toss_calls := toss_calls w |}.

Definition set_toss_calls (l : list TossRequest) (w : World) : World :=
  {| session := session w; toss_secret_key := toss_secret_key w;
     db := db w; store_faults := store_faults w; store_calls := store_calls w;
     uuid_gen := uuid_gen w; uuid_ctr := uuid_ctr w; clock := clock w;
     toss := toss w; toss_calls := l |}.

Definition set_cart_items (l : list CartItem.t) (s : Store) : Store :=
  {| products := products s; cart_items := l; orders := orders s;
     order_items := order_items s |}.

Definition set_orders (l : list Order.t) (s : Store) : Store :=
  {| products := products s; cart_items := cart_items s; orders := l;
     order_items := order_items s |}.

Definition set_order_items (l : list OrderItem.t) (s : Store) : Store :=
  {| products := products s; cart_items := cart_items s; orders := orders s;
     order_items := l |}.

Definition set_products (l : list Product.t) (s : Store) : Store :=
  {| products := l; cart_items := cart_items s; orders := orders s;
     order_items := order_items s |}.

(** ** Actions: state passing with exceptions *)

Inductive Completion (A : Type) : Type :=
| Normal (a : A)
| Thrown.
Arguments Normal {A} a.
Arguments Thrown {A}.

Definition Action (A : Type) : Type := World -> Completion A * World.

Definition ret {A : Type} (a : A) : Action A := fun w => (Normal a, w).

Definition throw {A : Type} : Action A := fun w => (Thrown, w).

Definition bind {A B : Type} (m : Action A) (k : A -> Action B) : Action B :=
  fun w =>
    match m w with
    | (Normal a, w') => k a w'
    | (Thrown, w') => (Thrown, w')
    end.

(** [try { body } catch (error) { handler }] *)
Definition try_catch {A : Type} (body handler : Action A) : Action A :=
  fun w =>
    match body w with
    | (Normal a, w') => (Normal a, w')
    | (Thrown, w') => handler w'
    end.

Definition fmap {A B : Type} (f : A -> B) (m : Action A) : Action B :=
  bind m (fun a => ret (f a)).

Declare Scope action_scope.
Delimit Scope action_scope with action.
Notation "x <- m ;; k" := (bind m (fun x => k))
  (at level 100, m at next level, right associativity) : action_scope.
Notation "m ;;; k" := (bind m (fun _ => k))
  (at level 100, right associativity) : action_scope.
Open Scope action_scope.

Definition completion {A : Type} (r : Completion A * World) : Completion A := fst r.
Definition world_after {A : Type} (r : Completion A * World) : World := snd r.

(** ** JavaScript values *)

(** [!s] on a string-or-null: null and the empty string are falsy. *)
Definition truthy (s : option string) : option string :=
  match s with
  | Some "" => None
  | Some s => Some s
  | None => None
  end.

(** [s || d] on a string-or-undefined. *)
Definition or_else (s : option string) (d : string) : string :=
  match truthy s with
  | Some s => s
  | None => d
  end.

(** A whole number inside a template literal. *)
Definition show (n : Z) : string := NilZero.string_of_int (Z.to_int n).

Definition dq : string := String "034"%char EmptyString.

(** [Number.MAX_SAFE_INTEGER] *)
Definition MAX_SAFE_INTEGER : Z := 2 ^ 53 - 1.

(** A JS number is an IEEE 754 double. The result of [+] and [*] on
    numbers that hold whole values is the exact result rounded to the
    nearest value with 53 significant bits, the even one of the two at a
    tie: with [e] low bits that do not fit, [q] is the value in units of
    [2 ^ e] and [r] what the low bits held. (At [2 ^ 1024] and beyond a
    double is Infinity; amounts of that size are not whole numbers the
    store holds, and this function keeps rounding there.) *)
Definition round_to_double (z : Z) : Z :=
  let m := Z.abs z in
  let e := Z.max 0 (Z.log2 m - 52) in
  let q := Z.shiftr m e in
  let r := m - Z.shiftl q e in
  let q' := if 2 * r <? 2 ^ e then q
            else if (2 * r =? 2 ^ e) && Z.even q then q
            else q + 1 in
  Z.sgn z * Z.shiftl q' e.

(** [a + b] and [a * b] on numbers *)
Definition js_add (a b : Z) : Z := round_to_double (a + b).
Definition js_mul (a b : Z) : Z := round_to_double (a * b).

Definition OrderStatus_eqb (a b : OrderStatus) : bool :=
  match a, b with
  | pending, pending | confirmed, confirmed | shipped, shipped
  | delivered, delivered | cancelled, cancelled => true
  | _, _ => false
  end.

Definition PaymentStatus_eqb (a b : PaymentStatus) : bool :=
  match a, b with
  | pay_pending, pay_pending | pay_success, pay_success
  | pay_failed, pay_failed | pay_cancelled, pay_cancelled => true
  | _, _ => false
  end.

(** The string of an order status (the union's literals). *)
Definition OrderStatus_string (s : OrderStatus) : string :=
  match s with
  | pending => "pending"
  | confirmed => "confirmed"
  | shipped => "shipped"
  | delivered => "delivered"
  | cancelled => "cancelled"
  end.

(** /^[0-9a-f]{8}-[0-9a-f]{4}-[0-9a-f]{4}-[0-9a-f]{4}-[0-9a-f]{12}$/i *)
Definition is_hex (c : ascii) : bool :=
  let n := nat_of_ascii c in
  ((48 <=? n)%nat && (n <=? 57)%nat)
  || ((97 <=? n)%nat && (n <=? 102)%nat)
  || ((65 <=? n)%nat && (n <=? 70)%nat).

Fixpoint take_hex (n : nat) (s : string) : option string :=
  match n with
  | O => Some s
  | S n' =>
      match s with
      | String c rest => if is_hex c then take_hex n' rest else None
      | EmptyString => None
      end
  end.

Definition take_hyphen (s : option string) : option string :=
  match s with
  | Some (String "-"%char rest) => Some rest
  | _ => None
  end.

Definition uuidRegex_test (s : string) : bool :=
  match take_hex 8 s with
  | Some r1 =>
      match take_hyphen (Some r1) with
      | Some r2 =>
          match take_hyphen (take_hex 4 r2) with
          | Some r3 =>
              match take_hyphen (take_hex 4 r3) with
              | Some r4 =>
                  match take_hyphen (take_hex 4 r4) with
                  | Some r5 =>
                      match take_hex 12 r5 with
                      | Some EmptyString => true
                      | _ => false
                      end
                  | None => false
                  end
              | None => false
              end
          | None => false
          end
      | None => false
      end
  | None => false
  end.

(** ** The collaborators: identity, store, gateway *)

(** [const { userId } = await auth()] *)
Definition auth : Action (option string) := fun w => (Normal (session w), w).

(** [{ data, error }] of a store call. *)
Record Reply (A : Type) : Type := { data : option A; error : option StoreError }.
Arguments data {A} r.
Arguments error {A} r.

Definition reply_data {A : Type} (a : A) : Reply A :=
  {| data := Some a; error := None |}.
Definition reply_error {A : Type} (e : StoreError) : Reply A :=
  {| data := None; error := Some e |}.

(** The answer of PostgREST to [.single()] on no row or on several. *)
Definition PGRST116 : StoreError :=
  {| code := "PGRST116";
     error_message := "JSON object requested, multiple (or no) rows returned" |}.

Definition single {Row : Type} (rows : list Row) : Reply Row :=
  match rows with
  | [r] => reply_data r
  | _ => reply_error PGRST116
  end.

(** One store call: it is recorded, takes the next scheduled fault, and
    answers with it, or else runs on the tables. *)
Definition tick (op : StoreOp) (t : Table) (w : World) : World :=
  set_store_faults (tl (store_faults w))
    (set_store_calls (store_calls w ++ [(op, t)]) w).

Definition store_call {A : Type} (op : StoreOp) (t : Table)
  (run : Action (Reply A)) : Action (Reply A) :=
  fun w =>
    match hd None (store_faults w) with
    | Some e => (Normal (reply_error e), tick op t w)
    | None => run (tick op t w)
    end.

Definition read_db {A : Type} (f : Store -> A) : Action A :=
  fun w => (Normal (f (db w)), w).

Definition write_db (f : Store -> Store) : Action unit :=
  fun w => (Normal tt, set_db (f (db w)) w).

Definition fresh_uuid : Action string :=
  fun w => (Normal (uuid_gen w (uuid_ctr w)), set_uuid_ctr (S (uuid_ctr w)) w).

Definition now : Action Z := fun w => (Normal (clock w), w).

(** [.order(key, { ascending })]: a stable insertion sort. *)
Fixpoint insert_by {A : Type} (le : A -> A -> bool) (x : A) (l : list A) : list A :=
  match l with
  | [] => [x]
  | y :: l' => if le x y then x :: l else y :: insert_by le x l'
  end.

Definition order_by {A : Type} (le : A -> A -> bool) (l : list A) : list A :=
  fold_right (insert_by le) [] l.

(** [fetch(url, { method: "POST", headers, body })] to the gateway, and
    [response.json()]. *)
Definition fetch_toss (req : TossRequest) : Action (bool * option TossBody) :=
  fun w =>
    let w1 := set_toss_calls (toss_calls w ++ [req]) w in
    match toss w req with
    | FetchRejects => (Thrown, w1)
    | FetchResponse ok body => (Normal (ok, body), w1)
    end.

Definition response_json (body : option TossBody) : Action TossBody :=
  match body with
  | Some b => ret b
  | None => throw
  end.

(** ** lib/utils/orders.ts *)

Definition allowedTransitions (currentStatus : OrderStatus) : list OrderStatus :=
  match currentStatus with
  | pending => [confirmed; cancelled]
  | confirmed => [shipped; cancelled]
  | shipped => [delivered; cancelled]
  | delivered => []
  | cancelled => []
  end.

Definition includes (l : list OrderStatus) (x : OrderStatus) : bool :=
  existsb (fun y => OrderStatus_eqb y x) l.

Definition canUpdateOrderStatus (currentStatus newStatus : OrderStatus) : bool :=
  if OrderStatus_eqb currentStatus newStatus then false
  else includes (allowedTransitions currentStatus) newStatus || false.

Definition getOrderStatusLabel (status : OrderStatus) : string :=
  match status with
  | pending => "주문 대기중"
  | confirmed => "주문 확인됨"
  | shipped => "배송중"
  | delivered => "배송완료"
  | cancelled => "주문 취소됨"
  end.

(** ** actions/get-products.ts *)

(** [.eq("id", productId).eq("is_active", true)] on [products], and
    [.eq("clerk_id", userId).eq("product_id", productId)] on [cart_items]. *)
Definition is_active_product (productId : string) (p : Product.t) : bool :=
  String.eqb (Product.id p) productId && Bool.eqb (Product.is_active p) true.

Definition is_cart_line_of (userId productId : string) (c : CartItem.t) : bool :=
  String.eqb (CartItem.clerk_id c) userId
  && String.eqb (CartItem.product_id c) productId.

(** The catch block logs and rethrows. *)
Definition getProductById (productId : string) : Action (option Product.t) :=
  try_catch
    (if negb (uuidRegex_test productId) then ret None
     else
       r <- store_call op_select t_products
              (rows <- read_db products ;;
               ret (single (filter (is_active_product productId) rows))) ;;
       match error r with
       | Some e => if String.eqb (code e) "PGRST116" then ret None else throw
       | None =>
           match data r with
           | None => ret None
           | Some d => ret (Some d)
           end
       end)
    throw.

(** ** actions/cart.ts *)

(** The object every cart and payment action returns. *)
Record ActionResult : Type := { success : bool; message : string }.

Inductive AddToCartExit : Type :=
| ATC_unauthenticated
| ATC_invalid_quantity
| ATC_product_not_found
| ATC_out_of_stock (stock_quantity : Z)
| ATC_cart_fetch_failed
| ATC_out_of_stock_with_existing (existing stock_quantity : Z)
| ATC_update_failed
| ATC_quantity_updated (newQuantity : Z)
| ATC_insert_failed
| ATC_inserted
| ATC_exception.

Definition AddToCartExit_result (e : AddToCartExit) : ActionResult :=
  match e with
  | ATC_unauthenticated =>
      {| success := false;
         message := "로그인이 필요합니다. 로그인 후 장바구니에 추가할 수 있습니다." |}
  | ATC_invalid_quantity =>
      {| success := false; message := "수량은 1개 이상이어야 합니다." |}
  | ATC_product_not_found =>
      {| success := false;
         message := "상품을 찾을 수 없거나 현재 판매 중이 아닙니다." |}
  | ATC_out_of_stock stock =>
      {| success := false;
         message := "재고가 부족합니다. (현재 재고: " ++ show stock ++ "개)" |}
  | ATC_cart_fetch_failed =>
      {| success := false;
         message := "장바구니를 불러오는 중 오류가 발생했습니다." |}
  | ATC_out_of_stock_with_existing existing stock =>
      {| success := false;
         message := "재고가 부족합니다. 장바구니에 이미 " ++ show existing
                    ++ "개가 있습니다. (현재 재고: " ++ show stock ++ "개)" |}
  | ATC_update_failed =>
      {| success := false;
         message := "장바구니에 추가하는 중 오류가 발생했습니다." |}
  | ATC_quantity_updated newQuantity =>
      {| success := true;
         message := "장바구니에 추가되었습니다. (총 " ++ show newQuantity ++ "개)" |}
  | ATC_insert_failed =>
      {| success := false;
         message := "장바구니에 추가하는 중 오류가 발생했습니다." |}
  | ATC_inserted =>
      {| success := true; message := "장바구니에 추가되었습니다." |}
  | ATC_exception =>
      {| success := false;
         message := "오류가 발생했습니다. 잠시 후 다시 시도해주세요." |}
  end.

Definition cart_set_quantity (q : Z) (c : CartItem.t) : CartItem.t :=
  {| CartItem.id := CartItem.id c; CartItem.clerk_id := CartItem.clerk_id c;
     CartItem.product_id := CartItem.product_id c; CartItem.quantity := q;
     CartItem.created_at := CartItem.created_at c;
     CartItem.updated_at := CartItem.updated_at c |}.

(** [.from("cart_items").update({ quantity }).eq("id", id)] *)
Definition update_cart_quantity (id : string) (q : Z) : Action (Reply unit) :=
  store_call op_update t_cart_items
    (write_db (fun s =>
       set_cart_items
         (map (fun c => if String.eqb (CartItem.id c) id
                        then cart_set_quantity q c else c)
              (cart_items s)) s) ;;;
     ret (reply_data tt)).

(** [.from("cart_items").insert({ clerk_id, product_id, quantity })]: the
    store fills in the id and the timestamps. *)
Definition insert_cart_item (userId productId : string) (q : Z) : Action (Reply unit) :=
  store_call op_insert t_cart_items
    (id <- fresh_uuid ;;
     t <- now ;;
     write_db (fun s =>
       set_cart_items
         (cart_items s ++
          [{| CartItem.id := id; CartItem.clerk_id := userId;
              CartItem.product_id := productId; CartItem.quantity := q;
              CartItem.created_at := t; CartItem.updated_at := t |}]) s) ;;;
     ret (reply_data tt)).

Definition addToCart_exit (productId : string) (quantity : Z) : Action AddToCartExit :=
  try_catch
    (userId <- auth ;;
     match truthy userId with
     | None => ret ATC_unauthenticated
     | Some userId =>
       if (quantity =? 0) || (quantity <? 1) then ret ATC_invalid_quantity
       else
         product <- getProductById productId ;;
         match product with
         | None => ret ATC_product_not_found
         | Some product =>
           if Product.stock_quantity product <? quantity
           then ret (ATC_out_of_stock (Product.stock_quantity product))
           else
             r <- store_call op_select t_cart_items
                    (rows <- read_db cart_items ;;
                     ret (single (filter (is_cart_line_of userId productId)
                                         rows))) ;;
             if match error r with
                | Some fetchError => negb (String.eqb (code fetchError) "PGRST116")
                | None => false
                end
             then ret ATC_cart_fetch_failed
             else
               match data r with
               | Some existingCartItem =>
                   let newQuantity := CartItem.quantity existingCartItem + quantity in
                   if Product.stock_quantity product <? newQuantity
                   then ret (ATC_out_of_stock_with_existing
                               (CartItem.quantity existingCartItem)
                               (Product.stock_quantity product))
                   else
                     r2 <- update_cart_quantity (CartItem.id existingCartItem)
                                                newQuantity ;;
                     match error r2 with
                     | Some _ => ret ATC_update_failed
                     | None => ret (ATC_quantity_updated newQuantity)
                     end
               | None =>
                   r2 <- insert_cart_item userId productId quantity ;;
                   match error r2 with
                   | Some _ => ret ATC_insert_failed
                   | None => ret ATC_inserted
                   end
               end
         end
     end)
    (ret ATC_exception).

Definition addToCart (productId : string) (quantity : Z) : Action ActionResult :=
  fmap AddToCartExit_result (addToCart_exit productId quantity).

(** [.from("cart_items").select("..., products (...)").eq("clerk_id", userId)
    .order("created_at", { ascending: false })]: the rows of the buyer,
    newest first, each with the product row its [product_id] refers to
    ([null] when there is none). *)
Definition cart_rows (userId : string) (s : Store)
  : list (CartItem.t * option Product.t) :=
  map (fun c =>
         (c, find (fun p => String.eqb (Product.id p) (CartItem.product_id c))
                  (products s)))
      (order_by (fun a b => CartItem.created_at b <=? CartItem.created_at a)
         (filter (fun c => String.eqb (CartItem.clerk_id c) userId)
                 (cart_items s))).

Definition select_cart_with_products (userId : string)
  : Action (Reply (list (CartItem.t * option Product.t))) :=
  store_call op_select t_cart_items
    (rows <- read_db (cart_rows userId) ;;
     ret (reply_data rows)).

(** [cartItems.filter((item) => item.products !== null).map(...)] *)
Fixpoint with_products (rows : list (CartItem.t * option Product.t))
  : list CartItemWithProduct.t :=
  match rows with
  | [] => []
  | (c, Some p) :: rest =>
      {| CartItemWithProduct.id := CartItem.id c;
         CartItemWithProduct.clerk_id := CartItem.clerk_id c;
         CartItemWithProduct.product_id := CartItem.product_id c;
         CartItemWithProduct.quantity := CartItem.quantity c;
         CartItemWithProduct.created_at := CartItem.created_at c;
         CartItemWithProduct.updated_at := CartItem.updated_at c;
         CartItemWithProduct.product := p |} :: with_products rest
  | (_, None) :: rest => with_products rest
  end.

Definition getCartItems : Action (list CartItemWithProduct.t) :=
  try_catch
    (userId <- auth ;;
     match truthy userId with
     | None => ret []
     | Some userId =>
         r <- select_cart_with_products userId ;;
         match error r with
         | Some _ => throw
         | None =>
             match data r with
             | None => ret []
             | Some [] => ret []
             | Some cartItems => ret (with_products cartItems)
             end
         end
     end)
    (ret []).

(** ** actions/orders.ts *)

Record CreateOrderResult : Type := {
  co_success : bool;
  co_orderId : option string;
  co_message : string
}.

Inductive CreateOrderExit : Type :=
| CO_unauthenticated
| CO_empty_cart
| CO_inactive_product (name : string)
| CO_out_of_stock (name : string) (quantity stock_quantity : Z)
| CO_order_insert_failed
| CO_order_items_insert_failed
| CO_created (orderId : string)
| CO_exception.

Definition CreateOrderExit_result (e : CreateOrderExit) : CreateOrderResult :=
  match e with
  | CO_unauthenticated =>
      {| co_success := false; co_orderId := None;
         co_message := "로그인이 필요합니다. 로그인 후 주문할 수 있습니다." |}
  | CO_empty_cart =>
      {| co_success := false; co_orderId := None;
         co_message := "장바구니가 비어있습니다. 상품을 추가한 후 주문해주세요." |}
  | CO_inactive_product name =>
      {| co_success := false; co_orderId := None;
         co_message := dq ++ or_else (Some name) "알 수 없는 상품" ++ dq
           ++ "은 현재 판매 중이 아닙니다. 장바구니에서 제거 후 다시 시도해주세요." |}
  | CO_out_of_stock name quantity stock =>
      {| co_success := false; co_orderId := None;
         co_message := dq ++ name ++ dq ++ "의 재고가 부족합니다. (요청: "
           ++ show quantity ++ "개, 재고: " ++ show stock ++ "개)" |}
  | CO_order_insert_failed =>
      {| co_success := false; co_orderId := None;
         co_message := "주문을 생성하는 중 오류가 발생했습니다. 잠시 후 다시 시도해주세요." |}
  | CO_order_items_insert_failed =>
      {| co_success := false; co_orderId := None;
         co_message := "주문 상품 정보를 저장하는 중 오류가 발생했습니다. 고객센터로 문의해주세요." |}
  | CO_created orderId =>
      {| co_success := true; co_orderId := Some orderId;
         co_message := "주문이 성공적으로 생성되었습니다." |}
  | CO_exception =>
      {| co_success := false; co_orderId := None;
         co_message := "주문을 생성하는 중 예상치 못한 오류가 발생했습니다. 잠시 후 다시 시도해주세요." |}
  end.

(** The validation loop over the cart: the exit of the first line that
    fails, if any. The joined product is never null here. *)
Fixpoint validate_cart (cartItems : list CartItemWithProduct.t) : option CreateOrderExit :=
  match cartItems with
  | [] => None
  | cartItem :: rest =>
      let product := CartItemWithProduct.product cartItem in
      if negb (Product.is_active product)
      then Some (CO_inactive_product (Product.name product))
      else if Product.stock_quantity product <? CartItemWithProduct.quantity cartItem
      then Some (CO_out_of_stock (Product.name product)
                   (CartItemWithProduct.quantity cartItem)
                   (Product.stock_quantity product))
      else validate_cart rest
  end.

(** [cartItems.reduce((sum, item) => sum + item.product.price * item.quantity, 0)] *)
Definition cart_total (cartItems : list CartItemWithProduct.t) : Z :=
  fold_left
    (fun sum item =>
       js_add sum (js_mul (Product.price (CartItemWithProduct.product item))
                          (CartItemWithProduct.quantity item)))
    cartItems 0.

(** [.from("orders").insert({ clerk_id, total_amount, status: "pending",
    shipping_address, order_note }).select("id").single()]: the store fills
    in the id and the timestamps; the payment columns, which the insert
    does not name, are null. *)
Definition new_order (id : string) (t : Z) (userId : string) (totalAmount : Z)
  (shippingAddress : ShippingAddress) (order_note : option string) : Order.t :=
  {| Order.id := id; Order.clerk_id := userId;
     Order.total_amount := totalAmount; Order.status := pending;
     Order.shipping_address := Some shippingAddress;
     Order.order_note := order_note;
     Order.payment_id := None; Order.payment_method := None;
     Order.payment_status := None; Order.paid_at := None;
     Order.payment_info := None;
     Order.created_at := t; Order.updated_at := t |}.

Definition insert_order (userId : string) (totalAmount : Z)
  (shippingAddress : ShippingAddress) (order_note : option string)
  : Action (Reply string) :=
  store_call op_insert t_orders
    (id <- fresh_uuid ;;
     t <- now ;;
     write_db (fun s =>
       set_orders
         (orders s ++
          [new_order id t userId totalAmount shippingAddress order_note]) s) ;;;
     ret (reply_data id)).

(** A row of [order_items] as createOrder builds it. *)
Record NewOrderItem : Type := {
  new_order_id : string;
  new_product_id : string;
  new_product_name : string;
  new_quantity : Z;
  new_price : Z
}.

Definition orderItems_of (orderId : string) (cartItems : list CartItemWithProduct.t)
  : list NewOrderItem :=
  map (fun item =>
         {| new_order_id := orderId;
            new_product_id := CartItemWithProduct.product_id item;
            new_product_name := Product.name (CartItemWithProduct.product item);
            new_quantity := CartItemWithProduct.quantity item;
            new_price := Product.price (CartItemWithProduct.product item) |})
      cartItems.

(** The stored rows of an insert of several order items: ids from the
    generator, one after the other, and the time of the insert. *)
Fixpoint stamp_order_items (gen : nat -> string) (ctr : nat) (t : Z)
  (rows : list NewOrderItem) : list OrderItem.t :=
  match rows with
  | [] => []
  | r :: rest =>
      {| OrderItem.id := gen ctr; OrderItem.order_id := new_order_id r;
         OrderItem.product_id := new_product_id r;
         OrderItem.product_name := new_product_name r;
         OrderItem.quantity := new_quantity r; OrderItem.price := new_price r;
         OrderItem.created_at := t |} :: stamp_order_items gen (S ctr) t rest
  end.

(** [.from("order_items").insert(orderItems)] *)
Definition insert_order_items (rows : list NewOrderItem) : Action (Reply unit) :=
  store_call op_insert t_order_items
    (fun w =>
       (Normal (reply_data tt),
        set_uuid_ctr (uuid_ctr w + List.length rows)%nat
          (set_db (set_order_items
                     (order_items (db w)
                      ++ stamp_order_items (uuid_gen w) (uuid_ctr w) (clock w) rows)
                     (db w)) w))).

(** [.from("cart_items").delete().eq("clerk_id", userId)] *)
Definition delete_cart_of (userId : string) : Action (Reply unit) :=
  store_call op_delete t_cart_items
    (write_db (fun s =>
       set_cart_items
         (filter (fun c => negb (String.eqb (CartItem.clerk_id c) userId))
                 (cart_items s)) s) ;;;
     ret (reply_data tt)).

Definition createOrder_exit (shippingAddress : ShippingAddress)
  (orderNote : option string) : Action CreateOrderExit :=
  try_catch
    (userId <- auth ;;
     match truthy userId with
     | None => ret CO_unauthenticated
     | Some userId =>
       cartItems <- getCartItems ;;
       if (List.length cartItems =? 0)%nat then ret CO_empty_cart
       else
         match validate_cart cartItems with
         | Some exit => ret exit
         | None =>
           let totalAmount := cart_total cartItems in
           r <- insert_order userId totalAmount shippingAddress (truthy orderNote) ;;
           match error r, data r with
           | None, Some orderId =>
               let orderItems := orderItems_of orderId cartItems in
               r2 <- insert_order_items orderItems ;;
               match error r2 with
               | Some _ => ret CO_order_items_insert_failed
               | None =>
                   (* a failure of the delete is logged only *)
                   _ <- delete_cart_of userId ;;
                   ret (CO_created orderId)
               end
           | _, _ => ret CO_order_insert_failed
           end
         end
     end)
    (ret CO_exception).

Definition createOrder (shippingAddress : ShippingAddress)
  (orderNote : option string) : Action CreateOrderResult :=
  fmap CreateOrderExit_result (createOrder_exit shippingAddress orderNote).

(** [.eq("id", orderId).eq("clerk_id", userId)] on [orders] *)
Definition is_order_of (orderId userId : string) (o : Order.t) : bool :=
  String.eqb (Order.id o) orderId && String.eqb (Order.clerk_id o) userId.

(** [.from("orders").select(...).eq("id", orderId).eq("clerk_id", userId)
    .single()] *)
Definition select_order_of (orderId userId : string) : Action (Reply Order.t) :=
  store_call op_select t_orders
    (rows <- read_db orders ;;
     ret (single (filter (is_order_of orderId userId) rows))).

(** [.from("order_items").select("*").eq("order_id", orderId)
    .order("created_at", { ascending: true })] *)
Definition select_order_items_of (orderId : string) : Action (Reply (list OrderItem.t)) :=
  store_call op_select t_order_items
    (rows <- read_db order_items ;;
     ret (reply_data
            (order_by (fun a b => OrderItem.created_at a <=? OrderItem.created_at b)
               (filter (fun i => String.eqb (OrderItem.order_id i) orderId) rows)))).

Definition getOrderById (orderId : string) : Action (option OrderWithItems) :=
  try_catch
    (userId <- auth ;;
     match truthy userId with
     | None => ret None
     | Some userId =>
       if negb (uuidRegex_test orderId) then ret None
       else
         r <- select_order_of orderId userId ;;
         match error r, data r with
         | None, Some order =>
             r2 <- select_order_items_of orderId ;;
             match error r2 with
             | Some _ => ret None
             | None =>
                 ret (Some {| owi_order := order;
                              owi_order_items :=
                                match data r2 with
                                | Some orderItems => orderItems
                                | None => []
                                end |})
             end
         | _, _ => ret None
         end
     end)
    (ret None).

Inductive UpdateOrderStatusExit : Type :=
| UOS_unauthenticated
| UOS_bad_order_id
| UOS_not_found
| UOS_already_in_status
| UOS_not_allowed (current requested : OrderStatus)
| UOS_update_failed
| UOS_updated (status : OrderStatus)
| UOS_exception.

Definition UpdateOrderStatusExit_result (e : UpdateOrderStatusExit) : ActionResult :=
  match e with
  | UOS_unauthenticated =>
      {| success := false; message := "로그인이 필요합니다." |}
  | UOS_bad_order_id =>
      {| success := false; message := "올바르지 않은 주문 번호입니다." |}
  | UOS_not_found =>
      {| success := false;
         message := "주문을 찾을 수 없거나 접근 권한이 없습니다." |}
  | UOS_already_in_status =>
      {| success := false; message := "이미 해당 상태로 설정되어 있습니다." |}
  | UOS_not_allowed current requested =>
      {| success := false;
         message := dq ++ getOrderStatusLabel current ++ dq ++ " 상태에서는 "
           ++ dq ++ getOrderStatusLabel requested ++ dq
           ++ " 상태로 변경할 수 없습니다." |}
  | UOS_update_failed =>
      {| success := false;
         message := "주문 상태를 변경하는 중 오류가 발생했습니다." |}
  | UOS_updated status =>
      {| success := true;
         message := "주문 상태가 " ++ dq ++ getOrderStatusLabel status ++ dq
           ++ "로 변경되었습니다." |}
  | UOS_exception =>
      {| success := false;
         message := "주문 상태를 변경하는 중 예상치 못한 오류가 발생했습니다." |}
  end.

(** [.from("orders").update(change).eq("id", orderId).eq("clerk_id", userId)]
    changes the named columns of the matching rows and no other column. *)
Definition update_order_of (orderId userId : string) (change : Order.t -> Order.t)
  : Action (Reply unit) :=
  store_call op_update t_orders
    (write_db (fun s =>
       set_orders
         (map (fun o => if is_order_of orderId userId o then change o else o)
              (orders s)) s) ;;;
     ret (reply_data tt)).

(** [{ status }] *)
Definition with_status (status : OrderStatus) (o : Order.t) : Order.t :=
  {| Order.id := Order.id o; Order.clerk_id := Order.clerk_id o;
     Order.total_amount := Order.total_amount o; Order.status := status;
     Order.shipping_address := Order.shipping_address o;
     Order.order_note := Order.order_note o;
     Order.payment_id := Order.payment_id o;
     Order.payment_method := Order.payment_method o;
     Order.payment_status := Order.payment_status o;
     Order.paid_at := Order.paid_at o;
     Order.payment_info := Order.payment_info o;
     Order.created_at := Order.created_at o;
     Order.updated_at := Order.updated_at o |}.

Definition updateOrderStatus_exit (orderId : string) (status : OrderStatus)
  : Action UpdateOrderStatusExit :=
  try_catch
    (userId <- auth ;;
     match truthy userId with
     | None => ret UOS_unauthenticated
     | Some userId =>
       if negb (uuidRegex_test orderId) then ret UOS_bad_order_id
       else
         r <- select_order_of orderId userId ;;
         match error r, data r with
         | None, Some order =>
             if OrderStatus_eqb (Order.status order) status
             then ret UOS_already_in_status
             else if negb (canUpdateOrderStatus (Order.status order) status)
             then ret (UOS_not_allowed (Order.status order) status)
             else
               r2 <- update_order_of orderId userId (with_status status) ;;
               match error r2 with
               | Some _ => ret UOS_update_failed
               | None => ret (UOS_updated status)
               end
         | _, _ => ret UOS_not_found
         end
     end)
    (ret UOS_exception).

Definition updateOrderStatus (orderId : string) (status : OrderStatus)
  : Action ActionResult :=
  fmap UpdateOrderStatusExit_result (updateOrderStatus_exit orderId status).

(** ** actions/payments.ts *)

Record PaymentRequestResponse : Type := {
  pr_success : bool;
  pr_paymentKey : option string;
  pr_orderId : option string;
  pr_message : string
}.

Inductive RequestPaymentExit : Type :=
| RP_unauthenticated
| RP_not_found
| RP_forbidden
| RP_already_paid
| RP_not_payable (status : OrderStatus)
| RP_ready (orderId : string)
| RP_exception.

Definition RequestPaymentExit_result (e : RequestPaymentExit) : PaymentRequestResponse :=
  match e with
  | RP_unauthenticated =>
      {| pr_success := false; pr_paymentKey := None; pr_orderId := None;
         pr_message := "로그인이 필요합니다." |}
  | RP_not_found =>
      {| pr_success := false; pr_paymentKey := None; pr_orderId := None;
         pr_message := "주문을 찾을 수 없습니다." |}
  | RP_forbidden =>
      {| pr_success := false; pr_paymentKey := None; pr_orderId := None;
         pr_message := "주문에 접근할 권한이 없습니다." |}
  | RP_already_paid =>
      {| pr_success := false; pr_paymentKey := None; pr_orderId := None;
         pr_message := "이미 결제가 완료된 주문입니다." |}
  | RP_not_payable status =>
      {| pr_success := false; pr_paymentKey := None; pr_orderId := None;
         pr_message := dq ++ OrderStatus_string status ++ dq
           ++ " 상태의 주문은 결제할 수 없습니다." |}
  | RP_ready orderId =>
      {| pr_success := true; pr_paymentKey := None; pr_orderId := Some orderId;
         pr_message := "결제 요청이 준비되었습니다." |}
  | RP_exception =>
      {| pr_success := false; pr_paymentKey := None; pr_orderId := None;
         pr_message := "결제 요청 중 오류가 발생했습니다. 잠시 후 다시 시도해주세요." |}
  end.

Definition requestPayment_exit (orderId : string) : Action RequestPaymentExit :=
  try_catch
    (userId <- auth ;;
     match truthy userId with
     | None => ret RP_unauthenticated
     | Some userId =>
       order <- getOrderById orderId ;;
       match order with
       | None => ret RP_not_found
       | Some order =>
         let order := owi_order order in
         if negb (String.eqb (Order.clerk_id order) userId) then ret RP_forbidden
         else if match Order.payment_status order with
                 | Some ps => PaymentStatus_eqb ps pay_success
                 | None => false
                 end
         then ret RP_already_paid
         else if negb (OrderStatus_eqb (Order.status order) pending)
         then ret (RP_not_payable (Order.status order))
         else ret (RP_ready (Order.id order))
       end
     end)
    (ret RP_exception).

Definition requestPayment (orderId : string) : Action PaymentRequestResponse :=
  fmap RequestPaymentExit_result (requestPayment_exit orderId).

Inductive ConfirmPaymentExit : Type :=
| CP_unauthenticated
| CP_not_found
| CP_forbidden
| CP_amount_mismatch
| CP_no_secret_key
| CP_gateway_rejected (errorData_message : option string)
| CP_update_failed
| CP_confirmed
| CP_exception.

Definition ConfirmPaymentExit_result (e : ConfirmPaymentExit) : ActionResult :=
  match e with
  | CP_unauthenticated =>
      {| success := false; message := "로그인이 필요합니다." |}
  | CP_not_found =>
      {| success := false; message := "주문을 찾을 수 없습니다." |}
  | CP_forbidden =>
      {| success := false; message := "주문에 접근할 권한이 없습니다." |}
  | CP_amount_mismatch =>
      {| success := false; message := "결제 금액이 일치하지 않습니다." |}
  | CP_no_secret_key =>
      {| success := false;
         message := "결제 서버 설정 오류입니다. 관리자에게 문의해주세요." |}
  | CP_gateway_rejected errorData_message =>
      {| success := false;
         message := or_else errorData_message "결제 승인에 실패했습니다." |}
  | CP_update_failed =>
      {| success := false;
         message := "결제는 완료되었지만 주문 정보 업데이트에 실패했습니다. 고객센터로 문의해주세요." |}
  | CP_confirmed =>
      {| success := true; message := "결제가 완료되었습니다." |}
  | CP_exception =>
      {| success := false;
         message := "결제 승인 중 오류가 발생했습니다. 잠시 후 다시 시도해주세요." |}
  end.

(** The chain of conditionals on [paymentData.method], with its default. *)
Definition paymentMethod_of (method : string) : PaymentMethod :=
  if String.eqb method "카드" then pm_card
  else if String.eqb method "가상계좌" then pm_virtual_account
  else if String.eqb method "계좌이체" then pm_transfer
  else if String.eqb method "휴대폰" then pm_mobile
  else pm_card.

Definition paymentInfo_of (paymentData : TossBody) (paymentMethod : PaymentMethod)
  : PaymentInfo.t :=
  {| PaymentInfo.amount := body_totalAmount paymentData;
     PaymentInfo.method := paymentMethod;
     PaymentInfo.paymentKey := body_paymentKey paymentData;
     PaymentInfo.orderId := body_orderId paymentData;
     PaymentInfo.receipt :=
       match body_receipt paymentData with
       | Some r => Some {| receiptKey := receiptKey r; receiptUrl := receiptUrl r |}
       | None => None
       end;
     PaymentInfo.fee :=
       match body_fee paymentData with
       | Some f => Some {| fee_amount := fee_amount f; fee_payer := fee_payer f |}
       | None => None
       end;
     PaymentInfo.failure := None;
     PaymentInfo.cancels := None |}.

(** [{ payment_id, payment_method, payment_status: "success", paid_at,
    payment_info, status: "confirmed" }] *)
Definition with_payment (paymentKey : string) (paymentMethod : PaymentMethod)
  (paid_at : Z) (paymentInfo : PaymentInfo.t) (o : Order.t) : Order.t :=
  {| Order.id := Order.id o; Order.clerk_id := Order.clerk_id o;
     Order.total_amount := Order.total_amount o; Order.status := confirmed;
     Order.shipping_address := Order.shipping_address o;
     Order.order_note := Order.order_note o;
     Order.payment_id := Some paymentKey;
     Order.payment_method := Some paymentMethod;
     Order.payment_status := Some pay_success;
     Order.paid_at := Some paid_at;
     Order.payment_info := Some paymentInfo;
     Order.created_at := Order.created_at o;
     Order.updated_at := Order.updated_at o |}.

Definition confirmPayment_exit (paymentKey orderId : string) (amount : Z)
  : Action ConfirmPaymentExit :=
  try_catch
    (userId <- auth ;;
     match truthy userId with
     | None => ret CP_unauthenticated
     | Some userId =>
       order <- getOrderById orderId ;;
       match order with
       | None => ret CP_not_found
       | Some order =>
         let order := owi_order order in
         if negb (String.eqb (Order.clerk_id order) userId) then ret CP_forbidden
         else if negb (Order.total_amount order =? amount) then ret CP_amount_mismatch
         else
           secretKey <- (fun w => (Normal (toss_secret_key w), w)) ;;
           match truthy secretKey with
           | None => ret CP_no_secret_key
           | Some secretKey =>
             response <- fetch_toss {| req_secretKey := secretKey;
                                       req_paymentKey := paymentKey;
                                       req_orderId := orderId;
                                       req_amount := amount |} ;;
             let (ok, body) := response in
             if negb ok
             then
               errorData <- response_json body ;;
               ret (CP_gateway_rejected (body_message errorData))
             else
               paymentData <- response_json body ;;
               let paymentMethod := paymentMethod_of (body_method paymentData) in
               let paymentInfo := paymentInfo_of paymentData paymentMethod in
               paid_at <- now ;;
               r <- update_order_of orderId userId
                      (with_payment paymentKey paymentMethod paid_at paymentInfo) ;;
               match error r with
               | Some _ => ret CP_update_failed
               | None => ret CP_confirmed
               end
           end
       end
     end)
    (ret CP_exception).

Definition confirmPayment (paymentKey orderId : string) (amount : Z)
  : Action ActionResult :=
  fmap ConfirmPaymentExit_result (confirmPayment_exit paymentKey orderId amount).

Inductive CancelPaymentExit : Type :=
| XP_unauthenticated
| XP_not_found
| XP_forbidden
| XP_not_cancellable (status : OrderStatus)
| XP_update_failed
| XP_cancelled
| XP_exception.

Definition CancelPaymentExit_result (e : CancelPaymentExit) : ActionResult :=
  match e with
  | XP_unauthenticated =>
      {| success := false; message := "로그인이 필요합니다." |}
  | XP_not_found =>
      {| success := false; message := "주문을 찾을 수 없습니다." |}
  | XP_forbidden =>
      {| success := false; message := "주문에 접근할 권한이 없습니다." |}
  | XP_not_cancellable status =>
      {| success := false;
         message := dq ++ OrderStatus_string status ++ dq
           ++ " 상태의 주문은 취소할 수 없습니다." |}
  | XP_update_failed =>
      {| success := false; message := "주문 취소 중 오류가 발생했습니다." |}
  | XP_cancelled =>
      {| success := true; message := "주문이 취소되었습니다." |}
  | XP_exception =>
      {| success := false;
         message := "주문 취소 중 오류가 발생했습니다. 잠시 후 다시 시도해주세요." |}
  end.

(** [{ status: "cancelled", payment_status: "cancelled" }] *)
Definition with_cancellation (o : Order.t) : Order.t :=
  {| Order.id := Order.id o; Order.clerk_id := Order.clerk_id o;
     Order.total_amount := Order.total_amount o; Order.status := cancelled;
     Order.shipping_address := Order.shipping_address o;
     Order.order_note := Order.order_note o;
     Order.payment_id := Order.payment_id o;
     Order.payment_method := Order.payment_method o;
     Order.payment_status := Some pay_cancelled;
     Order.paid_at := Order.paid_at o;
     Order.payment_info := Order.payment_info o;
     Order.created_at := Order.created_at o;
     Order.updated_at := Order.updated_at o |}.

Definition cancelPayment_exit (orderId : string) : Action CancelPaymentExit :=
  try_catch
    (userId <- auth ;;
     match truthy userId with
     | None => ret XP_unauthenticated
     | Some userId =>
       order <- getOrderById orderId ;;
       match order with
       | None => ret XP_not_found
       | Some order =>
         let order := owi_order order in
         if negb (String.eqb (Order.clerk_id order) userId) then ret XP_forbidden
         else if negb (OrderStatus_eqb (Order.status order) pending)
                 && negb (OrderStatus_eqb (Order.status order) confirmed)
         then ret (XP_not_cancellable (Order.status order))
         else
           r <- update_order_of orderId userId with_cancellation ;;
           match error r with
           | Some _ => ret XP_update_failed
           | None => ret XP_cancelled
           end
       end
     end)
    (ret XP_exception).

Definition cancelPayment (orderId : string) : Action ActionResult :=
  fmap CancelPaymentExit_result (cancelPayment_exit orderId).

(** ** Notions the properties are stated with *)

(** The [n]-th store call from now is not scheduled to fail, or is. *)
Definition no_fault (n : nat) (w : World) : Prop :=
  nth n (store_faults w) None = None.

Definition fault_at (n : nat) (w : World) : Prop :=
  exists e, nth n (store_faults w) None = Some e.

(** A store call that writes. *)
Definition is_write (c : StoreOp * Table) : bool :=
  match fst c with
  | op_select => false
  | op_insert | op_update | op_delete => true
  end.

(** The edges of the order status machine, as the specification lists
    them. *)
Definition legal_edges : list (OrderStatus * OrderStatus) :=
  [ (pending, confirmed); (pending, cancelled);
    (confirmed, shipped); (confirmed, cancelled);
    (shipped, delivered); (shipped, cancelled) ].

(** The rows of an order in [order_items], and the sum of price times
    quantity over rows. *)
Definition lines_of (orderId : string) (s : Store) : list OrderItem.t :=
  filter (fun i => String.eqb (OrderItem.order_id i) orderId) (order_items s).

Definition lines_total (lines : list OrderItem.t) : Z :=
  fold_right (fun i acc => OrderItem.price i * OrderItem.quantity i + acc) 0 lines.

(** The reduce of createOrder run on the prices and quantities the
    order lines hold, and the size of the amounts it adds up: the sum of
    the magnitudes of price times quantity. The reduce is exact while
    that size is within [MAX_SAFE_INTEGER]. *)
Definition lines_reduce (lines : list OrderItem.t) : Z :=
  fold_left
    (fun sum i => js_add sum (js_mul (OrderItem.price i) (OrderItem.quantity i)))
    lines 0.

Definition lines_magnitude (lines : list OrderItem.t) : Z :=
  fold_right (fun i acc => Z.abs (OrderItem.price i * OrderItem.quantity i) + acc)
             0 lines.

(** The cart of a buyer in [cart_items], and the priced snapshot of it
    that getCartItems builds. *)
Definition cart_of (userId : string) (s : Store) : list CartItem.t :=
  filter (fun c => String.eqb (CartItem.clerk_id c) userId) (cart_items s).

Definition cart_view (userId : string) (s : Store) : list CartItemWithProduct.t :=
  with_products (cart_rows userId s).

(** What an order line freezes: product, name, quantity and unit price. *)
Definition line_snapshot (i : OrderItem.t) : string * string * Z * Z :=
  (OrderItem.product_id i, OrderItem.product_name i,
   OrderItem.quantity i, OrderItem.price i).

Definition cart_snapshot (c : CartItemWithProduct.t) : string * string * Z * Z :=
  (CartItemWithProduct.product_id c,
   Product.name (CartItemWithProduct.product c),
   CartItemWithProduct.quantity c,
   Product.price (CartItemWithProduct.product c)).

(** The world after the catalog has been replaced (prices changed,
    products added or removed) by someone else than the actions. *)
Definition with_catalog (catalog : list Product.t) (w : World) : World :=
  set_db (set_products catalog (db w)) w.

(** Between two worlds nothing was written and the gateway was not
    called: the tables and the gateway log are the same, and the store
    calls made in between are all selects. *)
Definition untouched (w w' : World) : Prop :=
  db w' = db w /\
  toss_calls w' = toss_calls w /\
  exists reads,
    store_calls w' = (store_calls w ++ reads)%list /\
    forallb (fun c => negb (is_write c)) reads = true.

(** The buyer owns no order with this id (there may be one of another
    buyer). *)
Definition not_owner (userId orderId : string) (s : Store) : Prop :=
  forall o, In o (orders s) -> Order.id o = orderId -> Order.clerk_id o <> userId.



(** ** Sample worlds *)

Definition sample_uuid (n : nat) : string :=
  nth n [ "00000000-0000-4000-8000-000000000001";
          "00000000-0000-4000-8000-000000000002";
          "00000000-0000-4000-8000-000000000003";
          "00000000-0000-4000-8000-000000000004" ]
      "00000000-0000-4000-8000-00000000ffff".

Definition buyer : string := "user_2buyer".
Definition other_buyer : string := "user_2other".
Definition sample_order_id : string := "11111111-2222-4333-8444-555555555555".
Definition P1_id : string := "aaaaaaaa-0000-4000-8000-000000000001".
Definition P2_id : string := "aaaaaaaa-0000-4000-8000-000000000002".

Definition sample_address : ShippingAddress :=
  {| sa_name := "Kim"; sa_phone := "010-0000-0000"; sa_postcode := "04524";
     sa_address := "Sejong-daero 110"; sa_detailAddress := "101" |}.

Definition P1 : Product.t :=
  {| Product.id := P1_id; Product.name := "P1"; Product.description := None;
     Product.price := 1000; Product.category := None;
     Product.stock_quantity := 5; Product.is_active := true;
     Product.created_at := 1; Product.updated_at := 1 |}.

Definition P2 : Product.t :=
  {| Product.id := P2_id; Product.name := "P2"; Product.description := None;
     Product.price := 500; Product.category := None;
     Product.stock_quantity := 3; Product.is_active := true;
     Product.created_at := 1; Product.updated_at := 1 |}.

Definition cart_line (id product_id : string) (quantity t : Z) : CartItem.t :=
  {| CartItem.id := id; CartItem.clerk_id := buyer;
     CartItem.product_id := product_id; CartItem.quantity := quantity;
     CartItem.created_at := t; CartItem.updated_at := t |}.

Definition sample_order (owner : string) (status : OrderStatus) : Order.t :=
  {| Order.id := sample_order_id; Order.clerk_id := owner;
     Order.total_amount := 2500; Order.status := status;
     Order.shipping_address := Some sample_address; Order.order_note := None;
     Order.payment_id := None; Order.payment_method := None;
     Order.payment_status := None; Order.paid_at := None;
     Order.payment_info := None;
     Order.created_at := 5; Order.updated_at := 5 |}.

Definition sample_payment : TossBody :=
  {| body_message := None; body_method := "카드"; body_totalAmount := 2500;
     body_paymentKey := "pay_key_1"; body_orderId := sample_order_id;
     body_receipt := None; body_fee := None |}.

(** A world of [buyer] with the given tables, fault schedule and gateway. *)
Definition world_of (s : Store) (faults : list (option StoreError))
  (gateway : TossRequest -> FetchOutcome) : World :=
  {| session := Some buyer; toss_secret_key := Some "test_sk_1";
     db := s; store_faults := faults; store_calls := [];
     uuid_gen := sample_uuid; uuid_ctr := 0; clock := 10;
     toss := gateway; toss_calls := [] |}.

Definition gateway_approves : TossRequest -> FetchOutcome :=
  fun _ => FetchResponse true (Some sample_payment).

(** The store with one order of [owner] in [status] and no cart. *)
Definition store_with_order (owner : string) (status : OrderStatus) : Store :=
  {| products := [P1; P2]; cart_items := [];
     orders := [sample_order owner status]; order_items := [] |}.

(** The store with the given cart of [buyer] and no order. *)
Definition store_with_cart (cart : list CartItem.t) : Store :=
  {| products := [P1; P2]; cart_items := cart; orders := []; order_items := [] |}.

(** The cart of the build scenario: two of P1 at 1000, one of P2 at 500. *)
Definition scenario_cart : list CartItem.t :=
  [cart_line "c1" P1_id 2 2; cart_line "c2" P2_id 1 3].

(** A product at 94906267 with as many in stock, and the cart of [buyer]
    holding as many of it: price times quantity is 9007199515875289, an
    odd number above [2 ^ 53]. *)
Definition P3_id : string := "aaaaaaaa-0000-4000-8000-000000000003".

Definition P3 : Product.t :=
  {| Product.id := P3_id; Product.name := "P3"; Product.description := None;
     Product.price := 94906267; Product.category := None;
     Product.stock_quantity := 94906267; Product.is_active := true;
     Product.created_at := 1; Product.updated_at := 1 |}.

Definition store_with_bulk_cart : Store :=
  {| products := [P3]; cart_items := [cart_line "c3" P3_id 94906267 2];
     orders := []; order_items := [] |}.

(** Gateways that fail: the connection fails; the gateway answers with a
    non-success status and a body that is not JSON; it answers with a
    non-success status and a JSON error body. *)
Definition gateway_unreachable : TossRequest -> FetchOutcome :=
  fun _ => FetchRejects.

Definition gateway_rejects_unreadably : TossRequest -> FetchOutcome :=
  fun _ => FetchResponse false None.

Definition gateway_rejects (message : option string) : TossRequest -> FetchOutcome :=
  fun _ => FetchResponse false
             (Some {| body_message := message; body_method := "";
                      body_totalAmount := 0; body_paymentKey := "";
                      body_orderId := ""; body_receipt := None;
                      body_fee := None |}).

Definition a_store_error : StoreError :=
  {| code := "57014"; error_message := "canceling statement due to statement timeout" |}.

(** ** actions/cart.ts: changing and removing lines, totals *)

Inductive UpdateCartItemQuantityExit : Type :=
| UCQ_unauthenticated
| UCQ_invalid_quantity
| UCQ_not_found
| UCQ_product_unavailable
| UCQ_out_of_stock (stock_quantity : Z)
| UCQ_update_failed
| UCQ_updated
| UCQ_exception.

Definition UpdateCartItemQuantityExit_result (e : UpdateCartItemQuantityExit)
  : ActionResult :=
  match e with
  | UCQ_unauthenticated =>
      {| success := false; message := "로그인이 필요합니다." |}
  | UCQ_invalid_quantity =>
      {| success := false; message := "수량은 1개 이상이어야 합니다." |}
  | UCQ_not_found =>
      {| success := false; message := "장바구니 아이템을 찾을 수 없습니다." |}
  | UCQ_product_unavailable =>
      {| success := false;
         message := "상품을 찾을 수 없거나 현재 판매 중이 아닙니다." |}
  | UCQ_out_of_stock stock =>
      {| success := false;
         message := "재고가 부족합니다. (현재 재고: " ++ show stock ++ "개)" |}
  | UCQ_update_failed =>
      {| success := false; message := "수량을 변경하는 중 오류가 발생했습니다." |}
  | UCQ_updated =>
      {| success := true; message := "수량이 변경되었습니다." |}
  | UCQ_exception =>
      {| success := false;
         message := "오류가 발생했습니다. 잠시 후 다시 시도해주세요." |}
  end.

(** [.eq("id", cartItemId).eq("clerk_id", userId)] on [cart_items] *)
Definition is_cart_item_of (cartItemId userId : string) (c : CartItem.t) : bool :=
  String.eqb (CartItem.id c) cartItemId && String.eqb (CartItem.clerk_id c) userId.

(** [.from("cart_items").select("id, clerk_id, product_id, quantity,
    products (id, name, stock_quantity, is_active)").eq("id", cartItemId)
    .eq("clerk_id", userId).single()] *)
Definition select_cart_item_with_product (cartItemId userId : string)
  : Action (Reply (CartItem.t * option Product.t)) :=
  store_call op_select t_cart_items
    (s <- read_db (fun s => s) ;;
     ret (single
            (map (fun c =>
                    (c, find (fun p => String.eqb (Product.id p) (CartItem.product_id c))
                             (products s)))
                 (filter (is_cart_item_of cartItemId userId) (cart_items s))))).

(** [.from("cart_items").update({ quantity }).eq("id", cartItemId)
    .eq("clerk_id", userId)] *)
Definition update_cart_quantity_of (cartItemId userId : string) (q : Z)
  : Action (Reply unit) :=
  store_call op_update t_cart_items
    (write_db (fun s =>
       set_cart_items
         (map (fun c => if is_cart_item_of cartItemId userId c
                        then cart_set_quantity q c else c)
              (cart_items s)) s) ;;;
     ret (reply_data tt)).

Definition updateCartItemQuantity_exit (cartItemId : string) (quantity : Z)
  : Action UpdateCartItemQuantityExit :=
  try_catch
    (userId <- auth ;;
     match truthy userId with
     | None => ret UCQ_unauthenticated
     | Some userId =>
       if (quantity =? 0) || (quantity <? 1) then ret UCQ_invalid_quantity
       else
         r <- select_cart_item_with_product cartItemId userId ;;
         match error r, data r with
         | None, Some cartItem =>
             match snd cartItem with
             | None => ret UCQ_product_unavailable
             | Some product =>
                 if negb (Product.is_active product)
                 then ret UCQ_product_unavailable
                 else if Product.stock_quantity product <? quantity
                 then ret (UCQ_out_of_stock (Product.stock_quantity product))
                 else
                   r2 <- update_cart_quantity_of cartItemId userId quantity ;;
                   match error r2 with
                   | Some _ => ret UCQ_update_failed
                   | None => ret UCQ_updated
                   end
             end
         | _, _ => ret UCQ_not_found
         end
     end)
    (ret UCQ_exception).

Definition updateCartItemQuantity (cartItemId : string) (quantity : Z)
  : Action ActionResult :=
  fmap UpdateCartItemQuantityExit_result
       (updateCartItemQuantity_exit cartItemId quantity).

Inductive RemoveCartItemExit : Type :=
| RCI_unauthenticated
| RCI_delete_failed
| RCI_removed
| RCI_exception.

Definition RemoveCartItemExit_result (e : RemoveCartItemExit) : ActionResult :=
  match e with
  | RCI_unauthenticated =>
      {| success := false; message := "로그인이 필요합니다." |}
  | RCI_delete_failed =>
      {| success := false;
         message := "장바구니에서 삭제하는 중 오류가 발생했습니다." |}
  | RCI_removed =>
      {| success := true; message := "장바구니에서 삭제되었습니다." |}
  | RCI_exception =>
      {| success := false;
         message := "오류가 발생했습니다. 잠시 후 다시 시도해주세요." |}
  end.

(** [.from("cart_items").delete()] with its filters: the rows the filter
    selects go, the others stay. *)
Definition delete_cart_items (selected : CartItem.t -> bool) : Action (Reply unit) :=
  store_call op_delete t_cart_items
    (write_db (fun s =>
       set_cart_items (filter (fun c => negb (selected c)) (cart_items s)) s) ;;;
     ret (reply_data tt)).

Definition removeCartItem_exit (cartItemId : string) : Action RemoveCartItemExit :=
  try_catch
    (userId <- auth ;;
     match truthy userId with
     | None => ret RCI_unauthenticated
     | Some userId =>
         r <- delete_cart_items (is_cart_item_of cartItemId userId) ;;
         match error r with
         | Some _ => ret RCI_delete_failed
         | None => ret RCI_removed
         end
     end)
    (ret RCI_exception).

Definition removeCartItem (cartItemId : string) : Action ActionResult :=
  fmap RemoveCartItemExit_result (removeCartItem_exit cartItemId).

Inductive RemoveCartItemsExit : Type :=
| RCS_unauthenticated
| RCS_nothing_selected
| RCS_delete_failed
| RCS_removed (count : nat)
| RCS_exception.

Definition RemoveCartItemsExit_result (e : RemoveCartItemsExit) : ActionResult :=
  match e with
  | RCS_unauthenticated =>
      {| success := false; message := "로그인이 필요합니다." |}
  | RCS_nothing_selected =>
      {| success := false; message := "삭제할 아이템을 선택해주세요." |}
  | RCS_delete_failed =>
      {| success := false;
         message := "장바구니에서 삭제하는 중 오류가 발생했습니다." |}
  | RCS_removed count =>
      {| success := true;
         message := show (Z.of_nat count) ++ "개의 아이템이 삭제되었습니다." |}
  | RCS_exception =>
      {| success := false;
         message := "오류가 발생했습니다. 잠시 후 다시 시도해주세요." |}
  end.

(** [.eq("clerk_id", userId).in("id", cartItemIds)] on [cart_items] *)
Definition is_cart_item_among (cartItemIds : list string) (userId : string)
  (c : CartItem.t) : bool :=
  String.eqb (CartItem.clerk_id c) userId
  && existsb (String.eqb (CartItem.id c)) cartItemIds.

Definition removeCartItems_exit (cartItemIds : list string)
  : Action RemoveCartItemsExit :=
  try_catch
    (userId <- auth ;;
     match truthy userId with
     | None => ret RCS_unauthenticated
     | Some userId =>
         if (List.length cartItemIds =? 0)%nat then ret RCS_nothing_selected
         else
           r <- delete_cart_items (is_cart_item_among cartItemIds userId) ;;
           match error r with
           | Some _ => ret RCS_delete_failed
           | None => ret (RCS_removed (List.length cartItemIds))
           end
     end)
    (ret RCS_exception).

Definition removeCartItems (cartItemIds : list string) : Action ActionResult :=
  fmap RemoveCartItemsExit_result (removeCartItems_exit cartItemIds).

(** [.from("cart_items").select("*", { count: "exact", head: true })
    .eq("clerk_id", userId)], and [count || 0]. *)
Definition getCartItemsCount : Action Z :=
  try_catch
    (userId <- auth ;;
     match truthy userId with
     | None => ret 0
     | Some userId =>
         r <- store_call op_select t_cart_items
                (rows <- read_db cart_items ;;
                 ret (reply_data
                        (Z.of_nat
                           (List.length
                              (filter (fun c => String.eqb (CartItem.clerk_id c) userId)
                                      rows))))) ;;
         match error r with
         | Some _ => ret 0
         | None =>
             match data r with
             | Some count => ret count
             | None => ret 0
             end
         end
     end)
    (ret 0).

Record CartTotal : Type := { subtotal : Z; itemCount : Z }.

(** The loop of getCartTotal over the items:
    [const itemTotal = item.product.price * item.quantity;
     subtotal += itemTotal; itemCount += item.quantity;] *)
Definition cart_totals (cartItems : list CartItemWithProduct.t) : CartTotal :=
  fold_left
    (fun acc item =>
       let itemTotal := js_mul (Product.price (CartItemWithProduct.product item))
                               (CartItemWithProduct.quantity item) in
       {| subtotal := js_add (subtotal acc) itemTotal;
          itemCount := js_add (itemCount acc) (CartItemWithProduct.quantity item) |})
    cartItems {| subtotal := 0; itemCount := 0 |}.

Definition getCartTotal : Action CartTotal :=
  try_catch
    (cartItems <- getCartItems ;;
     ret (cart_totals cartItems))
    (ret {| subtotal := 0; itemCount := 0 |}).

(** ** actions/orders.ts: the list of orders *)

(** [.from("orders").select("*").eq("clerk_id", userId)
    .order("created_at", { ascending: false })], with
    [.eq("status", status)] added when a status is given: the rows the
    filters select, newest first. *)
Definition orders_query (userId : string) (status : option OrderStatus)
  (rows : list Order.t) : list Order.t :=
  order_by (fun a b => Order.created_at b <=? Order.created_at a)
    (filter (fun o => String.eqb (Order.clerk_id o) userId
                      && match status with
                         | Some st => OrderStatus_eqb (Order.status o) st
                         | None => true
                         end)
            rows).

Definition getOrders (status : option OrderStatus) : Action (list Order.t) :=
  try_catch
    (userId <- auth ;;
     match truthy userId with
     | None => ret []
     | Some userId =>
         r <- store_call op_select t_orders
                (rows <- read_db orders ;;
                 ret (reply_data (orders_query userId status rows))) ;;
         match error r with
         | Some _ => ret []
         | None =>
             match data r with
             | Some orders => ret orders
             | None => ret []
             end
         end
     end)
    (ret []).

(** ** Notions for what the actions leave alone *)

(** An action keeps a relation between the world it starts in and the
    world it ends in. *)
Definition preserves {A : Type} (R : World -> World -> Prop) (m : Action A) : Prop :=
  forall w, R w (world_after (m w)).

(** What an action never changes: the session, the configuration, the
    clock and the behaviour of the gateway. *)
Definition same_environment (w w' : World) : Prop :=
  session w' = session w /\
  toss_secret_key w' = toss_secret_key w /\
  clock w' = clock w /\
  toss w' = toss w /\
  uuid_gen w' = uuid_gen w.

Definition same_catalog (w w' : World) : Prop :=
  products (db w') = products (db w).

Definition same_orders (w w' : World) : Prop :=
  orders (db w') = orders (db w) /\ order_items (db w') = order_items (db w).

Definition same_cart (w w' : World) : Prop :=
  cart_items (db w') = cart_items (db w).

Definition no_gateway_call (w w' : World) : Prop :=
  toss_calls w' = toss_calls w.

(** How far an order has come: every edge of the status machine goes up. *)
Definition status_rank (s : OrderStatus) : nat :=
  match s with
  | pending => 0
  | confirmed => 1
  | shipped => 2
  | delivered => 3
  | cancelled => 3
  end.

(** A history of statuses in which each step is allowed by
    canUpdateOrderStatus. *)
Fixpoint legal_history (l : list OrderStatus) : bool :=
  match l with
  | a :: (b :: _) as rest => canUpdateOrderStatus a b && legal_history rest
  | _ => true
  end.

Definition same_cart_and_lines (w w' : World) : Prop :=
  cart_items (db w') = cart_items (db w) /\
  order_items (db w') = order_items (db w).

(** An action that completes normally in every world. *)
Definition never_throws {A : Type} (m : Action A) : Prop :=
  forall w, exists a, completion (m w) = Normal a.

(** ** More sample worlds *)

(** The world with the secret key of the gateway unset. *)
Definition without_secret_key (w : World) : World :=
  {| session := session w; toss_secret_key := None;
     db := db w; store_faults := store_faults w; store_calls := store_calls w;
     uuid_gen := uuid_gen w; uuid_ctr := uuid_ctr w; clock := clock w;
     toss := toss w; toss_calls := toss_calls w |}.

(** The world of another signed-in user, and of nobody. *)
Definition signed_in_as (userId : option string) (w : World) : World :=
  {| session := userId; toss_secret_key := toss_secret_key w;
     db := db w; store_faults := store_faults w; store_calls := store_calls w;
     uuid_gen := uuid_gen w; uuid_ctr := uuid_ctr w; clock := clock w;
     toss := toss w; toss_calls := toss_calls w |}.

(** ** Notions for the checkout *)

(** A cart line createOrder accepts: the product is active and its stock
    covers the quantity. *)
Definition purchasable (c : CartItemWithProduct.t) : Prop :=
  Product.is_active (CartItemWithProduct.product c) = true /\
  CartItemWithProduct.quantity c
  <= Product.stock_quantity (CartItemWithProduct.product c).

(** The failure createOrder returns for a line it does not accept. *)
Definition refusal_of (c : CartItemWithProduct.t) : CreateOrderExit :=
  if negb (Product.is_active (CartItemWithProduct.product c))
  then CO_inactive_product (Product.name (CartItemWithProduct.product c))
  else CO_out_of_stock (Product.name (CartItemWithProduct.product c))
         (CartItemWithProduct.quantity c)
         (Product.stock_quantity (CartItemWithProduct.product c)).

(** ** Notions for the cart *)

(** The sum of price times quantity over the items of a cart, and the
    size of what the loop of getCartTotal adds up: the magnitudes of the
    line amounts, and those of the quantities. *)
Definition cart_sum (cartItems : list CartItemWithProduct.t) : Z :=
  fold_right
    (fun item s => Product.price (CartItemWithProduct.product item)
                   * CartItemWithProduct.quantity item + s)
    0 cartItems.

Definition cart_magnitude (cartItems : list CartItemWithProduct.t) : Z :=
  fold_right
    (fun item s => Z.abs (Product.price (CartItemWithProduct.product item)
                          * CartItemWithProduct.quantity item) + s)
    0 cartItems.

Definition units_magnitude (cartItems : list CartItemWithProduct.t) : Z :=
  fold_right (fun item s => Z.abs (CartItemWithProduct.quantity item) + s)
             0 cartItems.

(** The line addToCart inserts: the store gives it its id and the time. *)
Definition new_cart_line (w : World) (userId productId : string) (quantity : Z)
  : CartItem.t :=
  {| CartItem.id := uuid_gen w (uuid_ctr w); CartItem.clerk_id := userId;
     CartItem.product_id := productId; CartItem.quantity := quantity;
     CartItem.created_at := clock w; CartItem.updated_at := clock w |}.

(** The quantity of the buyer's line for a product: 0 when there is no
    line. *)
Definition quantity_in_cart (userId productId : string) (s : Store) : Z :=
  match filter (is_cart_line_of userId productId) (cart_items s) with
  | [line] => CartItem.quantity line
  | _ => 0
  end.




(** ** Notions for the lists the queries return *)

From Stdlib Require Import Sorted Permutation.

(** Newest first, and oldest first, by a creation time. *)
Definition newest_first {A : Type} (created_at : A -> Z) (l : list A) : Prop :=
  StronglySorted (fun a b => created_at b <= created_at a) l.

Definition oldest_first {A : Type} (created_at : A -> Z) (l : list A) : Prop :=
  StronglySorted (fun a b => created_at a <= created_at b) l.

(** A cart row with its product, as getCartItems returns it. *)
Definition priced_line (c : CartItem.t) (p : Product.t) : CartItemWithProduct.t :=
  {| CartItemWithProduct.id := CartItem.id c;
     CartItemWithProduct.clerk_id := CartItem.clerk_id c;
     CartItemWithProduct.product_id := CartItem.product_id c;
     CartItemWithProduct.quantity := CartItem.quantity c;
     CartItemWithProduct.created_at := CartItem.created_at c;
     CartItemWithProduct.updated_at := CartItem.updated_at c;
     CartItemWithProduct.product := p |}.

(** The product row a cart row refers to. *)
Definition product_of (c : CartItem.t) (s : Store) : option Product.t :=
  find (fun p => String.eqb (Product.id p) (CartItem.product_id c)) (products s).

(** The rows getOrders asks for. *)
Definition is_listed_order (userId : string) (status : option OrderStatus)
  (o : Order.t) : Prop :=
  Order.clerk_id o = userId /\
  match status with
  | Some st => Order.status o = st
  | None => True
  end.

(** ** Notions for the ids *)

(** A string of exactly [n] hexadecimal digits, in either case. *)
Definition hex_digits (n : nat) (s : string) : Prop :=
  String.length s = n /\ forallb is_hex (list_ascii_of_string s) = true.

(** * Properties *)

(** ** Numbers *)

(** Whole values within [MAX_SAFE_INTEGER] are doubles, and sums and
    products that stay within it are exact. *)
Lemma round_to_double_exact z :
  Z.abs z <= MAX_SAFE_INTEGER -> round_to_double z = z.
Proof.
  intros Hz. unfold round_to_double.
  assert (He : Z.max 0 (Z.log2 (Z.abs z) - 52) = 0).
  { apply Z.max_l.
    destruct (Z.eq_dec (Z.abs z) 0) as [E|E]; [rewrite E; simpl; lia|].
    assert (Z.log2 (Z.abs z) < 53); [|lia].
    apply Z.log2_lt_pow2; unfold MAX_SAFE_INTEGER in Hz; lia. }
  rewrite He. cbv zeta.
  rewrite !Z.shiftl_0_r, !Z.shiftr_0_r, Z.sub_diag.
  change (2 * 0 <? 2 ^ 0) with true. cbv iota. lia.
Qed.

Lemma js_add_exact a b : Z.abs (a + b) <= MAX_SAFE_INTEGER -> js_add a b = a + b.
Proof. apply round_to_double_exact. Qed.

Lemma js_mul_exact a b : Z.abs (a * b) <= MAX_SAFE_INTEGER -> js_mul a b = a * b.
Proof. apply round_to_double_exact. Qed.

Lemma magnitude_nonneg {A : Type} (f : A -> Z) (l : list A) :
  0 <= fold_right (fun x s => Z.abs (f x) + s) 0 l.
Proof. induction l as [|x l IH]; simpl; lia. Qed.

(** A reduce that adds up products, started at [acc]: exact while the
    magnitudes it has to hold stay within [MAX_SAFE_INTEGER]. *)
Lemma js_reduce_exact {A : Type} (p q : A -> Z) (l : list A) acc :
  Z.abs acc + fold_right (fun x s => Z.abs (p x * q x) + s) 0 l <= MAX_SAFE_INTEGER ->
  fold_left (fun sum x => js_add sum (js_mul (p x) (q x))) l acc
  = acc + fold_right (fun x s => p x * q x + s) 0 l.
Proof.
  revert acc. induction l as [|x l IH]; simpl; intros acc H; [lia|].
  pose proof (magnitude_nonneg (fun x => p x * q x) l) as Hl. simpl in Hl.
  rewrite js_mul_exact by lia.
  rewrite js_add_exact by lia.
  rewrite IH by lia. lia.
Qed.

Lemma js_count_exact {A : Type} (q : A -> Z) (l : list A) acc :
  Z.abs acc + fold_right (fun x s => Z.abs (q x) + s) 0 l <= MAX_SAFE_INTEGER ->
  fold_left (fun sum x => js_add sum (q x)) l acc
  = acc + fold_right (fun x s => q x + s) 0 l.
Proof.
  revert acc. induction l as [|x l IH]; simpl; intros acc H; [lia|].
  pose proof (magnitude_nonneg q l) as Hl.
  rewrite js_add_exact by lia.
  rewrite IH by lia. lia.
Qed.

(** ** Store calls and list updates *)

Lemma store_call_no_fault {A : Type} op t (run : Action (Reply A)) w :
  no_fault 0 w -> store_call op t run w = run (tick op t w).
Proof.
  unfold no_fault, store_call.
  destruct (store_faults w) as [|f l]; simpl; intros H.
  - reflexivity.
  - rewrite H. reflexivity.
Qed.

Lemma store_call_fault {A : Type} op t (run : Action (Reply A)) w e :
  nth 0 (store_faults w) None = Some e ->
  store_call op t run w = (Normal (reply_error e), tick op t w).
Proof.
  unfold store_call.
  destruct (store_faults w) as [|f l]; simpl; intros H.
  - discriminate.
  - rewrite H. reflexivity.
Qed.

Lemma nth_faults_tick n op t w :
  nth n (store_faults (tick op t w)) None = nth (S n) (store_faults w) None.
Proof.
  unfold tick; simpl. destruct (store_faults w); simpl; [now destruct n | reflexivity].
Qed.

Lemma no_fault_tick n op t w : no_fault (S n) w -> no_fault n (tick op t w).
Proof. unfold no_fault. now rewrite nth_faults_tick. Qed.

Lemma store_calls_tick op t w :
  store_calls (tick op t w) = (store_calls w ++ [(op, t)])%list.
Proof. reflexivity. Qed.

Lemma faults_tick op t w : store_faults (tick op t w) = tl (store_faults w).
Proof. reflexivity. Qed.

Lemma faults_set_db s w : store_faults (set_db s w) = store_faults w.
Proof. reflexivity. Qed.

Lemma faults_set_uuid_ctr n w : store_faults (set_uuid_ctr n w) = store_faults w.
Proof. reflexivity. Qed.

Lemma nth_tl {A : Type} n (l : list A) d : nth n (tl l) d = nth (S n) l d.
Proof. destruct l; [now destruct n | reflexivity]. Qed.

Create Rewrite HintDb faults.
#[export] Hint Rewrite faults_tick faults_set_db faults_set_uuid_ctr @nth_tl : faults.

Lemma hd_faults w : hd None (store_faults w) = nth 0 (store_faults w) None.
Proof. now destruct (store_faults w). Qed.

Lemma filter_update {A : Type} (p : A -> bool) (f : A -> A) (l : list A) :
  (forall a, p (f a) = p a) ->
  filter p (map (fun a => if p a then f a else a) l) = map f (filter p l).
Proof.
  intros Hp. induction l as [|a l IH]; simpl; [reflexivity|].
  destruct (p a) eqn:E.
  - rewrite Hp, E. simpl. now rewrite IH.
  - rewrite E. exact IH.
Qed.

Lemma OrderStatus_eqb_eq a b : OrderStatus_eqb a b = true <-> a = b.
Proof. destruct a, b; simpl; split; intro H; try reflexivity; discriminate H. Qed.

Lemma OrderStatus_eqb_refl a : OrderStatus_eqb a a = true.
Proof. now destruct a. Qed.

(** [.order(...)] rearranges the rows and loses none. *)
Lemma insert_by_perm {A : Type} (le : A -> A -> bool) x l :
  Permutation (insert_by le x l) (x :: l).
Proof.
  induction l as [|y l IH]; simpl; [reflexivity|].
  destruct (le x y); [reflexivity|].
  rewrite IH. apply perm_swap.
Qed.

Lemma order_by_perm {A : Type} (le : A -> A -> bool) l :
  Permutation (order_by le l) l.
Proof.
  unfold order_by. induction l as [|x l IH]; simpl; [reflexivity|].
  rewrite insert_by_perm. now constructor.
Qed.

(** ** The order status machine *)

Lemma canUpdateOrderStatus_table from to :
  canUpdateOrderStatus from to = true <-> In (from, to) legal_edges.
Proof.
  unfold legal_edges; split.
  - destruct from, to; simpl; intro H; try discriminate H; tauto.
  - simpl; intros [H|[H|[H|[H|[H|[H|[]]]]]]]; inversion H; reflexivity.
Qed.

Lemma canUpdateOrderStatus_irrefl s : canUpdateOrderStatus s s = false.
Proof. now destruct s. Qed.

(** What updateOrderStatus does once the lookup has found the order. *)
Lemma updateOrderStatus_exit_found w orderId userId order to :
  truthy (session w) = Some userId ->
  uuidRegex_test orderId = true ->
  filter (is_order_of orderId userId) (orders (db w)) = [order] ->
  no_fault 0 w ->
  updateOrderStatus_exit orderId to w =
    let w1 := tick op_select t_orders w in
    if OrderStatus_eqb (Order.status order) to
    then (Normal UOS_already_in_status, w1)
    else if canUpdateOrderStatus (Order.status order) to
    then
      match nth 1 (store_faults w) None with
      | Some _ => (Normal UOS_update_failed, tick op_update t_orders w1)
      | None =>
          (Normal (UOS_updated to),
           set_db (set_orders
                     (map (fun o => if is_order_of orderId userId o
                                    then with_status to o else o)
                          (orders (db w))) (db w))
                  (tick op_update t_orders w1))
      end
    else (Normal (UOS_not_allowed (Order.status order) to), w1).
Proof.
  intros Hs Hu Hf H0.
  unfold updateOrderStatus_exit, try_catch, bind, auth.
  rewrite Hs, Hu. simpl.
  unfold select_order_of. rewrite store_call_no_fault by assumption.
  unfold bind, read_db, ret. simpl. rewrite Hf. simpl.
  destruct (OrderStatus_eqb (Order.status order) to); [reflexivity|].
  destruct (canUpdateOrderStatus (Order.status order) to); simpl; [|reflexivity].
  unfold update_order_of, store_call.
  rewrite hd_faults, nth_faults_tick.
  destruct (nth 1 (store_faults w) None); reflexivity.
Qed.

(** C2. For an order the caller owns, in status [from], updateOrderStatus
    to [to] succeeds only when (from, to) is one of pending->confirmed,
    pending->cancelled, confirmed->shipped, confirmed->cancelled,
    shipped->delivered, shipped->cancelled, and for each of these it
    succeeds (the store answering its two calls) and leaves the order in
    status [to]; a request for the status the order already has is
    rejected with the already-in-that-status failure. The decision is that
    of canUpdateOrderStatus, which holds on exactly the six edges. *)
Theorem updateOrderStatus_legal_edges :
  forall w orderId userId order to,
    truthy (session w) = Some userId ->
    uuidRegex_test orderId = true ->
    filter (is_order_of orderId userId) (orders (db w)) = [order] ->
    (forall from' to', canUpdateOrderStatus from' to' = true
                       <-> In (from', to') legal_edges) /\
    (exists res,
        completion (updateOrderStatus orderId to w) = Normal res /\
        (success res = true -> In (Order.status order, to) legal_edges) /\
        (In (Order.status order, to) legal_edges ->
         no_fault 0 w -> no_fault 1 w ->
         success res = true /\
         filter (is_order_of orderId userId)
                (orders (db (world_after (updateOrderStatus orderId to w))))
         = [with_status to order]) /\
        (to = Order.status order ->
         success res = false /\
         (no_fault 0 w ->
          res = UpdateOrderStatusExit_result UOS_already_in_status /\
          db (world_after (updateOrderStatus orderId to w)) = db w))).
Proof.
  intros w orderId userId order to Hs Hu Hf.
  split; [exact canUpdateOrderStatus_table|].
  unfold updateOrderStatus, fmap, bind, completion, world_after.
  destruct (nth 0 (store_faults w) None) as [e|] eqn:E0.
  - (* the lookup fails: not found *)
    assert (Hx : updateOrderStatus_exit orderId to w
                 = (Normal UOS_not_found, tick op_select t_orders w)).
    { unfold updateOrderStatus_exit, try_catch, bind, auth.
      rewrite Hs, Hu. simpl. unfold select_order_of.
      rewrite (store_call_fault _ _ _ _ e) by assumption. reflexivity. }
    rewrite Hx. simpl. eexists; split; [reflexivity|]. simpl.
    unfold no_fault. rewrite E0.
    repeat split; intros; discriminate.
  - rewrite (updateOrderStatus_exit_found w orderId userId order to Hs Hu Hf E0).
    cbv zeta.
    destruct (OrderStatus_eqb (Order.status order) to) eqn:Eeq.
    + apply OrderStatus_eqb_eq in Eeq. simpl.
      eexists; split; [reflexivity|]. simpl.
      split; [discriminate|]. split.
      * intros Hin. apply canUpdateOrderStatus_table in Hin.
        rewrite <- Eeq, canUpdateOrderStatus_irrefl in Hin. discriminate.
      * intros _. split; [reflexivity|]. intros _. split; reflexivity.
    + assert (Hne : to <> Order.status order).
      { intros ->. rewrite OrderStatus_eqb_refl in Eeq. discriminate. }
      destruct (canUpdateOrderStatus (Order.status order) to) eqn:Ecan.
      * apply canUpdateOrderStatus_table in Ecan.
        destruct (nth 1 (store_faults w) None) eqn:E1; simpl;
          (eexists; split; [reflexivity|]); simpl.
        -- split; [discriminate|]. split; [|intros; contradiction].
           unfold no_fault. rewrite E1. intros; discriminate.
        -- split; [intros; exact Ecan|]. split; [|intros; contradiction].
           intros _ _ _. split; [reflexivity|].
           rewrite filter_update by reflexivity. now rewrite Hf.
      * simpl. eexists; split; [reflexivity|]. simpl.
        split; [discriminate|]. split; [|intros; contradiction].
        intros Hin. apply canUpdateOrderStatus_table in Hin. congruence.
Qed.

Lemma updateOrderStatus_legal_edges_witness :
  exists res,
    completion (updateOrderStatus sample_order_id cancelled
                  (world_of (store_with_order buyer shipped) [] gateway_approves))
    = Normal res /\ success res = true.
Proof.
  destruct (updateOrderStatus_legal_edges
              (world_of (store_with_order buyer shipped) [] gateway_approves)
              sample_order_id buyer (sample_order buyer shipped) cancelled
              eq_refl eq_refl eq_refl)
    as [_ [res [Hres [_ [Hlegal _]]]]].
  exists res. split; [exact Hres|].
  apply Hlegal; [simpl; tauto | reflexivity | reflexivity].
Defined.

(** ** Looking an order up *)

Lemma is_order_of_clerk orderId userId l o :
  filter (is_order_of orderId userId) l = [o] ->
  String.eqb (Order.clerk_id o) userId = true /\ Order.id o = orderId /\ In o l.
Proof.
  intros H. assert (Hin : In o (filter (is_order_of orderId userId) l)).
  { rewrite H. now left. }
  apply filter_In in Hin. destruct Hin as [Hin Hp].
  unfold is_order_of in Hp. apply andb_prop in Hp. destruct Hp as [Hi Hc].
  apply String.eqb_eq in Hi. auto.
Qed.

(** getOrderById never throws and only reads; an order it returns is the
    single row with the requested id and the caller's id, found by two
    store calls that did not fail. *)
Lemma getOrderById_run orderId w :
  exists r w',
    getOrderById orderId w = (Normal r, w') /\
    session w' = session w /\ toss_secret_key w' = toss_secret_key w /\
    toss w' = toss w /\ clock w' = clock w /\
    untouched w w' /\
    (forall o, r = Some o ->
       w' = tick op_select t_order_items (tick op_select t_orders w) /\
       no_fault 0 w /\ no_fault 1 w /\ uuidRegex_test orderId = true /\
       exists userId,
         truthy (session w) = Some userId /\
         filter (is_order_of orderId userId) (orders (db w)) = [owi_order o]).
Proof.
  unfold getOrderById, try_catch, bind, auth, untouched.
  destruct (truthy (session w)) as [userId|] eqn:Hs.
  2:{ simpl. exists None, w. repeat split; try reflexivity; try discriminate.
      exists []. now rewrite app_nil_r. }
  destruct (uuidRegex_test orderId) eqn:Hu; simpl.
  2:{ exists None, w. repeat split; try reflexivity; try discriminate.
      exists []. now rewrite app_nil_r. }
  unfold select_order_of, store_call. rewrite hd_faults.
  destruct (nth 0 (store_faults w) None) as [e|] eqn:E0.
  { simpl. eexists None, _. split; [reflexivity|]. simpl.
    repeat split; try reflexivity; try discriminate.
    exists [(op_select, t_orders)]. split; reflexivity. }
  unfold bind, read_db, ret. simpl.
  destruct (filter (is_order_of orderId userId) (orders (db w)))
    as [|o [|o' l]] eqn:Hf; simpl.
  { eexists None, _. split; [reflexivity|]. simpl.
    repeat split; try reflexivity; try discriminate.
    exists [(op_select, t_orders)]. split; reflexivity. }
  2:{ eexists None, _. split; [reflexivity|]. simpl.
    repeat split; try reflexivity; try discriminate.
    exists [(op_select, t_orders)]. split; reflexivity. }
  unfold select_order_items_of, store_call. rewrite hd_faults, nth_faults_tick.
  destruct (nth 1 (store_faults w) None) as [e|] eqn:E1; simpl.
  { eexists None, _. split; [reflexivity|]. simpl.
    repeat split; try reflexivity; try discriminate.
    exists [(op_select, t_orders); (op_select, t_order_items)].
    split; [now rewrite <- app_assoc | reflexivity]. }
  eexists (Some _), _. split; [reflexivity|]. simpl.
  repeat (split; [reflexivity|]).
  split.
  - repeat (split; [reflexivity|]).
    exists [(op_select, t_orders); (op_select, t_order_items)].
    split; [now rewrite <- app_assoc | reflexivity].
  - intros o0 H. inversion H; subst; simpl.
    repeat (split; [assumption || reflexivity|]).
    exists userId. split; [reflexivity | assumption].
Qed.

(** The order getOrderById returns, with the facts the actions use. *)
Lemma getOrderById_Some orderId w order :
  completion (getOrderById orderId w) = Normal (Some order) ->
  exists userId,
    truthy (session w) = Some userId /\
    filter (is_order_of orderId userId) (orders (db w)) = [owi_order order] /\
    String.eqb (Order.clerk_id (owi_order order)) userId = true /\
    no_fault 0 w /\ no_fault 1 w /\
    getOrderById orderId w
    = (Normal (Some order),
       tick op_select t_order_items (tick op_select t_orders w)).
Proof.
  intros Hget.
  destruct (getOrderById_run orderId w)
    as (r & w' & Hrun & _ & _ & _ & _ & _ & Hsome).
  unfold completion in Hget. rewrite Hrun in Hget. simpl in Hget.
  inversion Hget; subst r.
  destruct (Hsome order eq_refl) as (Hw' & H0 & H1 & _ & userId & Hs & Hf).
  exists userId. repeat (split; [assumption|]).
  split; [eapply is_order_of_clerk; eassumption|].
  repeat (split; [assumption|]).
  now rewrite Hrun, Hw'.
Qed.

(** ** confirmPayment: the amount check *)

(** C1. For every order that confirmPayment loads and every reported
    amount other than the order's total_amount, confirmPayment returns the
    amount-mismatch failure, and when it returns the gateway has not been
    called, no store call has written, and the tables (the order with all
    its fields among them) are as they were. *)
Theorem confirmPayment_amount_mismatch :
  forall w paymentKey orderId amount order,
    completion (getOrderById orderId w) = Normal (Some order) ->
    amount <> Order.total_amount (owi_order order) ->
    completion (confirmPayment_exit paymentKey orderId amount w)
    = Normal CP_amount_mismatch /\
    completion (confirmPayment paymentKey orderId amount w)
    = Normal {| success := false; message := "결제 금액이 일치하지 않습니다." |} /\
    untouched w (world_after (confirmPayment paymentKey orderId amount w)).
Proof.
  intros w paymentKey orderId amount order Hget Hne.
  destruct (getOrderById_Some _ _ _ Hget) as (userId & Hs & _ & Hc & _ & _ & Hrun).
  assert (Hx : confirmPayment_exit paymentKey orderId amount w
               = (Normal CP_amount_mismatch,
                  tick op_select t_order_items (tick op_select t_orders w))).
  { unfold confirmPayment_exit, try_catch, bind, auth.
    rewrite Hs, Hrun, Hc. simpl.
    destruct (Z.eqb_spec (Order.total_amount (owi_order order)) amount) as [E|E];
      [congruence | reflexivity]. }
  unfold confirmPayment, fmap, bind, completion, world_after.
  rewrite Hx. simpl. repeat split.
  exists [(op_select, t_orders); (op_select, t_order_items)].
  split; [now rewrite !store_calls_tick, <- app_assoc | reflexivity].
Qed.

Lemma confirmPayment_amount_mismatch_witness :
  completion (confirmPayment "pay_key_1" sample_order_id 2400
                (world_of (store_with_order buyer pending) [] gateway_approves))
  = Normal {| success := false; message := "결제 금액이 일치하지 않습니다." |}.
Proof.
  apply (confirmPayment_amount_mismatch
           (world_of (store_with_order buyer pending) [] gateway_approves)
           "pay_key_1" sample_order_id 2400
           {| owi_order := sample_order buyer pending; owi_order_items := [] |}).
  - reflexivity.
  - simpl. lia.
Defined.

(** ** The ownership re-check of the payment actions *)

Lemma getOrderById_not_owner orderId w userId :
  truthy (session w) = Some userId ->
  not_owner userId orderId (db w) ->
  completion (getOrderById orderId w) = Normal None.
Proof.
  intros Hs Hno.
  destruct (getOrderById_run orderId w)
    as (r & w' & Hrun & _ & _ & _ & _ & _ & Hsome).
  unfold completion. rewrite Hrun. simpl.
  destruct r as [o|]; [exfalso | reflexivity].
  destruct (Hsome o eq_refl) as (_ & _ & _ & _ & u & Hu & Hf).
  assert (u = userId) by congruence. subst u.
  apply is_order_of_clerk in Hf. destruct Hf as (Hc & Hi & Hin).
  apply String.eqb_eq in Hc. exact (Hno _ Hin Hi Hc).
Qed.

Ltac run_getOrderById orderId w :=
  let r := fresh "r" in
  let w' := fresh "w'" in
  let Hrun := fresh "Hrun" in
  let Hsome := fresh "Hsome" in
  destruct (getOrderById_run orderId w)
    as (r & w' & Hrun & _ & _ & _ & _ & _ & Hsome);
  rewrite Hrun; simpl;
  destruct r as [?o|];
  [ let u := fresh "u" in
    let Hu := fresh "Hu" in
    let Hf := fresh "Hf" in
    destruct (Hsome _ eq_refl) as (_ & _ & _ & _ & u & Hu & Hf);
    apply is_order_of_clerk in Hf; destruct Hf as (Hf & _ & _)
  | ].

Lemma requestPayment_never_forbidden orderId w :
  completion (requestPayment_exit orderId w) <> Normal RP_forbidden.
Proof.
  unfold requestPayment_exit, try_catch, bind, auth, completion.
  destruct (truthy (session w)) as [userId|] eqn:Hs; simpl; [|discriminate].
  run_getOrderById orderId w; [|discriminate].
  assert (u = userId) by congruence. subst u. rewrite Hf. simpl.
  destruct (Order.payment_status (owi_order o)) as [[]|]; simpl; try discriminate;
    destruct (OrderStatus_eqb (Order.status (owi_order o)) pending);
    simpl; discriminate.
Qed.

Lemma cancelPayment_never_forbidden orderId w :
  completion (cancelPayment_exit orderId w) <> Normal XP_forbidden.
Proof.
  unfold cancelPayment_exit, try_catch, bind, auth, completion.
  destruct (truthy (session w)) as [userId|] eqn:Hs; simpl; [|discriminate].
  run_getOrderById orderId w; [|discriminate].
  assert (u = userId) by congruence. subst u. rewrite Hf. simpl.
  destruct (negb (OrderStatus_eqb (Order.status (owi_order o)) pending)
            && negb (OrderStatus_eqb (Order.status (owi_order o)) confirmed));
    simpl; [discriminate|].
  unfold update_order_of, store_call.
  destruct (hd None (store_faults w')); simpl; discriminate.
Qed.

Lemma confirmPayment_never_forbidden paymentKey orderId amount w :
  completion (confirmPayment_exit paymentKey orderId amount w) <> Normal CP_forbidden.
Proof.
  unfold confirmPayment_exit, try_catch, bind, auth, completion.
  destruct (truthy (session w)) as [userId|] eqn:Hs; simpl; [|discriminate].
  run_getOrderById orderId w; [|discriminate].
  assert (u = userId) by congruence. subst u. rewrite Hf. simpl.
  destruct (Order.total_amount (owi_order o) =? amount); simpl; [|discriminate].
  destruct (truthy (toss_secret_key w')) as [secretKey|]; simpl; [|discriminate].
  unfold fetch_toss.
  destruct (toss w' _) as [|ok [body|]]; simpl; try discriminate;
    destruct ok; simpl; try discriminate.
  unfold update_order_of, store_call, now, bind. simpl.
  destruct (hd None (store_faults w')); simpl; discriminate.
Qed.

(** C10. The order getOrderById returns is one of the authenticated user,
    so the ownership re-check of requestPayment, confirmPayment and
    cancelPayment never takes its permission-error return; a user who does
    not own the order with the requested id gets the not-found return from
    all three. *)
Theorem ownership_recheck_unreachable :
  forall w paymentKey orderId amount,
    (forall order,
        completion (getOrderById orderId w) = Normal (Some order) ->
        truthy (session w) = Some (Order.clerk_id (owi_order order))) /\
    completion (requestPayment_exit orderId w) <> Normal RP_forbidden /\
    completion (confirmPayment_exit paymentKey orderId amount w)
      <> Normal CP_forbidden /\
    completion (cancelPayment_exit orderId w) <> Normal XP_forbidden /\
    (forall userId,
        truthy (session w) = Some userId ->
        not_owner userId orderId (db w) ->
        completion (requestPayment_exit orderId w) = Normal RP_not_found /\
        completion (confirmPayment_exit paymentKey orderId amount w)
          = Normal CP_not_found /\
        completion (cancelPayment_exit orderId w) = Normal XP_not_found).
Proof.
  intros w paymentKey orderId amount.
  split.
  { intros order Hget.
    destruct (getOrderById_Some _ _ _ Hget) as (userId & Hs & _ & Hc & _).
    apply String.eqb_eq in Hc. congruence. }
  split; [apply requestPayment_never_forbidden|].
  split; [apply confirmPayment_never_forbidden|].
  split; [apply cancelPayment_never_forbidden|].
  intros userId Hs Hno.
  pose proof (getOrderById_not_owner orderId w userId Hs Hno) as Hnone.
  destruct (getOrderById_run orderId w) as (r & w' & Hrun & _).
  unfold completion in Hnone. rewrite Hrun in Hnone. simpl in Hnone.
  inversion Hnone; subst r.
  unfold requestPayment_exit, confirmPayment_exit, cancelPayment_exit,
    try_catch, bind, auth, completion.
  rewrite Hs, Hrun. simpl. repeat split.
Qed.

Lemma ownership_recheck_unreachable_witness :
  truthy (session (world_of (store_with_order buyer pending) [] gateway_approves))
  = Some (Order.clerk_id (sample_order buyer pending)) /\
  completion (confirmPayment_exit "pay_key_1" sample_order_id 2500
                (world_of (store_with_order other_buyer pending) [] gateway_approves))
  = Normal CP_not_found.
Proof.
  split.
  - destruct (ownership_recheck_unreachable
                (world_of (store_with_order buyer pending) [] gateway_approves)
                "pay_key_1" sample_order_id 2500)
      as (Howner & _).
    apply (Howner {| owi_order := sample_order buyer pending;
                     owi_order_items := [] |}).
    reflexivity.
  - destruct (ownership_recheck_unreachable
                (world_of (store_with_order other_buyer pending) [] gateway_approves)
                "pay_key_1" sample_order_id 2500)
      as (_ & _ & _ & _ & Hnot).
    apply (Hnot buyer).
    + reflexivity.
    + intros o [Ho|[]] _; subst o; simpl. discriminate.
Defined.

(** ** cancelPayment *)

(** What cancelPayment does once getOrderById has returned the order. *)
Lemma cancelPayment_exit_found w orderId userId order :
  truthy (session w) = Some userId ->
  completion (getOrderById orderId w) = Normal (Some order) ->
  cancelPayment_exit orderId w =
    let w2 := tick op_select t_order_items (tick op_select t_orders w) in
    if negb (OrderStatus_eqb (Order.status (owi_order order)) pending)
       && negb (OrderStatus_eqb (Order.status (owi_order order)) confirmed)
    then (Normal (XP_not_cancellable (Order.status (owi_order order))), w2)
    else
      match nth 2 (store_faults w) None with
      | Some _ => (Normal XP_update_failed, tick op_update t_orders w2)
      | None =>
          (Normal XP_cancelled,
           set_db (set_orders
                     (map (fun o => if is_order_of orderId userId o
                                    then with_cancellation o else o)
                          (orders (db w))) (db w))
                  (tick op_update t_orders w2))
      end.
Proof.
  intros Hs Hget.
  destruct (getOrderById_Some _ _ _ Hget) as (u & Hu & _ & Hc & _ & _ & Hrun).
  assert (u = userId) by congruence. subst u.
  unfold cancelPayment_exit, try_catch, bind, auth.
  rewrite Hs, Hrun, Hc. simpl.
  destruct (negb (OrderStatus_eqb (Order.status (owi_order order)) pending)
            && negb (OrderStatus_eqb (Order.status (owi_order order)) confirmed));
    simpl; [reflexivity|].
  unfold update_order_of, store_call.
  rewrite hd_faults, !nth_faults_tick.
  destruct (nth 2 (store_faults w) None); reflexivity.
Qed.

(** C8. For an order that cancelPayment loads: it succeeds only when the
    status is pending or confirmed, and then (the update not failing) the
    order is left with status cancelled and payment_status cancelled; for
    every other status it fails and writes nothing. In particular a
    shipped order is refused by cancelPayment, while updateOrderStatus to
    cancelled succeeds on the same order. *)
Theorem cancelPayment_pending_or_confirmed_only :
  forall w orderId order,
    completion (getOrderById orderId w) = Normal (Some order) ->
    exists userId res,
      truthy (session w) = Some userId /\
      completion (cancelPayment orderId w) = Normal res /\
      (success res = true ->
       Order.status (owi_order order) = pending
       \/ Order.status (owi_order order) = confirmed) /\
      (Order.status (owi_order order) = pending
       \/ Order.status (owi_order order) = confirmed ->
       no_fault 2 w ->
       success res = true /\
       exists o',
         filter (is_order_of orderId userId)
                (orders (db (world_after (cancelPayment orderId w)))) = [o'] /\
         Order.status o' = cancelled /\
         Order.payment_status o' = Some pay_cancelled) /\
      (Order.status (owi_order order) <> pending ->
       Order.status (owi_order order) <> confirmed ->
       success res = false /\
       untouched w (world_after (cancelPayment orderId w))) /\
      (Order.status (owi_order order) = shipped ->
       success res = false /\
       completion (updateOrderStatus orderId cancelled w)
       = Normal (UpdateOrderStatusExit_result (UOS_updated cancelled))).
Proof.
  intros w orderId order Hget.
  destruct (getOrderById_Some _ _ _ Hget) as (userId & Hs & Hf & Hc & H0 & H1 & Hrun).
  destruct (getOrderById_run orderId w)
    as (r & w' & Hrun' & _ & _ & _ & _ & _ & Hsome).
  rewrite Hrun in Hrun'. inversion Hrun'; subst r w'; clear Hrun'.
  destruct (Hsome order eq_refl) as (_ & _ & _ & Huuid & _).
  exists userId.
  unfold cancelPayment, fmap, bind, completion, world_after.
  rewrite (cancelPayment_exit_found w orderId userId order Hs Hget). cbv zeta.
  destruct (Order.status (owi_order order)) eqn:Est; simpl.
  - (* pending *)
    destruct (nth 2 (store_faults w) None) eqn:E2; simpl;
      (eexists; split; [exact Hs|]; split; [reflexivity|]); simpl.
    + split; [discriminate|]. split.
      * unfold no_fault. rewrite E2. intros; discriminate.
      * split; [intros H; now contradiction H | discriminate].
    + split; [now left|]. split.
      * intros _ _. split; [reflexivity|].
        rewrite filter_update by reflexivity. rewrite Hf. simpl.
        eexists; split; [reflexivity|]. split; reflexivity.
      * split; [intros H; now contradiction H | discriminate].
  - (* confirmed *)
    destruct (nth 2 (store_faults w) None) eqn:E2; simpl;
      (eexists; split; [exact Hs|]; split; [reflexivity|]); simpl.
    + split; [discriminate|]. split.
      * unfold no_fault. rewrite E2. intros; discriminate.
      * split; [intros _ H; now contradiction H | discriminate].
    + split; [now right|]. split.
      * intros _ _. split; [reflexivity|].
        rewrite filter_update by reflexivity. rewrite Hf. simpl.
        eexists; split; [reflexivity|]. split; reflexivity.
      * split; [intros _ H; now contradiction H | discriminate].
  - (* shipped *)
    eexists; split; [exact Hs|]; split; [reflexivity|]; simpl.
    split; [discriminate|].
    split; [intros [H|H]; discriminate H|].
    split.
    + intros _ _. split; [reflexivity|]. unfold untouched.
      repeat (split; [reflexivity|]).
      exists [(op_select, t_orders); (op_select, t_order_items)].
      split; [now rewrite !store_calls_tick, <- app_assoc | reflexivity].
    + intros _. split; [reflexivity|].
      unfold updateOrderStatus, fmap, bind.
      rewrite (updateOrderStatus_exit_found w orderId userId (owi_order order)
                 cancelled Hs Huuid Hf H0).
      cbv zeta. rewrite Est. simpl. rewrite H1. reflexivity.
  - (* delivered *)
    eexists; split; [exact Hs|]; split; [reflexivity|]; simpl.
    split; [discriminate|].
    split; [intros [H|H]; discriminate H|].
    split; [|discriminate].
    intros _ _. split; [reflexivity|]. unfold untouched.
    repeat (split; [reflexivity|]).
    exists [(op_select, t_orders); (op_select, t_order_items)].
    split; [now rewrite !store_calls_tick, <- app_assoc | reflexivity].
  - (* cancelled *)
    eexists; split; [exact Hs|]; split; [reflexivity|]; simpl.
    split; [discriminate|].
    split; [intros [H|H]; discriminate H|].
    split; [|discriminate].
    intros _ _. split; [reflexivity|]. unfold untouched.
    repeat (split; [reflexivity|]).
    exists [(op_select, t_orders); (op_select, t_order_items)].
    split; [now rewrite !store_calls_tick, <- app_assoc | reflexivity].
Qed.

Lemma cancelPayment_pending_or_confirmed_only_witness :
  exists userId res,
    truthy (session (world_of (store_with_order buyer shipped) [] gateway_approves))
    = Some userId /\
    completion (cancelPayment sample_order_id
                  (world_of (store_with_order buyer shipped) [] gateway_approves))
    = Normal res /\
    success res = false /\
    completion (updateOrderStatus sample_order_id cancelled
                  (world_of (store_with_order buyer shipped) [] gateway_approves))
    = Normal (UpdateOrderStatusExit_result (UOS_updated cancelled)).
Proof.
  destruct (cancelPayment_pending_or_confirmed_only
              (world_of (store_with_order buyer shipped) [] gateway_approves)
              sample_order_id
              {| owi_order := sample_order buyer shipped; owi_order_items := [] |}
              eq_refl)
    as (userId & res & Hs & Hres & _ & _ & _ & Hshipped).
  exists userId, res.
  split; [exact Hs|]. split; [exact Hres|].
  apply Hshipped. reflexivity.
Defined.

(** ** addToCart *)


Lemma getProductById_found w productId product :
  uuidRegex_test productId = true ->
  filter (is_active_product productId) (products (db w)) = [product] ->
  no_fault 0 w ->
  getProductById productId w = (Normal (Some product), tick op_select t_products w).
Proof.
  intros Hu Hf H0.
  unfold getProductById, try_catch, bind.
  rewrite Hu. simpl.
  rewrite store_call_no_fault by assumption.
  unfold bind, read_db, ret. simpl.
  rewrite Hf. reflexivity.
Qed.




(** The scenario of C4 run: stock 5, a line of 3, 3 more asked for. *)
Example addToCart_scenario :
  completion (addToCart P1_id 3
                (world_of (store_with_cart [cart_line "c1" P1_id 3 2]) []
                          gateway_approves))
  = Normal {| success := false;
              message := "재고가 부족합니다. 장바구니에 이미 3개가 있습니다. (현재 재고: 5개)" |}.
Proof. vm_compute. reflexivity. Qed.

(** And 2 more asked for instead: the line goes to 5. *)
Example addToCart_scenario_within_stock :
  let r := addToCart P1_id 2
             (world_of (store_with_cart [cart_line "c1" P1_id 3 2]) []
                       gateway_approves) in
  completion r
  = Normal {| success := true;
              message := "장바구니에 추가되었습니다. (총 5개)" |} /\
  map CartItem.quantity (cart_items (db (world_after r))) = [5].
Proof. vm_compute. split; reflexivity. Qed.

(** ** getCartItems and createOrder *)

Lemma getCartItems_found w userId :
  truthy (session w) = Some userId ->
  no_fault 0 w ->
  getCartItems w = (Normal (cart_view userId (db w)), tick op_select t_cart_items w).
Proof.
  intros Hs H0.
  unfold getCartItems, try_catch, bind, auth. rewrite Hs. simpl.
  unfold select_cart_with_products.
  rewrite store_call_no_fault by assumption.
  unfold bind, read_db, ret, cart_view. simpl.
  now destruct (cart_rows userId (db w)).
Qed.

Lemma getCartItems_fault w userId e :
  truthy (session w) = Some userId ->
  nth 0 (store_faults w) None = Some e ->
  getCartItems w = (Normal [], tick op_select t_cart_items w).
Proof.
  intros Hs H0.
  unfold getCartItems, try_catch, bind, auth. rewrite Hs. simpl.
  unfold select_cart_with_products.
  now rewrite (store_call_fault _ _ _ _ e) by assumption.
Qed.

Lemma cart_view_empty userId s : cart_of userId s = [] -> cart_view userId s = [].
Proof.
  unfold cart_of, cart_view, cart_rows. intros ->. reflexivity.
Qed.

(** C5. For a buyer whose cart is empty, createOrder returns the
    empty-cart failure, whatever the store answers, and makes no write:
    the only store call is the select of the cart, and no order and no
    order line is created. *)
Theorem createOrder_empty_cart :
  forall w userId shippingAddress orderNote,
    truthy (session w) = Some userId ->
    cart_of userId (db w) = [] ->
    completion (createOrder_exit shippingAddress orderNote w) = Normal CO_empty_cart /\
    completion (createOrder shippingAddress orderNote w)
    = Normal {| co_success := false; co_orderId := None;
                co_message := "장바구니가 비어있습니다. 상품을 추가한 후 주문해주세요." |} /\
    untouched w (world_after (createOrder shippingAddress orderNote w)) /\
    orders (db (world_after (createOrder shippingAddress orderNote w)))
    = orders (db w) /\
    order_items (db (world_after (createOrder shippingAddress orderNote w)))
    = order_items (db w).
Proof.
  intros w userId shippingAddress orderNote Hs Hcart.
  assert (Hx : createOrder_exit shippingAddress orderNote w
               = (Normal CO_empty_cart, tick op_select t_cart_items w)).
  { unfold createOrder_exit, try_catch, bind, auth. rewrite Hs. simpl.
    destruct (nth 0 (store_faults w) None) as [e|] eqn:E0.
    - now rewrite (getCartItems_fault w userId e Hs E0).
    - rewrite (getCartItems_found w userId Hs E0).
      now rewrite (cart_view_empty _ _ Hcart). }
  unfold createOrder, fmap, bind, completion, world_after.
  rewrite Hx. simpl. repeat (split; [reflexivity|]).
  split; [|split; reflexivity].
  unfold untouched. repeat (split; [reflexivity|]).
  exists [(op_select, t_cart_items)]. split; reflexivity.
Qed.

Lemma createOrder_empty_cart_witness :
  completion (createOrder_exit sample_address None
                (world_of (store_with_cart []) [] gateway_approves))
  = Normal CO_empty_cart.
Proof.
  apply (createOrder_empty_cart
           (world_of (store_with_cart []) [] gateway_approves)
           buyer sample_address None).
  - reflexivity.
  - reflexivity.
Defined.

(** The steps of createOrder on a cart that is not empty and passes the
    validation: the header insert, the lines insert and the cart delete,
    each either answered with an error or carried out. *)
Lemma createOrder_exit_steps w userId shippingAddress orderNote :
  truthy (session w) = Some userId ->
  no_fault 0 w ->
  cart_view userId (db w) <> [] ->
  validate_cart (cart_view userId (db w)) = None ->
  createOrder_exit shippingAddress orderNote w =
    let cartItems := cart_view userId (db w) in
    let orderId := uuid_gen w (uuid_ctr w) in
    let header := new_order orderId (clock w) userId (cart_total cartItems)
                    shippingAddress (truthy orderNote) in
    let lines := stamp_order_items (uuid_gen w) (S (uuid_ctr w)) (clock w)
                   (orderItems_of orderId cartItems) in
    let w1 := tick op_insert t_orders (tick op_select t_cart_items w) in
    match nth 1 (store_faults w) None with
    | Some _ => (Normal CO_order_insert_failed, w1)
    | None =>
      let s2 := set_orders (orders (db w) ++ [header]) (db w) in
      let w2 := tick op_insert t_order_items
                  (set_db s2 (set_uuid_ctr (S (uuid_ctr w)) w1)) in
      match nth 2 (store_faults w) None with
      | Some _ => (Normal CO_order_items_insert_failed, w2)
      | None =>
        let s3 := set_order_items (order_items (db w) ++ lines) s2 in
        let w3 := tick op_delete t_cart_items
                    (set_db s3
                       (set_uuid_ctr (S (uuid_ctr w) + List.length cartItems) w2)) in
        match nth 3 (store_faults w) None with
        | Some _ => (Normal (CO_created orderId), w3)
        | None =>
            (Normal (CO_created orderId),
             set_db (set_cart_items
                       (filter (fun c => negb (String.eqb (CartItem.clerk_id c) userId))
                               (cart_items (db w))) s3) w3)
        end
      end
    end.
Proof.
  intros Hs H0 Hne Hval.
  unfold createOrder_exit, try_catch, bind, auth. rewrite Hs. simpl.
  rewrite (getCartItems_found w userId Hs H0).
  destruct (cart_view userId (db w)) as [|item items] eqn:Hview;
    [now contradiction Hne|].
  cbn [List.length Nat.eqb]. rewrite Hval.
  unfold insert_order, store_call.
  rewrite hd_faults. autorewrite with faults.
  destruct (nth 1 (store_faults w) None); [reflexivity|].
  unfold bind, fresh_uuid, now, write_db, ret. cbn [error data reply_data].
  unfold insert_order_items, store_call.
  rewrite hd_faults. autorewrite with faults.
  destruct (nth 2 (store_faults w) None); [reflexivity|].
  cbn [error data reply_data].
  unfold delete_cart_of, store_call.
  rewrite hd_faults. autorewrite with faults.
  unfold orderItems_of. rewrite length_map.
  destruct (nth 3 (store_faults w) None); reflexivity.
Qed.

Lemma filter_none {A : Type} (p : A -> bool) (l : list A) :
  (forall a, In a l -> p a = false) -> filter p l = [].
Proof.
  induction l as [|a l IH]; simpl; intros H; [reflexivity|].
  rewrite (H a) by now left. apply IH. intros b Hb. apply H. now right.
Qed.

Lemma filter_all {A : Type} (p : A -> bool) (l : list A) :
  (forall a, In a l -> p a = true) -> filter p l = l.
Proof.
  induction l as [|a l IH]; simpl; intros H; [reflexivity|].
  rewrite (H a) by now left. f_equal. apply IH. intros b Hb. apply H. now right.
Qed.

Lemma stamped_order_id gen ctr t orderId cartItems :
  forall i, In i (stamp_order_items gen ctr t (orderItems_of orderId cartItems)) ->
            OrderItem.order_id i = orderId.
Proof.
  revert ctr. induction cartItems as [|item rest IH]; simpl; intros ctr i Hi.
  - contradiction.
  - destruct Hi as [<-|Hi]; [reflexivity | eapply IH; eassumption].
Qed.

Lemma stamped_snapshot gen ctr t orderId cartItems :
  map line_snapshot (stamp_order_items gen ctr t (orderItems_of orderId cartItems))
  = map cart_snapshot cartItems.
Proof.
  revert ctr. induction cartItems as [|item rest IH]; simpl; intros ctr.
  - reflexivity.
  - f_equal. apply IH.
Qed.

(** The total of createOrder is its reduce run on the very prices and
    quantities the order lines hold. *)
Lemma stamped_reduce_from gen ctr t orderId cartItems acc :
  fold_left
    (fun sum i => js_add sum (js_mul (OrderItem.price i) (OrderItem.quantity i)))
    (stamp_order_items gen ctr t (orderItems_of orderId cartItems)) acc
  = fold_left
      (fun sum item =>
         js_add sum (js_mul (Product.price (CartItemWithProduct.product item))
                            (CartItemWithProduct.quantity item)))
      cartItems acc.
Proof.
  revert ctr acc. induction cartItems as [|item rest IH]; simpl; intros ctr acc.
  - reflexivity.
  - apply IH.
Qed.

Lemma stamped_reduce gen ctr t orderId cartItems :
  lines_reduce (stamp_order_items gen ctr t (orderItems_of orderId cartItems))
  = cart_total cartItems.
Proof. apply stamped_reduce_from. Qed.

Lemma lines_reduce_exact lines :
  lines_magnitude lines <= MAX_SAFE_INTEGER -> lines_reduce lines = lines_total lines.
Proof.
  intros H. unfold lines_reduce.
  rewrite (js_reduce_exact OrderItem.price OrderItem.quantity) by exact H.
  reflexivity.
Qed.

Lemma lines_total_perm l l' : Permutation l l' -> lines_total l = lines_total l'.
Proof.
  induction 1; simpl; lia.
Qed.

(** The product joined to a cart line is the row of [products] the line
    refers to. *)
Lemma cart_view_products userId s :
  Forall (fun c => In (CartItemWithProduct.product c) (products s)
                   /\ Product.id (CartItemWithProduct.product c)
                      = CartItemWithProduct.product_id c)
         (cart_view userId s).
Proof.
  unfold cart_view, cart_rows.
  induction (order_by (fun a b => CartItem.created_at b <=? CartItem.created_at a)
               (filter (fun c => String.eqb (CartItem.clerk_id c) userId)
                       (cart_items s))) as [|c rest IH]; simpl.
  - constructor.
  - destruct (find (fun p => String.eqb (Product.id p) (CartItem.product_id c))
                   (products s)) as [p|] eqn:Hfind; [|exact IH].
    constructor; [|exact IH]. simpl.
    apply find_some in Hfind. destruct Hfind as [Hin Heq].
    apply String.eqb_eq in Heq. auto.
Qed.

(** Reading an order back: the row and its lines, oldest first. *)
Lemma getOrderById_read_back w orderId userId order :
  truthy (session w) = Some userId ->
  uuidRegex_test orderId = true ->
  filter (is_order_of orderId userId) (orders (db w)) = [order] ->
  no_fault 0 w -> no_fault 1 w ->
  completion (getOrderById orderId w)
  = Normal (Some {| owi_order := order;
                    owi_order_items :=
                      order_by (fun a b => OrderItem.created_at a <=? OrderItem.created_at b)
                               (lines_of orderId (db w)) |}).
Proof.
  intros Hs Hu Hf H0 H1.
  unfold getOrderById, try_catch, bind, auth, completion.
  rewrite Hs, Hu. simpl.
  unfold select_order_of. rewrite store_call_no_fault by assumption.
  unfold bind, read_db, ret. simpl. rewrite Hf. simpl.
  unfold select_order_items_of.
  rewrite store_call_no_fault by (apply no_fault_tick; assumption).
  reflexivity.
Qed.

Lemma filter_is_order_of orderId userId l order :
  filter (fun o => String.eqb (Order.id o) orderId) l = [order] ->
  Order.clerk_id order = userId ->
  filter (is_order_of orderId userId) l = [order].
Proof.
  intros Hf Hc. induction l as [|o l IH] in Hf |- *; simpl in *; [discriminate|].
  unfold is_order_of at 1.
  destruct (String.eqb (Order.id o) orderId) eqn:E; simpl.
  - inversion Hf; subst o. rewrite Hc, String.eqb_refl. f_equal.
    clear IH. rewrite H1.
    induction l as [|o l IH]; simpl in *; [reflexivity|].
    unfold is_order_of at 1.
    destruct (String.eqb (Order.id o) orderId); simpl; [discriminate|].
    now apply IH.
  - now apply IH.
Qed.

(** C3 (as the code has it). For a cart that is not empty and passes
    the validation, the order createOrder creates (the store answering the
    cart select and the two inserts) has one line per cart line, with the
    name and the price of the product joined to the cart line when the
    cart was read. Its total_amount is the sum of price times quantity
    over these lines as long as the magnitudes of the line amounts add up
    to at most Number.MAX_SAFE_INTEGER. The order and its lines hold
    these values themselves: whatever the catalog becomes afterwards,
    getOrderById reads the same order and the same lines back. *)
Theorem createOrder_total_is_sum_of_lines :
  forall w userId shippingAddress orderNote,
    truthy (session w) = Some userId ->
    cart_view userId (db w) <> [] ->
    validate_cart (cart_view userId (db w)) = None ->
    no_fault 0 w -> no_fault 1 w -> no_fault 2 w ->
    (forall o, In o (orders (db w)) -> Order.id o <> uuid_gen w (uuid_ctr w)) ->
    (forall i, In i (order_items (db w)) ->
               OrderItem.order_id i <> uuid_gen w (uuid_ctr w)) ->
    exists orderId order,
      completion (createOrder shippingAddress orderNote w)
      = Normal {| co_success := true; co_orderId := Some orderId;
                  co_message := "주문이 성공적으로 생성되었습니다." |} /\
      filter (fun o => String.eqb (Order.id o) orderId)
             (orders (db (world_after (createOrder shippingAddress orderNote w))))
      = [order] /\
      Order.clerk_id order = userId /\
      Order.status order = pending /\
      map line_snapshot
          (lines_of orderId (db (world_after (createOrder shippingAddress orderNote w))))
      = map cart_snapshot (cart_view userId (db w)) /\
      Forall (fun c => In (CartItemWithProduct.product c) (products (db w)))
             (cart_view userId (db w)) /\
      (lines_magnitude
         (lines_of orderId (db (world_after (createOrder shippingAddress orderNote w))))
       <= MAX_SAFE_INTEGER ->
       Order.total_amount order
       = lines_total
           (lines_of orderId
              (db (world_after (createOrder shippingAddress orderNote w))))) /\
      forall catalog,
        uuidRegex_test orderId = true ->
        no_fault 4 w -> no_fault 5 w ->
        exists read,
          completion
            (getOrderById orderId
               (with_catalog catalog
                  (world_after (createOrder shippingAddress orderNote w))))
          = Normal (Some read) /\
          owi_order read = order /\
          Permutation (owi_order_items read)
            (lines_of orderId
               (db (world_after (createOrder shippingAddress orderNote w)))) /\
          lines_total (owi_order_items read)
          = lines_total
              (lines_of orderId
                 (db (world_after (createOrder shippingAddress orderNote w)))).
Proof.
  intros w userId shippingAddress orderNote Hs Hne Hval H0 H1 H2 Hfresh_o Hfresh_i.
  set (orderId := uuid_gen w (uuid_ctr w)) in *.
  set (cartItems := cart_view userId (db w)) in *.
  set (header := new_order orderId (clock w) userId (cart_total cartItems)
                   shippingAddress (truthy orderNote)).
  set (lines := stamp_order_items (uuid_gen w) (S (uuid_ctr w)) (clock w)
                  (orderItems_of orderId cartItems)).
  assert (Horders : filter (fun o => String.eqb (Order.id o) orderId)
                           (orders (db w) ++ [header]) = [header]).
  { rewrite filter_app, filter_none.
    - simpl. now rewrite String.eqb_refl.
    - intros o Ho. apply String.eqb_neq. now apply Hfresh_o. }
  assert (Hlines : filter (fun i => String.eqb (OrderItem.order_id i) orderId)
                          (order_items (db w) ++ lines) = lines).
  { rewrite filter_app, filter_none, filter_all.
    - reflexivity.
    - intros i Hi. apply String.eqb_eq.
      eapply stamped_order_id; exact Hi.
    - intros i Hi. apply String.eqb_neq. now apply Hfresh_i. }
  assert (Hview : Forall (fun c => In (CartItemWithProduct.product c) (products (db w)))
                         cartItems).
  { eapply Forall_impl; [|apply cart_view_products]. simpl. tauto. }
  assert (Hlater :
    let w' := world_after (createOrder shippingAddress orderNote w) in
    completion (createOrder shippingAddress orderNote w)
    = Normal {| co_success := true; co_orderId := Some orderId;
                co_message := "주문이 성공적으로 생성되었습니다." |} /\
    session w' = session w /\
    orders (db w') = (orders (db w) ++ [header])%list /\
    order_items (db w') = (order_items (db w) ++ lines)%list /\
    forall n, nth n (store_faults w') None = nth (4 + n) (store_faults w) None).
  { unfold createOrder, fmap, bind, completion, world_after.
    rewrite (createOrder_exit_steps w userId shippingAddress orderNote Hs H0 Hne Hval).
    cbv zeta. fold orderId cartItems. fold header. fold lines.
    unfold no_fault in H1, H2. rewrite H1, H2.
    destruct (nth 3 (store_faults w) None); simpl;
      repeat (split; [reflexivity|]);
      intros n; unfold tick; simpl; now rewrite !nth_tl. }
  cbv zeta in Hlater.
  destruct Hlater as (Hres & Hses & Ho & Hi & Hfaults).
  exists orderId, header.
  unfold lines_of. rewrite Ho, Hi, Horders, Hlines.
  split; [exact Hres|].
  repeat (split; [reflexivity|]).
  split; [apply stamped_snapshot|].
  split; [exact Hview|].
  split.
  { intros Hrange. rewrite <- (lines_reduce_exact lines Hrange).
    symmetry. apply stamped_reduce. }
  intros catalog Hu H4 H5.
  set (w' := world_after (createOrder shippingAddress orderNote w)) in *.
  eexists. split.
  - apply (getOrderById_read_back (with_catalog catalog w') orderId userId header).
    + exact (eq_trans (f_equal truthy Hses) Hs).
    + exact Hu.
    + apply filter_is_order_of; [|reflexivity].
      change (orders (db (with_catalog catalog w'))) with (orders (db w')).
      rewrite Ho. exact Horders.
    + unfold no_fault.
      change (store_faults (with_catalog catalog w')) with (store_faults w').
      rewrite Hfaults. exact H4.
    + unfold no_fault.
      change (store_faults (with_catalog catalog w')) with (store_faults w').
      rewrite Hfaults. exact H5.
  - cbn [owi_order owi_order_items]. split; [reflexivity|].
    unfold lines_of.
    change (order_items (db (with_catalog catalog w'))) with (order_items (db w')).
    rewrite Hi, Hlines.
    split; [apply order_by_perm|].
    apply lines_total_perm, order_by_perm.
Qed.

Lemma createOrder_total_is_sum_of_lines_witness :
  exists orderId order,
    completion (createOrder sample_address None
                  (world_of (store_with_cart scenario_cart) [] gateway_approves))
    = Normal {| co_success := true; co_orderId := Some orderId;
                co_message := "주문이 성공적으로 생성되었습니다." |} /\
    Order.total_amount order
    = lines_total
        (lines_of orderId
           (db (world_after
                  (createOrder sample_address None
                     (world_of (store_with_cart scenario_cart) [] gateway_approves))))) /\
    exists read,
      completion
        (getOrderById orderId
           (with_catalog []
              (world_after
                 (createOrder sample_address None
                    (world_of (store_with_cart scenario_cart) [] gateway_approves)))))
      = Normal (Some read) /\
      owi_order read = order.
Proof.
  destruct (createOrder_total_is_sum_of_lines
              (world_of (store_with_cart scenario_cart) [] gateway_approves)
              buyer sample_address None)
    as (orderId & order & Hres & _ & _ & _ & _ & _ & Htotal & Hlater).
  - reflexivity.
  - vm_compute. discriminate.
  - reflexivity.
  - reflexivity.
  - reflexivity.
  - reflexivity.
  - intros o [].
  - intros i [].
  - assert (Hid : orderId = sample_uuid 0).
    { vm_compute in Hres. now inversion Hres. }
    exists orderId, order. split; [exact Hres|].
    split.
    + apply Htotal. rewrite Hid. vm_compute. discriminate.
    + destruct (Hlater []) as (read & Hread & Horder & _).
      * rewrite Hid. reflexivity.
      * reflexivity.
      * reflexivity.
      * exists read. split; [exact Hread | exact Horder].
Defined.

(** C3 as stated fails for large amounts: with one line of 94906267
    units at a price of 94906267 the line holds that price and quantity,
    whose product is 9007199515875289, and the total_amount of the order
    is 9007199515875288, the nearest double. *)
Lemma createOrder_total_is_sum_of_lines_counterexample :
  cart_view buyer store_with_bulk_cart <> [] /\
  validate_cart (cart_view buyer store_with_bulk_cart) = None /\
  exists orderId order,
    completion (createOrder sample_address None
                  (world_of store_with_bulk_cart [] gateway_approves))
    = Normal {| co_success := true; co_orderId := Some orderId;
                co_message := "주문이 성공적으로 생성되었습니다." |} /\
    filter (fun o => String.eqb (Order.id o) orderId)
           (orders (db (world_after
                          (createOrder sample_address None
                             (world_of store_with_bulk_cart [] gateway_approves)))))
    = [order] /\
    map line_snapshot
        (lines_of orderId
           (db (world_after
                  (createOrder sample_address None
                     (world_of store_with_bulk_cart [] gateway_approves)))))
    = [(P3_id, "P3", 94906267, 94906267)] /\
    Order.total_amount order = 9007199515875288 /\
    lines_total
      (lines_of orderId
         (db (world_after
                (createOrder sample_address None
                   (world_of store_with_bulk_cart [] gateway_approves)))))
    = 9007199515875289.
Proof.
  split; [vm_compute; discriminate|].
  split; [vm_compute; reflexivity|].
  eexists (sample_uuid 0), _.
  split; [vm_compute; reflexivity|].
  split; [vm_compute; reflexivity|].
  vm_compute. repeat split.
Qed.

(** The build scenario run: a total of 2500, two lines, the cart emptied. *)
Example createOrder_scenario :
  let r := createOrder sample_address None
             (world_of (store_with_cart scenario_cart) [] gateway_approves) in
  map Order.total_amount (orders (db (world_after r))) = [2500] /\
  map line_snapshot (order_items (db (world_after r)))
  = [(P2_id, "P2", 1, 500); (P1_id, "P1", 2, 1000)] /\
  cart_items (db (world_after r)) = [].
Proof. vm_compute. repeat split. Qed.

(** C6 (as the code has it). When the insert of the order lines fails
    after the order header was inserted, createOrder reports a failure of
    its own: success is false, the message is the one of this return and
    of no other return of createOrder, and the result carries no order
    id. *)
Theorem createOrder_items_insert_failure :
  forall w userId shippingAddress orderNote,
    truthy (session w) = Some userId ->
    cart_view userId (db w) <> [] ->
    validate_cart (cart_view userId (db w)) = None ->
    no_fault 0 w -> no_fault 1 w -> fault_at 2 w ->
    completion (createOrder_exit shippingAddress orderNote w)
    = Normal CO_order_items_insert_failed /\
    completion (createOrder shippingAddress orderNote w)
    = Normal {| co_success := false; co_orderId := None;
                co_message := "주문 상품 정보를 저장하는 중 오류가 발생했습니다. 고객센터로 문의해주세요." |} /\
    (forall e,
        co_message (CreateOrderExit_result e)
        = co_message (CreateOrderExit_result CO_order_items_insert_failed) ->
        e = CO_order_items_insert_failed).
Proof.
  intros w userId shippingAddress orderNote Hs Hne Hval H0 H1 [e2 H2].
  unfold createOrder, fmap, bind, completion.
  rewrite (createOrder_exit_steps w userId shippingAddress orderNote Hs H0 Hne Hval).
  cbv zeta. unfold no_fault in H1. rewrite H1, H2. simpl.
  repeat (split; [reflexivity|]).
  intros e. destruct e; simpl; intros H;
    try reflexivity; try discriminate H.
Qed.

Lemma createOrder_items_insert_failure_witness :
  completion (createOrder sample_address None
                (world_of (store_with_cart scenario_cart)
                          [None; None; Some a_store_error] gateway_approves))
  = Normal {| co_success := false; co_orderId := None;
              co_message := "주문 상품 정보를 저장하는 중 오류가 발생했습니다. 고객센터로 문의해주세요." |}.
Proof.
  apply (createOrder_items_insert_failure
           (world_of (store_with_cart scenario_cart)
                     [None; None; Some a_store_error] gateway_approves)
           buyer sample_address None).
  - reflexivity.
  - vm_compute. discriminate.
  - reflexivity.
  - reflexivity.
  - reflexivity.
  - exists a_store_error. reflexivity.
Defined.

(** C6 as stated fails: with the lines insert failing, the result carries
    no order id, no delete of the header is among the store calls, and the
    header stays in [orders]. *)
Lemma createOrder_items_insert_failure_counterexample :
  let r := createOrder sample_address None
             (world_of (store_with_cart scenario_cart)
                       [None; None; Some a_store_error] gateway_approves) in
  exists res,
    completion r = Normal res /\
    co_success res = false /\
    co_orderId res = None /\
    store_calls (world_after r)
    = [(op_select, t_cart_items); (op_insert, t_orders); (op_insert, t_order_items)] /\
    map Order.id (orders (db (world_after r))) = [sample_uuid 0] /\
    order_items (db (world_after r)) = [].
Proof. vm_compute. eexists. repeat split. Qed.

(** C9. Once the header and the lines are written, a failure of the
    delete that clears the cart does not fail the checkout: createOrder
    returns success with the order id, the header and the lines are in
    the store, and the cart lines are left as they were. *)
Theorem createOrder_cart_delete_failure :
  forall w userId shippingAddress orderNote,
    truthy (session w) = Some userId ->
    cart_view userId (db w) <> [] ->
    validate_cart (cart_view userId (db w)) = None ->
    no_fault 0 w -> no_fault 1 w -> no_fault 2 w -> fault_at 3 w ->
    completion (createOrder shippingAddress orderNote w)
    = Normal {| co_success := true;
                co_orderId := Some (uuid_gen w (uuid_ctr w));
                co_message := "주문이 성공적으로 생성되었습니다." |} /\
    cart_items (db (world_after (createOrder shippingAddress orderNote w)))
    = cart_items (db w) /\
    orders (db (world_after (createOrder shippingAddress orderNote w)))
    = (orders (db w)
       ++ [new_order (uuid_gen w (uuid_ctr w)) (clock w) userId
             (cart_total (cart_view userId (db w)))
             shippingAddress (truthy orderNote)])%list /\
    order_items (db (world_after (createOrder shippingAddress orderNote w)))
    = (order_items (db w)
       ++ stamp_order_items (uuid_gen w) (S (uuid_ctr w)) (clock w)
            (orderItems_of (uuid_gen w (uuid_ctr w))
               (cart_view userId (db w))))%list /\
    In (op_delete, t_cart_items)
       (store_calls (world_after (createOrder shippingAddress orderNote w))).
Proof.
  intros w userId shippingAddress orderNote Hs Hne Hval H0 H1 H2 [e3 H3].
  unfold createOrder, fmap, bind, completion, world_after.
  rewrite (createOrder_exit_steps w userId shippingAddress orderNote Hs H0 Hne Hval).
  cbv zeta. unfold no_fault in H1, H2. rewrite H1, H2, H3. simpl.
  repeat (split; [reflexivity|]).
  apply in_or_app. right. now left.
Qed.

Lemma createOrder_cart_delete_failure_witness :
  completion (createOrder sample_address None
                (world_of (store_with_cart scenario_cart)
                          [None; None; None; Some a_store_error] gateway_approves))
  = Normal {| co_success := true; co_orderId := Some (sample_uuid 0);
              co_message := "주문이 성공적으로 생성되었습니다." |} /\
  cart_items (db (world_after
     (createOrder sample_address None
        (world_of (store_with_cart scenario_cart)
                  [None; None; None; Some a_store_error] gateway_approves))))
  = scenario_cart.
Proof.
  destruct (createOrder_cart_delete_failure
              (world_of (store_with_cart scenario_cart)
                        [None; None; None; Some a_store_error] gateway_approves)
              buyer sample_address None)
    as (Hres & Hcart & _).
  - reflexivity.
  - vm_compute. discriminate.
  - reflexivity.
  - reflexivity.
  - reflexivity.
  - reflexivity.
  - exists a_store_error. reflexivity.
  - split; [exact Hres | exact Hcart].
Defined.

(** ** confirmPayment: the gateway call *)

(** confirmPayment up to the gateway call, for an order it loads and the
    right amount: the request is sent and the outcome of [fetch] decides. *)
Lemma confirmPayment_exit_gateway w paymentKey orderId amount order secretKey :
  completion (getOrderById orderId w) = Normal (Some order) ->
  amount = Order.total_amount (owi_order order) ->
  truthy (toss_secret_key w) = Some secretKey ->
  let req := {| req_secretKey := secretKey; req_paymentKey := paymentKey;
                req_orderId := orderId; req_amount := amount |} in
  let w2 := tick op_select t_order_items (tick op_select t_orders w) in
  let w3 := set_toss_calls (toss_calls w ++ [req]) w2 in
  match toss w req with
  | FetchRejects =>
      confirmPayment_exit paymentKey orderId amount w = (Normal CP_exception, w3)
  | FetchResponse false None =>
      confirmPayment_exit paymentKey orderId amount w = (Normal CP_exception, w3)
  | FetchResponse false (Some errorData) =>
      confirmPayment_exit paymentKey orderId amount w
      = (Normal (CP_gateway_rejected (body_message errorData)), w3)
  | FetchResponse true None =>
      confirmPayment_exit paymentKey orderId amount w = (Normal CP_exception, w3)
  | FetchResponse true (Some _) =>
      exists e w',
        confirmPayment_exit paymentKey orderId amount w = (Normal e, w') /\
        (e = CP_confirmed \/ e = CP_update_failed)
  end.
Proof.
  intros Hget Ham Hkey req w2 w3.
  destruct (getOrderById_Some _ _ _ Hget) as (userId & Hs & _ & Hc & _ & _ & Hrun).
  unfold confirmPayment_exit, try_catch, bind, auth.
  rewrite Hs, Hrun, Hc. cbn [negb].
  rewrite <- Ham, Z.eqb_refl. cbn [negb].
  change (toss_secret_key (tick op_select t_order_items (tick op_select t_orders w)))
    with (toss_secret_key w).
  rewrite Hkey. unfold fetch_toss.
  change (toss (tick op_select t_order_items (tick op_select t_orders w)))
    with (toss w).
  fold req.
  destruct (toss w req) as [|[|] [body|]]; try reflexivity.
  cbn [negb response_json ret].
  unfold now, update_order_of, store_call.
  destruct (hd None (store_faults _)); simpl.
  - eexists _, _. split; [reflexivity | now right].
  - eexists _, _. split; [reflexivity | now left].
Qed.

(** C7 (as the code has it). For an order confirmPayment loads, with the
    right amount and the secret key set: when the gateway call fails in
    transport, the exception reaches the catch block of confirmPayment and
    the caller gets its general failure message; when the gateway answers
    with a non-success status and a JSON body, the caller gets the
    message of that body, or the approval-failed text when the body has
    none; when it answers with a non-success status and a body that is not
    JSON, the caller gets the general failure message again. In all three
    the tables are left as they were. The first two results differ
    exactly when the text of the rejection is not the general failure
    message. *)
Theorem confirmPayment_gateway_failures :
  forall w paymentKey orderId amount order secretKey,
    completion (getOrderById orderId w) = Normal (Some order) ->
    amount = Order.total_amount (owi_order order) ->
    truthy (toss_secret_key w) = Some secretKey ->
    let req := {| req_secretKey := secretKey; req_paymentKey := paymentKey;
                  req_orderId := orderId; req_amount := amount |} in
    let general := "결제 승인 중 오류가 발생했습니다. 잠시 후 다시 시도해주세요." in
    let r := confirmPayment paymentKey orderId amount w in
    (toss w req = FetchRejects ->
     completion r = Normal {| success := false; message := general |} /\
     db (world_after r) = db w) /\
    (forall errorData,
        toss w req = FetchResponse false (Some errorData) ->
        completion r
        = Normal {| success := false;
                    message := or_else (body_message errorData)
                                       "결제 승인에 실패했습니다." |} /\
        db (world_after r) = db w /\
        (completion r <> Normal {| success := false; message := general |}
         <-> or_else (body_message errorData) "결제 승인에 실패했습니다." <> general)) /\
    (toss w req = FetchResponse false None ->
     completion r = Normal {| success := false; message := general |} /\
     db (world_after r) = db w).
Proof.
  intros w paymentKey orderId amount order secretKey Hget Ham Hkey req general r.
  pose proof (confirmPayment_exit_gateway w paymentKey orderId amount order
                secretKey Hget Ham Hkey) as Hrun.
  cbv zeta in Hrun. fold req in Hrun.
  subst r. unfold confirmPayment, fmap, bind, completion, world_after.
  split; [|split].
  - intros Ht. rewrite Ht in Hrun. rewrite Hrun. simpl. split; reflexivity.
  - intros errorData Ht. rewrite Ht in Hrun. rewrite Hrun. simpl.
    split; [reflexivity|]. split; [reflexivity|].
    split.
    + intros Hneq Heq. apply Hneq. now rewrite Heq.
    + intros Hneq Heq. apply Hneq. now inversion Heq.
  - intros Ht. rewrite Ht in Hrun. rewrite Hrun. simpl. split; reflexivity.
Qed.

Lemma confirmPayment_gateway_failures_witness :
  completion (confirmPayment "pay_key_1" sample_order_id 2500
                (world_of (store_with_order buyer pending) []
                          (gateway_rejects (Some "카드 한도가 초과되었습니다."))))
  = Normal {| success := false; message := "카드 한도가 초과되었습니다." |}.
Proof.
  destruct (confirmPayment_gateway_failures
              (world_of (store_with_order buyer pending) []
                        (gateway_rejects (Some "카드 한도가 초과되었습니다.")))
              "pay_key_1" sample_order_id 2500
              {| owi_order := sample_order buyer pending; owi_order_items := [] |}
              "test_sk_1" eq_refl eq_refl eq_refl)
    as (_ & Hrejected & _).
  destruct (Hrejected _ eq_refl) as (Hres & _).
  exact Hres.
Defined.

(** C7 as stated fails: the caller gets the same result when the
    connection to the gateway fails, when the gateway refuses with a body
    that is not JSON, and when it refuses with the general failure text as
    its message. *)
Lemma confirmPayment_gateway_failures_counterexample :
  completion (confirmPayment "pay_key_1" sample_order_id 2500
                (world_of (store_with_order buyer pending) [] gateway_unreachable))
  = completion (confirmPayment "pay_key_1" sample_order_id 2500
                  (world_of (store_with_order buyer pending) []
                            gateway_rejects_unreadably)) /\
  completion (confirmPayment "pay_key_1" sample_order_id 2500
                (world_of (store_with_order buyer pending) [] gateway_unreachable))
  = completion (confirmPayment "pay_key_1" sample_order_id 2500
                  (world_of (store_with_order buyer pending) []
                            (gateway_rejects
                               (Some "결제 승인 중 오류가 발생했습니다. 잠시 후 다시 시도해주세요.")))).
Proof. split; reflexivity. Qed.

(** * More of the code *)

(** ** What the actions leave alone *)

Section Frame.
Variable R : World -> World -> Prop.
Hypothesis R_refl : forall w, R w w.
Hypothesis R_trans : forall w1 w2 w3, R w1 w2 -> R w2 w3 -> R w1 w3.

Lemma preserves_ret {A : Type} (a : A) : preserves R (ret a).
Proof. intros w. apply R_refl. Qed.

Lemma preserves_throw {A : Type} : preserves R (@throw A).
Proof. intros w. apply R_refl. Qed.

Lemma preserves_bind {A B : Type} (m : Action A) (k : A -> Action B) :
  preserves R m -> (forall a, preserves R (k a)) -> preserves R (bind m k).
Proof.
  intros Hm Hk w. unfold bind, world_after. specialize (Hm w).
  unfold world_after in Hm. destruct (m w) as [[a|] w1]; simpl in *.
  - eapply R_trans; [exact Hm|]. apply (Hk a w1).
  - exact Hm.
Qed.

Lemma preserves_try_catch {A : Type} (body handler : Action A) :
  preserves R body -> preserves R handler -> preserves R (try_catch body handler).
Proof.
  intros Hb Hh w. unfold try_catch, world_after. specialize (Hb w).
  unfold world_after in Hb. destruct (body w) as [[a|] w1]; simpl in *.
  - exact Hb.
  - eapply R_trans; [exact Hb|]. apply (Hh w1).
Qed.

Lemma preserves_fmap {A B : Type} (f : A -> B) (m : Action A) :
  preserves R m -> preserves R (fmap f m).
Proof.
  intros Hm. apply preserves_bind; [exact Hm|]. intros a. apply preserves_ret.
Qed.

Lemma preserves_store_call {A : Type} op t (run : Action (Reply A)) :
  (forall w, R w (tick op t w)) -> preserves R run ->
  preserves R (store_call op t run).
Proof.
  intros Ht Hr w. unfold store_call, world_after.
  destruct (hd None (store_faults w)); simpl.
  - apply Ht.
  - eapply R_trans; [apply Ht|]. apply (Hr (tick op t w)).
Qed.
End Frame.

Create HintDb actions.
#[export] Hint Unfold
  getProductById addToCart addToCart_exit update_cart_quantity insert_cart_item
  select_cart_with_products getCartItems
  createOrder createOrder_exit insert_order insert_order_items delete_cart_of
  select_order_of select_order_items_of getOrderById
  updateOrderStatus updateOrderStatus_exit update_order_of
  requestPayment requestPayment_exit
  confirmPayment confirmPayment_exit
  cancelPayment cancelPayment_exit
  updateCartItemQuantity updateCartItemQuantity_exit
  select_cart_item_with_product update_cart_quantity_of
  removeCartItem removeCartItem_exit delete_cart_items
  removeCartItems removeCartItems_exit
  getCartItemsCount getCartTotal getOrders response_json : actions.

(** The primitive steps: unfold and compute. *)
Ltac frame_prim :=
  let w := fresh "w" in
  intros w;
  unfold world_after, auth, now, fresh_uuid, read_db, write_db, fetch_toss,
    same_catalog, same_orders, same_cart, same_cart_and_lines,
    no_gateway_call, same_environment, untouched, tick;
  simpl;
  repeat match goal with
         | |- context [match ?x with _ => _ end] => destruct x; simpl
         end;
  repeat match goal with
         | |- _ /\ _ => split
         | |- exists _, _ =>
             first [ exists []; split; [now rewrite app_nil_r | reflexivity]
                   | eexists; split; [reflexivity | reflexivity] ]
         | |- _ = _ => reflexivity
         end.

(** Walk the body of an action: binds, store calls, try/catch and the
    case distinctions between them. *)
Ltac frame_with Hr Ht :=
  repeat first
    [ apply (preserves_ret _ Hr)
    | apply (preserves_throw _ Hr)
    | apply (preserves_try_catch _ Ht)
    | apply (preserves_fmap _ Hr Ht)
    | apply (preserves_bind _ Ht); [|intros ?]
    | apply (preserves_store_call _ Ht); [solve [frame_prim]|]
    | match goal with
      | |- preserves _ (match ?x with _ => _ end) => destruct x
      | |- preserves _ (if ?b then _ else _) => destruct b
      | |- preserves _ (let (_, _) := ?p in _) => destruct p
      end
    | progress autounfold with actions
    | solve [frame_prim] ].

Lemma same_catalog_refl w : same_catalog w w.
Proof. reflexivity. Qed.

Lemma same_catalog_trans w1 w2 w3 :
  same_catalog w1 w2 -> same_catalog w2 w3 -> same_catalog w1 w3.
Proof. unfold same_catalog. congruence. Qed.

Lemma same_orders_refl w : same_orders w w.
Proof. split; reflexivity. Qed.

Lemma same_orders_trans w1 w2 w3 :
  same_orders w1 w2 -> same_orders w2 w3 -> same_orders w1 w3.
Proof. unfold same_orders. intros [? ?] [? ?]. split; congruence. Qed.

Lemma same_cart_and_lines_refl w : same_cart_and_lines w w.
Proof. split; reflexivity. Qed.

Lemma same_cart_and_lines_trans w1 w2 w3 :
  same_cart_and_lines w1 w2 -> same_cart_and_lines w2 w3 ->
  same_cart_and_lines w1 w3.
Proof. unfold same_cart_and_lines. intros [? ?] [? ?]. split; congruence. Qed.

Lemma no_gateway_call_refl w : no_gateway_call w w.
Proof. reflexivity. Qed.

Lemma no_gateway_call_trans w1 w2 w3 :
  no_gateway_call w1 w2 -> no_gateway_call w2 w3 -> no_gateway_call w1 w3.
Proof. unfold no_gateway_call. congruence. Qed.

Lemma same_environment_refl w : same_environment w w.
Proof. repeat split. Qed.

Lemma same_environment_trans w1 w2 w3 :
  same_environment w1 w2 -> same_environment w2 w3 -> same_environment w1 w3.
Proof.
  unfold same_environment.
  intros (? & ? & ? & ? & ?) (? & ? & ? & ? & ?). repeat split; congruence.
Qed.

Lemma untouched_refl w : untouched w w.
Proof.
  repeat split. exists []. split; [now rewrite app_nil_r | reflexivity].
Qed.

Lemma untouched_trans w1 w2 w3 :
  untouched w1 w2 -> untouched w2 w3 -> untouched w1 w3.
Proof.
  unfold untouched.
  intros (Hd1 & Ht1 & r1 & Hc1 & Hr1) (Hd2 & Ht2 & r2 & Hc2 & Hr2).
  split; [congruence|]. split; [congruence|].
  exists (r1 ++ r2)%list. split.
  - rewrite Hc2, Hc1. now rewrite app_assoc.
  - rewrite forallb_app, Hr1, Hr2. reflexivity.
Qed.

(** X1. No action writes the products table: the stock and the prices
    are the same after every action, whatever it returns. *)
Theorem actions_never_write_products :
  (forall productId quantity, preserves same_catalog (addToCart productId quantity)) /\
  (forall cartItemId quantity,
      preserves same_catalog (updateCartItemQuantity cartItemId quantity)) /\
  (forall cartItemId, preserves same_catalog (removeCartItem cartItemId)) /\
  (forall cartItemIds, preserves same_catalog (removeCartItems cartItemIds)) /\
  (forall shippingAddress orderNote,
      preserves same_catalog (createOrder shippingAddress orderNote)) /\
  (forall orderId status, preserves same_catalog (updateOrderStatus orderId status)) /\
  (forall paymentKey orderId amount,
      preserves same_catalog (confirmPayment paymentKey orderId amount)) /\
  (forall orderId, preserves same_catalog (cancelPayment orderId)).
Proof.
  repeat apply conj; intros; frame_with same_catalog_refl same_catalog_trans.
Qed.

(** X2. The actions that read (getProductById, getCartItems,
    getCartItemsCount, getCartTotal, getOrderById, getOrders,
    requestPayment) make no store call that writes and no gateway call,
    and leave every table as it was, whatever they return. *)
Theorem reading_actions_write_nothing :
  (forall productId, preserves untouched (getProductById productId)) /\
  preserves untouched getCartItems /\
  preserves untouched getCartItemsCount /\
  preserves untouched getCartTotal /\
  (forall orderId, preserves untouched (getOrderById orderId)) /\
  (forall status, preserves untouched (getOrders status)) /\
  (forall orderId, preserves untouched (requestPayment orderId)).
Proof.
  repeat apply conj; intros; frame_with untouched_refl untouched_trans.
Qed.

(** X3. Only confirmPayment contacts the gateway: after any other action
    the log of gateway requests is as it was. *)
Theorem only_confirmPayment_calls_gateway :
  (forall productId quantity, preserves no_gateway_call (addToCart productId quantity)) /\
  (forall cartItemId quantity,
      preserves no_gateway_call (updateCartItemQuantity cartItemId quantity)) /\
  (forall cartItemId, preserves no_gateway_call (removeCartItem cartItemId)) /\
  (forall cartItemIds, preserves no_gateway_call (removeCartItems cartItemIds)) /\
  (forall shippingAddress orderNote,
      preserves no_gateway_call (createOrder shippingAddress orderNote)) /\
  (forall orderId status, preserves no_gateway_call (updateOrderStatus orderId status)) /\
  (forall orderId, preserves no_gateway_call (requestPayment orderId)) /\
  (forall orderId, preserves no_gateway_call (cancelPayment orderId)).
Proof.
  repeat apply conj; intros; frame_with no_gateway_call_refl no_gateway_call_trans.
Qed.

(** X4. The cart actions never touch an order or an order line, and the
    order status and payment actions never touch a cart line or an order
    line. *)
Theorem cart_and_order_actions_are_separate :
  (forall productId quantity, preserves same_orders (addToCart productId quantity)) /\
  (forall cartItemId quantity,
      preserves same_orders (updateCartItemQuantity cartItemId quantity)) /\
  (forall cartItemId, preserves same_orders (removeCartItem cartItemId)) /\
  (forall cartItemIds, preserves same_orders (removeCartItems cartItemIds)) /\
  (forall orderId status,
      preserves same_cart_and_lines (updateOrderStatus orderId status)) /\
  (forall paymentKey orderId amount,
      preserves same_cart_and_lines (confirmPayment paymentKey orderId amount)) /\
  (forall orderId, preserves same_cart_and_lines (cancelPayment orderId)).
Proof.
  repeat apply conj; intros.
  1-4: frame_with same_orders_refl same_orders_trans.
  all: frame_with same_cart_and_lines_refl same_cart_and_lines_trans.
Qed.

(** ** What the actions return when the collaborators fail *)

Lemma try_catch_never_throws {A : Type} (body handler : Action A) :
  never_throws handler -> never_throws (try_catch body handler).
Proof.
  intros Hh w. unfold try_catch, completion.
  destruct (body w) as [[a|] w1]; simpl.
  - now exists a.
  - apply (Hh w1).
Qed.

Lemma ret_never_throws {A : Type} (a : A) : never_throws (ret a).
Proof. intros w. now exists a. Qed.

Lemma fmap_never_throws {A B : Type} (f : A -> B) (m : Action A) :
  never_throws m -> never_throws (fmap f m).
Proof.
  intros Hm w. destruct (Hm w) as [a Ha].
  unfold fmap, bind, completion in *.
  destruct (m w) as [[a'|] w1]; simpl in *; [|discriminate].
  now exists (f a').
Qed.

Ltac total_action :=
  intros;
  repeat first
    [ apply fmap_never_throws
    | apply try_catch_never_throws
    | apply ret_never_throws
    | progress autounfold with actions ].

(** X5. No exported action of cart.ts, orders.ts and payments.ts throws:
    whatever the store and the gateway do, each completes normally with
    its result (the catch block of each returns a value). *)
Theorem actions_never_throw :
  (forall productId quantity, never_throws (addToCart productId quantity)) /\
  never_throws getCartItems /\
  never_throws getCartItemsCount /\
  (forall cartItemId quantity,
      never_throws (updateCartItemQuantity cartItemId quantity)) /\
  (forall cartItemId, never_throws (removeCartItem cartItemId)) /\
  (forall cartItemIds, never_throws (removeCartItems cartItemIds)) /\
  never_throws getCartTotal /\
  (forall shippingAddress orderNote,
      never_throws (createOrder shippingAddress orderNote)) /\
  (forall orderId, never_throws (getOrderById orderId)) /\
  (forall orderId status, never_throws (updateOrderStatus orderId status)) /\
  (forall status, never_throws (getOrders status)) /\
  (forall orderId, never_throws (requestPayment orderId)) /\
  (forall paymentKey orderId amount,
      never_throws (confirmPayment paymentKey orderId amount)) /\
  (forall orderId, never_throws (cancelPayment orderId)).
Proof.
  repeat apply conj; total_action.
Qed.

(** X6. getProductById is the exception: a store error other than
    "no row" (PGRST116) is thrown on to its caller, while "no row" gives
    null. addToCart, its caller, turns the thrown error into its general
    failure and turns null into the product-not-found failure, and writes
    nothing in either case. *)
Theorem getProductById_errors :
  forall w productId quantity userId e,
    truthy (session w) = Some userId ->
    1 <= quantity ->
    uuidRegex_test productId = true ->
    nth 0 (store_faults w) None = Some e ->
    (code e <> "PGRST116" ->
     completion (getProductById productId w) = Thrown /\
     completion (addToCart productId quantity w)
     = Normal (AddToCartExit_result ATC_exception)) /\
    (code e = "PGRST116" ->
     completion (getProductById productId w) = Normal None /\
     completion (addToCart productId quantity w)
     = Normal (AddToCartExit_result ATC_product_not_found)) /\
    untouched w (world_after (addToCart productId quantity w)).
Proof.
  intros w productId quantity userId e Hs Hq Hu He.
  assert (Hget : getProductById productId w
                 = (if String.eqb (code e) "PGRST116" then Normal None else Thrown,
                    tick op_select t_products w)).
  { unfold getProductById, try_catch, bind. rewrite Hu. simpl.
    rewrite (store_call_fault _ _ _ _ e He). simpl.
    destruct (String.eqb (code e) "PGRST116"); reflexivity. }
  assert (Hadd : addToCart_exit productId quantity w
                 = (Normal (if String.eqb (code e) "PGRST116"
                            then ATC_product_not_found else ATC_exception),
                    tick op_select t_products w)).
  { unfold addToCart_exit, try_catch, bind, auth. rewrite Hs. simpl.
    replace (quantity =? 0) with false by (symmetry; apply Z.eqb_neq; lia).
    replace (quantity <? 1) with false by (symmetry; apply Z.ltb_ge; lia).
    simpl. rewrite Hget.
    destruct (String.eqb (code e) "PGRST116"); reflexivity. }
  unfold addToCart, fmap, bind, completion, world_after.
  rewrite Hget, Hadd. simpl.
  split; [|split].
  - intros Hne. apply String.eqb_neq in Hne. rewrite Hne. split; reflexivity.
  - intros Heq. apply String.eqb_eq in Heq. rewrite Heq. split; reflexivity.
  - unfold untouched. repeat (split; [reflexivity|]).
    exists [(op_select, t_products)]. split; reflexivity.
Qed.

Lemma getProductById_errors_witness :
  completion (getProductById P1_id
                (world_of (store_with_cart []) [Some a_store_error] gateway_approves))
  = Thrown /\
  completion (addToCart P1_id 1
                (world_of (store_with_cart []) [Some a_store_error] gateway_approves))
  = Normal (AddToCartExit_result ATC_exception).
Proof.
  destruct (getProductById_errors
              (world_of (store_with_cart []) [Some a_store_error] gateway_approves)
              P1_id 1 buyer a_store_error eq_refl ltac:(lia) eq_refl eq_refl)
    as (Hthrown & _ & _).
  apply Hthrown. simpl. discriminate.
Defined.

(** ** The order status machine as a whole *)

Lemma canUpdateOrderStatus_rank a b :
  canUpdateOrderStatus a b = true -> (status_rank a < status_rank b)%nat.
Proof. destruct a, b; simpl; intros H; try discriminate H; lia. Qed.

Lemma legal_history_ranks a l :
  legal_history (a :: l) = true ->
  (status_rank a + List.length l <= 3)%nat /\ ~ In a l /\ NoDup l.
Proof.
  revert a. induction l as [|b l IH]; intros a H.
  - simpl. split; [destruct a; simpl; lia|]. split; [tauto | constructor].
  - cbn [legal_history] in H. apply andb_prop in H. destruct H as [Hab Hrest].
    apply canUpdateOrderStatus_rank in Hab.
    destruct (IH b Hrest) as (Hlen & Hnotin & Hnodup).
    split; [simpl; lia|]. split.
    + intros [Heq|Hin]; [subst; lia|].
      (* a later status has a higher rank than b *)
      assert (Hlater : forall c l', legal_history (c :: l') = true ->
                forall d, In d l' -> (status_rank c < status_rank d)%nat).
      { clear. intros c l'. revert c.
        induction l' as [|x l' IHl]; intros c Hh d Hd; [contradiction|].
        cbn [legal_history] in Hh. apply andb_prop in Hh. destruct Hh as [Hcx Hr].
        apply canUpdateOrderStatus_rank in Hcx.
        destruct Hd as [<-|Hd]; [exact Hcx|].
        specialize (IHl x Hr d Hd). lia. }
      specialize (Hlater b l Hrest a Hin). lia.
    + constructor; assumption.
Qed.

(** X7. The status machine only goes forward: every allowed change
    raises the rank of the status (pending, confirmed, shipped, then
    delivered or cancelled), so a history of allowed changes never visits
    a status twice and has at most three changes; nothing leads back to
    pending, and delivered and cancelled allow no change at all. *)
Theorem order_status_only_goes_forward :
  forall history,
    legal_history history = true ->
    NoDup history /\
    (List.length history <= 4)%nat /\
    (forall s, canUpdateOrderStatus s pending = false) /\
    (forall s, canUpdateOrderStatus delivered s = false) /\
    (forall s, canUpdateOrderStatus cancelled s = false).
Proof.
  intros history H.
  assert (Hterm : (forall s, canUpdateOrderStatus s pending = false) /\
                  (forall s, canUpdateOrderStatus delivered s = false) /\
                  (forall s, canUpdateOrderStatus cancelled s = false)).
  { repeat split; intros s; now destruct s. }
  destruct history as [|a l].
  - split; [constructor|]. split; [simpl; lia | exact Hterm].
  - destruct (legal_history_ranks a l H) as (Hlen & Hnotin & Hnodup).
    split; [now constructor|]. split; [simpl; lia | exact Hterm].
Qed.

Lemma order_status_only_goes_forward_witness :
  NoDup [pending; confirmed; shipped; delivered] /\
  (List.length [pending; confirmed; shipped; delivered] <= 4)%nat.
Proof.
  destruct (order_status_only_goes_forward
              [pending; confirmed; shipped; delivered] eq_refl)
    as (Hnodup & Hlen & _).
  split; [exact Hnodup | exact Hlen].
Defined.

(** ** updateOrderStatus, requestPayment and cancelPayment in any world *)

Lemma getOrderById_cases orderId w :
  completion (getOrderById orderId w) = Normal None \/
  exists order, completion (getOrderById orderId w) = Normal (Some order).
Proof.
  destruct (getOrderById_run orderId w) as (r & w' & Hrun & _).
  unfold completion. rewrite Hrun. simpl.
  destruct r as [o|]; [right; now exists o | now left].
Qed.

(** Every return of updateOrderStatus, with what it has done. *)
Lemma updateOrderStatus_inv w orderId to :
  exists e,
    completion (updateOrderStatus_exit orderId to w) = Normal e /\
    match e with
    | UOS_updated st =>
        st = to /\
        exists userId order,
          truthy (session w) = Some userId /\
          filter (is_order_of orderId userId) (orders (db w)) = [order] /\
          canUpdateOrderStatus (Order.status order) to = true /\
          db (world_after (updateOrderStatus_exit orderId to w))
          = set_orders (map (fun o => if is_order_of orderId userId o
                                      then with_status to o else o)
                            (orders (db w))) (db w)
    | _ => db (world_after (updateOrderStatus_exit orderId to w)) = db w
    end.
Proof.
  unfold updateOrderStatus_exit, try_catch, bind, auth, completion, world_after.
  destruct (truthy (session w)) as [userId|] eqn:Hs; simpl;
    [|eexists; split; reflexivity].
  destruct (uuidRegex_test orderId) eqn:Hu; simpl;
    [|eexists; split; reflexivity].
  unfold select_order_of, store_call. rewrite hd_faults.
  destruct (nth 0 (store_faults w) None) eqn:E0; simpl;
    [eexists; split; reflexivity|].
  unfold bind, read_db, ret. simpl.
  destruct (filter (is_order_of orderId userId) (orders (db w)))
    as [|order [|o' l]] eqn:Hf; simpl;
    try (eexists; split; reflexivity).
  destruct (OrderStatus_eqb (Order.status order) to); simpl;
    [eexists; split; reflexivity|].
  destruct (canUpdateOrderStatus (Order.status order) to) eqn:Hcan; simpl;
    [|eexists; split; reflexivity].
  unfold update_order_of, store_call. rewrite hd_faults, nth_faults_tick.
  destruct (nth 1 (store_faults w) None); simpl;
    (eexists; split; [reflexivity|]); simpl; [reflexivity|].
  split; [reflexivity|]. exists userId, order. repeat split; assumption.
Qed.

(** X8. In any world, updateOrderStatus changes nothing when it fails,
    and when it succeeds the caller owns exactly one order with that id,
    the change is one of the six allowed ones, and the only change to the
    store is the status column of that order: every other order, and
    every other column, is as it was. *)
Theorem updateOrderStatus_changes_only_the_status :
  forall w orderId status res,
    completion (updateOrderStatus orderId status w) = Normal res ->
    (success res = false ->
     db (world_after (updateOrderStatus orderId status w)) = db w) /\
    (success res = true ->
     exists userId order,
       truthy (session w) = Some userId /\
       filter (is_order_of orderId userId) (orders (db w)) = [order] /\
       In (Order.status order, status) legal_edges /\
       db (world_after (updateOrderStatus orderId status w))
       = set_orders (map (fun o => if is_order_of orderId userId o
                                   then with_status status o else o)
                         (orders (db w))) (db w)).
Proof.
  intros w orderId status res Hres.
  destruct (updateOrderStatus_inv w orderId status) as (e & He & Hinv).
  unfold updateOrderStatus, fmap, bind, completion, world_after in *.
  destruct (updateOrderStatus_exit orderId status w) as [[e'|] w'] eqn:Hx;
    simpl in *; [|discriminate].
  inversion He; subst e'. inversion Hres; subst res. clear He Hres.
  destruct e; simpl in *;
    try (split; [intros _; exact Hinv | discriminate]).
  split; [discriminate|]. intros _.
  destruct Hinv as (-> & userId & order & Hs & Hf & Hcan & Hdb).
  exists userId, order. repeat (split; [assumption|]).
  split; [now apply canUpdateOrderStatus_table | exact Hdb].
Qed.

Lemma updateOrderStatus_changes_only_the_status_witness :
  db (world_after (updateOrderStatus sample_order_id delivered
                     (world_of (store_with_order buyer pending) [] gateway_approves)))
  = store_with_order buyer pending.
Proof.
  destruct (updateOrderStatus_changes_only_the_status
              (world_of (store_with_order buyer pending) [] gateway_approves)
              sample_order_id delivered _ eq_refl)
    as (Hfail & _).
  apply Hfail. reflexivity.
Defined.

(** What requestPayment does once getOrderById has returned the order. *)
Lemma requestPayment_exit_found w orderId order :
  completion (getOrderById orderId w) = Normal (Some order) ->
  completion (requestPayment_exit orderId w)
  = Normal
      (if match Order.payment_status (owi_order order) with
          | Some ps => PaymentStatus_eqb ps pay_success
          | None => false
          end
       then RP_already_paid
       else if OrderStatus_eqb (Order.status (owi_order order)) pending
       then RP_ready (Order.id (owi_order order))
       else RP_not_payable (Order.status (owi_order order))).
Proof.
  intros Hget.
  destruct (getOrderById_Some _ _ _ Hget) as (userId & Hs & _ & Hc & _ & _ & Hrun).
  unfold requestPayment_exit, try_catch, bind, auth, completion.
  rewrite Hs, Hrun, Hc. simpl.
  destruct (Order.payment_status (owi_order order)) as [[]|]; simpl;
    try reflexivity;
    destruct (OrderStatus_eqb (Order.status (owi_order order)) pending);
    reflexivity.
Qed.

Lemma requestPayment_exit_none w orderId :
  completion (getOrderById orderId w) = Normal None ->
  completion (requestPayment_exit orderId w) = Normal RP_unauthenticated \/
  completion (requestPayment_exit orderId w) = Normal RP_not_found.
Proof.
  intros Hnone.
  destruct (getOrderById_run orderId w) as (r & w' & Hrun & _).
  unfold completion in Hnone. rewrite Hrun in Hnone. simpl in Hnone.
  inversion Hnone; subst r.
  unfold requestPayment_exit, try_catch, bind, auth, completion.
  destruct (truthy (session w)); simpl; [|now left].
  rewrite Hrun. simpl. now right.
Qed.

Lemma cancelPayment_exit_none w orderId :
  completion (getOrderById orderId w) = Normal None ->
  completion (cancelPayment_exit orderId w) = Normal XP_unauthenticated \/
  completion (cancelPayment_exit orderId w) = Normal XP_not_found.
Proof.
  intros Hnone.
  destruct (getOrderById_run orderId w) as (r & w' & Hrun & _).
  unfold completion in Hnone. rewrite Hrun in Hnone. simpl in Hnone.
  inversion Hnone; subst r.
  unfold cancelPayment_exit, try_catch, bind, auth, completion.
  destruct (truthy (session w)); simpl; [|now left].
  rewrite Hrun. simpl. now right.
Qed.

Lemma PaymentStatus_eqb_eq a b : PaymentStatus_eqb a b = true <-> a = b.
Proof. destruct a, b; simpl; split; intro H; try reflexivity; discriminate H. Qed.

(** X9. requestPayment, for the order it loads, answers "ready" with the
    id of the order exactly when the order is not already paid and is
    pending; an order whose payment_status is success gets the
    already-paid failure whatever its status, and an unpaid order that is
    not pending gets the not-payable failure naming its status. *)
Theorem requestPayment_decision :
  forall w orderId order,
    completion (getOrderById orderId w) = Normal (Some order) ->
    exists e,
      completion (requestPayment_exit orderId w) = Normal e /\
      completion (requestPayment orderId w) = Normal (RequestPaymentExit_result e) /\
      (pr_success (RequestPaymentExit_result e) = true <->
       Order.payment_status (owi_order order) <> Some pay_success /\
       Order.status (owi_order order) = pending) /\
      (pr_success (RequestPaymentExit_result e) = true ->
       pr_orderId (RequestPaymentExit_result e) = Some orderId) /\
      (Order.payment_status (owi_order order) = Some pay_success ->
       e = RP_already_paid) /\
      (Order.payment_status (owi_order order) <> Some pay_success ->
       Order.status (owi_order order) <> pending ->
       e = RP_not_payable (Order.status (owi_order order))).
Proof.
  intros w orderId order Hget.
  pose proof (requestPayment_exit_found w orderId order Hget) as Hx.
  destruct (getOrderById_Some _ _ _ Hget) as (userId & _ & Hf & _).
  apply is_order_of_clerk in Hf. destruct Hf as (_ & Hid & _).
  eexists. split; [exact Hx|].
  split.
  { unfold requestPayment, fmap, bind, completion in *.
    destruct (requestPayment_exit orderId w) as [[e|] w']; simpl in *;
      [|discriminate].
    inversion Hx. reflexivity. }
  destruct (Order.payment_status (owi_order order)) as [ps|] eqn:Eps.
  - destruct (PaymentStatus_eqb ps pay_success) eqn:Epaid.
    + apply PaymentStatus_eqb_eq in Epaid. subst ps. simpl.
      split; [split; [discriminate | intros [H _]; now contradiction H]|].
      split; [discriminate|]. split; [reflexivity|].
      intros H; now contradiction H.
    + assert (Hne : Some ps <> Some pay_success).
      { intros H. inversion H; subst. now destruct pay_success. }
      destruct (OrderStatus_eqb (Order.status (owi_order order)) pending) eqn:Est.
      * apply OrderStatus_eqb_eq in Est. simpl.
        split; [split; [intros _; now split | reflexivity]|].
        split; [intros _; now rewrite Hid|].
        split; [intros H; now contradiction Hne|].
        intros _ H; now contradiction H.
      * assert (Hst : Order.status (owi_order order) <> pending).
        { intros H. rewrite H in Est. discriminate. }
        simpl. split; [split; [discriminate | intros [_ H]; now contradiction Hst]|].
        split; [discriminate|]. split; [intros H; now contradiction Hne|].
        reflexivity.
  - simpl.
    destruct (OrderStatus_eqb (Order.status (owi_order order)) pending) eqn:Est.
    + apply OrderStatus_eqb_eq in Est. simpl.
      split; [split; [intros _; split; [discriminate | exact Est] | reflexivity]|].
      split; [intros _; now rewrite Hid|].
      split; [discriminate|].
      intros _ H; now contradiction H.
    + assert (Hst : Order.status (owi_order order) <> pending).
      { intros H. rewrite H in Est. discriminate. }
      simpl. split; [split; [discriminate | intros [_ H]; now contradiction Hst]|].
      split; [discriminate|]. split; [discriminate|].
      reflexivity.
Qed.

Lemma requestPayment_decision_witness :
  exists e,
    completion (requestPayment_exit sample_order_id
                  (world_of (store_with_order buyer confirmed) [] gateway_approves))
    = Normal e /\
    e = RP_not_payable confirmed.
Proof.
  destruct (requestPayment_decision
              (world_of (store_with_order buyer confirmed) [] gateway_approves)
              sample_order_id
              {| owi_order := sample_order buyer confirmed; owi_order_items := [] |}
              eq_refl)
    as (e & He & _ & _ & _ & _ & Hnot).
  exists e. split; [exact He|].
  apply Hnot; simpl; discriminate.
Defined.

(** ** confirmPayment in full *)

(** Everything confirmPayment does once getOrderById has returned the
    order. *)
Lemma confirmPayment_exit_found w paymentKey orderId amount order userId :
  truthy (session w) = Some userId ->
  completion (getOrderById orderId w) = Normal (Some order) ->
  confirmPayment_exit paymentKey orderId amount w =
    let w2 := tick op_select t_order_items (tick op_select t_orders w) in
    if negb (Order.total_amount (owi_order order) =? amount)
    then (Normal CP_amount_mismatch, w2)
    else
      match truthy (toss_secret_key w) with
      | None => (Normal CP_no_secret_key, w2)
      | Some secretKey =>
        let req := {| req_secretKey := secretKey; req_paymentKey := paymentKey;
                      req_orderId := orderId; req_amount := amount |} in
        let w3 := set_toss_calls (toss_calls w ++ [req]) w2 in
        match toss w req with
        | FetchRejects => (Normal CP_exception, w3)
        | FetchResponse false None => (Normal CP_exception, w3)
        | FetchResponse false (Some errorData) =>
            (Normal (CP_gateway_rejected (body_message errorData)), w3)
        | FetchResponse true None => (Normal CP_exception, w3)
        | FetchResponse true (Some paymentData) =>
            match nth 2 (store_faults w) None with
            | Some _ => (Normal CP_update_failed, tick op_update t_orders w3)
            | None =>
                (Normal CP_confirmed,
                 set_db (set_orders
                           (map (fun o =>
                                   if is_order_of orderId userId o
                                   then with_payment paymentKey
                                          (paymentMethod_of (body_method paymentData))
                                          (clock w)
                                          (paymentInfo_of paymentData
                                             (paymentMethod_of (body_method paymentData)))
                                          o
                                   else o)
                                (orders (db w))) (db w))
                        (tick op_update t_orders w3))
            end
        end
      end.
Proof.
  intros Hs Hget.
  destruct (getOrderById_Some _ _ _ Hget) as (u & Hu & _ & Hc & _ & _ & Hrun).
  assert (u = userId) by congruence. subst u.
  unfold confirmPayment_exit, try_catch, bind, auth.
  rewrite Hs, Hrun, Hc. cbn [negb]. cbv zeta.
  destruct (negb (Order.total_amount (owi_order order) =? amount)); [reflexivity|].
  change (toss_secret_key (tick op_select t_order_items (tick op_select t_orders w)))
    with (toss_secret_key w).
  destruct (truthy (toss_secret_key w)) as [secretKey|]; [|reflexivity].
  unfold fetch_toss.
  change (toss (tick op_select t_order_items (tick op_select t_orders w)))
    with (toss w).
  destruct (toss w _) as [|[|] [body|]]; try reflexivity.
  cbn [negb response_json ret].
  unfold now, update_order_of, store_call.
  rewrite hd_faults. autorewrite with faults.
  change (store_faults (set_toss_calls _ ?x)) with (store_faults x).
  autorewrite with faults.
  destruct (nth 2 (store_faults w) None); reflexivity.
Qed.

(** X10. When the gateway approves, confirmPayment records the payment
    on the order whatever status the order had: afterwards the order has
    status confirmed, payment_status success, the payment key as
    payment_id, the time of the call as paid_at and the gateway's data as
    payment_info, with its other columns unchanged; exactly one request
    was sent to the gateway, carrying the payment key, the order id and
    the amount. *)
Theorem confirmPayment_records_the_payment :
  forall w paymentKey orderId amount order userId secretKey paymentData,
    truthy (session w) = Some userId ->
    completion (getOrderById orderId w) = Normal (Some order) ->
    amount = Order.total_amount (owi_order order) ->
    truthy (toss_secret_key w) = Some secretKey ->
    toss w {| req_secretKey := secretKey; req_paymentKey := paymentKey;
              req_orderId := orderId; req_amount := amount |}
    = FetchResponse true (Some paymentData) ->
    no_fault 2 w ->
    completion (confirmPayment paymentKey orderId amount w)
    = Normal {| success := true; message := "결제가 완료되었습니다." |} /\
    toss_calls (world_after (confirmPayment paymentKey orderId amount w))
    = (toss_calls w
       ++ [{| req_secretKey := secretKey; req_paymentKey := paymentKey;
              req_orderId := orderId; req_amount := amount |}])%list /\
    exists o',
      filter (is_order_of orderId userId)
             (orders (db (world_after (confirmPayment paymentKey orderId amount w))))
      = [o'] /\
      Order.status o' = confirmed /\
      Order.payment_status o' = Some pay_success /\
      Order.payment_id o' = Some paymentKey /\
      Order.paid_at o' = Some (clock w) /\
      Order.payment_method o' = Some (paymentMethod_of (body_method paymentData)) /\
      option_map PaymentInfo.amount (Order.payment_info o')
      = Some (body_totalAmount paymentData) /\
      Order.total_amount o' = Order.total_amount (owi_order order) /\
      Order.shipping_address o' = Order.shipping_address (owi_order order) /\
      Order.created_at o' = Order.created_at (owi_order order).
Proof.
  intros w paymentKey orderId amount order userId secretKey paymentData
         Hs Hget Ham Hkey Htoss H2.
  destruct (getOrderById_Some _ _ _ Hget) as (u & Hu & Hf & _).
  assert (u = userId) by congruence. subst u.
  unfold confirmPayment, fmap, bind, completion, world_after.
  rewrite (confirmPayment_exit_found w paymentKey orderId amount order userId Hs Hget).
  cbv zeta. rewrite <- Ham, Z.eqb_refl. cbn [negb].
  rewrite Hkey, Htoss. unfold no_fault in H2. rewrite H2. simpl.
  split; [reflexivity|]. split; [reflexivity|].
  rewrite filter_update by reflexivity. rewrite Hf. simpl.
  eexists. split; [reflexivity|]. repeat split. simpl. now symmetry.
Qed.

Lemma confirmPayment_records_the_payment_witness :
  completion (confirmPayment "pay_key_1" sample_order_id 2500
                (world_of (store_with_order buyer delivered) [] gateway_approves))
  = Normal {| success := true; message := "결제가 완료되었습니다." |}.
Proof.
  apply (confirmPayment_records_the_payment
           (world_of (store_with_order buyer delivered) [] gateway_approves)
           "pay_key_1" sample_order_id 2500
           {| owi_order := sample_order buyer delivered; owi_order_items := [] |}
           buyer "test_sk_1" sample_payment);
    reflexivity.
Defined.

(** X11. After the amount check has passed, two failures of
    confirmPayment. Without the secret key in the configuration (unset or
    empty) it returns the configuration failure; no request goes to the
    gateway and nothing is written. And when the gateway has approved and
    the update of the order then fails, it returns the failure that says
    the payment was made but the order was not updated; the request has
    gone to the gateway and the order is as it was before. *)
Theorem confirmPayment_late_failures :
  forall w paymentKey orderId amount order userId,
    truthy (session w) = Some userId ->
    completion (getOrderById orderId w) = Normal (Some order) ->
    amount = Order.total_amount (owi_order order) ->
    (truthy (toss_secret_key w) = None ->
     completion (confirmPayment paymentKey orderId amount w)
     = Normal {| success := false;
                 message := "결제 서버 설정 오류입니다. 관리자에게 문의해주세요." |} /\
     untouched w (world_after (confirmPayment paymentKey orderId amount w))) /\
    (forall secretKey paymentData,
        truthy (toss_secret_key w) = Some secretKey ->
        toss w {| req_secretKey := secretKey; req_paymentKey := paymentKey;
                  req_orderId := orderId; req_amount := amount |}
        = FetchResponse true (Some paymentData) ->
        fault_at 2 w ->
        completion (confirmPayment paymentKey orderId amount w)
        = Normal {| success := false;
                    message := "결제는 완료되었지만 주문 정보 업데이트에 실패했습니다. 고객센터로 문의해주세요." |} /\
        toss_calls (world_after (confirmPayment paymentKey orderId amount w))
        = (toss_calls w
           ++ [{| req_secretKey := secretKey; req_paymentKey := paymentKey;
                  req_orderId := orderId; req_amount := amount |}])%list /\
        db (world_after (confirmPayment paymentKey orderId amount w)) = db w).
Proof.
  intros w paymentKey orderId amount order userId Hs Hget Ham.
  unfold confirmPayment, fmap, bind, completion, world_after.
  rewrite (confirmPayment_exit_found w paymentKey orderId amount order userId Hs Hget).
  cbv zeta. rewrite <- Ham, Z.eqb_refl. cbn [negb].
  split.
  - intros Hkey. rewrite Hkey. simpl. split; [reflexivity|].
    unfold untouched. repeat (split; [reflexivity|]).
    exists [(op_select, t_orders); (op_select, t_order_items)].
    split; [now rewrite !store_calls_tick, <- app_assoc | reflexivity].
  - intros secretKey paymentData Hkey Htoss [e2 H2].
    rewrite Hkey, Htoss, H2. simpl. repeat split.
Qed.


Lemma confirmPayment_exit_none w paymentKey orderId amount :
  completion (getOrderById orderId w) = Normal None ->
  exists e,
    completion (confirmPayment_exit paymentKey orderId amount w) = Normal e /\
    (e = CP_unauthenticated \/ e = CP_not_found) /\
    untouched w (world_after (confirmPayment_exit paymentKey orderId amount w)).
Proof.
  intros Hnone.
  destruct (getOrderById_run orderId w)
    as (r & w' & Hrun & _ & _ & _ & _ & Hunt & _).
  unfold completion in Hnone. rewrite Hrun in Hnone. simpl in Hnone.
  inversion Hnone; subst r.
  unfold confirmPayment_exit, try_catch, bind, auth, completion, world_after.
  destruct (truthy (session w)); simpl.
  - rewrite Hrun. simpl. eexists. split; [reflexivity|]. split; [now right | exact Hunt].
  - eexists. split; [reflexivity|]. split; [now left | apply untouched_refl].
Qed.

(** X12. In any world, confirmPayment reports success only when the
    caller owns the order, the reported amount is the order's
    total_amount, and the gateway answered that very request (this
    payment key, this order id, this amount) with a success and a payment
    object; whenever it reports a failure the tables are as they were; and
    it sends at most one request to the gateway, and none unless the
    amount has matched. *)
Theorem confirmPayment_succeeds_only_on_approval :
  forall w paymentKey orderId amount res,
    completion (confirmPayment paymentKey orderId amount w) = Normal res ->
    (success res = true ->
     exists order secretKey paymentData,
       completion (getOrderById orderId w) = Normal (Some order) /\
       truthy (session w) = Some (Order.clerk_id (owi_order order)) /\
       amount = Order.total_amount (owi_order order) /\
       truthy (toss_secret_key w) = Some secretKey /\
       toss w {| req_secretKey := secretKey; req_paymentKey := paymentKey;
                 req_orderId := orderId; req_amount := amount |}
       = FetchResponse true (Some paymentData)) /\
    (success res = false ->
     db (world_after (confirmPayment paymentKey orderId amount w)) = db w) /\
    (toss_calls (world_after (confirmPayment paymentKey orderId amount w))
     = toss_calls w
     \/ exists order secretKey,
          completion (getOrderById orderId w) = Normal (Some order) /\
          amount = Order.total_amount (owi_order order) /\
          toss_calls (world_after (confirmPayment paymentKey orderId amount w))
          = (toss_calls w
             ++ [{| req_secretKey := secretKey; req_paymentKey := paymentKey;
                    req_orderId := orderId; req_amount := amount |}])%list).
Proof.
  intros w paymentKey orderId amount res Hres.
  destruct (getOrderById_cases orderId w) as [Hnone|[order Hget]].
  - destruct (confirmPayment_exit_none w paymentKey orderId amount Hnone)
      as (e & He & Hcase & Hdb & Htc & _).
    unfold confirmPayment, fmap, bind, completion, world_after in *.
    destruct (confirmPayment_exit paymentKey orderId amount w) as [[e'|] w'];
      simpl in *; [|discriminate].
    inversion He; subst e'. inversion Hres; subst res.
    split; [destruct Hcase; subst e; discriminate|].
    split; [intros _; exact Hdb | now left].
  - destruct (getOrderById_Some _ _ _ Hget) as (userId & Hs & _ & Hc & _).
    apply String.eqb_eq in Hc.
    unfold confirmPayment, fmap, bind, completion, world_after in *.
    rewrite (confirmPayment_exit_found w paymentKey orderId amount order userId
               Hs Hget) in *.
    cbv zeta in *.
    destruct (Z.eqb_spec (Order.total_amount (owi_order order)) amount) as [Ham|Ham];
      cbn [negb] in *.
    2:{ simpl in *. inversion Hres; subst res.
        split; [discriminate|]. split; [reflexivity | now left]. }
    destruct (truthy (toss_secret_key w)) as [secretKey|] eqn:Hkey.
    2:{ simpl in *. inversion Hres; subst res.
        split; [discriminate|]. split; [reflexivity | now left]. }
    destruct (toss w _) as [|[|] [body|]] eqn:Htoss;
      try (simpl in *; inversion Hres; subst res;
           split; [discriminate|]; split; [reflexivity|];
           right; exists order, secretKey;
           split; [exact Hget|]; split; [now symmetry | reflexivity]).
    destruct (nth 2 (store_faults w) None); simpl in *;
      inversion Hres; subst res.
    + split; [discriminate|]. split; [reflexivity|].
      right. exists order, secretKey.
      split; [exact Hget|]. split; [now symmetry | reflexivity].
    + split.
      * intros _. exists order, secretKey, body.
        split; [exact Hget|]. split; [now rewrite Hc|].
        split; [now symmetry|]. split; [reflexivity | exact Htoss].
      * split; [discriminate|].
        right. exists order, secretKey.
        split; [exact Hget|]. split; [now symmetry | reflexivity].
Qed.

Lemma confirmPayment_succeeds_only_on_approval_witness :
  db (world_after
        (confirmPayment "pay_key_1" sample_order_id 2500
           (world_of (store_with_order buyer pending) []
                     (gateway_rejects (Some "카드 한도가 초과되었습니다.")))))
  = store_with_order buyer pending.
Proof.
  destruct (confirmPayment_succeeds_only_on_approval
              (world_of (store_with_order buyer pending) []
                        (gateway_rejects (Some "카드 한도가 초과되었습니다.")))
              "pay_key_1" sample_order_id 2500 _ eq_refl)
    as (_ & Hfail & _).
  apply Hfail. reflexivity.
Defined.

(** ** One action after another *)

Lemma faults_set_toss_calls l w : store_faults (set_toss_calls l w) = store_faults w.
Proof. reflexivity. Qed.

#[export] Hint Rewrite faults_set_toss_calls : faults.

Lemma getOrderById_found w orderId userId order :
  truthy (session w) = Some userId ->
  uuidRegex_test orderId = true ->
  filter (is_order_of orderId userId) (orders (db w)) = [order] ->
  no_fault 0 w -> no_fault 1 w ->
  exists items,
    completion (getOrderById orderId w)
    = Normal (Some {| owi_order := order; owi_order_items := items |}).
Proof.
  intros Hs Hu Hf H0 H1.
  unfold getOrderById, try_catch, bind, auth, completion.
  rewrite Hs, Hu. simpl.
  unfold select_order_of. rewrite store_call_no_fault by assumption.
  unfold bind, read_db, ret. simpl. rewrite Hf. simpl.
  unfold select_order_items_of.
  rewrite store_call_no_fault by (apply no_fault_tick; assumption).
  simpl. eexists. reflexivity.
Qed.

Lemma getOrderById_uuid w orderId order :
  completion (getOrderById orderId w) = Normal (Some order) ->
  uuidRegex_test orderId = true.
Proof.
  intros Hget.
  destruct (getOrderById_run orderId w)
    as (r & w' & Hrun & _ & _ & _ & _ & _ & Hsome).
  unfold completion in Hget. rewrite Hrun in Hget. simpl in Hget.
  inversion Hget; subst r.
  now destruct (Hsome order eq_refl) as (_ & _ & _ & Hu & _).
Qed.

(** The world a successful cancelPayment leaves. *)
Lemma cancelPayment_done w orderId userId order :
  truthy (session w) = Some userId ->
  completion (getOrderById orderId w) = Normal (Some order) ->
  Order.status (owi_order order) = pending
  \/ Order.status (owi_order order) = confirmed ->
  no_fault 2 w ->
  completion (cancelPayment orderId w)
  = Normal (CancelPaymentExit_result XP_cancelled) /\
  session (world_after (cancelPayment orderId w)) = session w /\
  filter (is_order_of orderId userId)
         (orders (db (world_after (cancelPayment orderId w))))
  = [with_cancellation (owi_order order)] /\
  toss_calls (world_after (cancelPayment orderId w)) = toss_calls w /\
  forall n, nth n (store_faults (world_after (cancelPayment orderId w))) None
            = nth (3 + n) (store_faults w) None.
Proof.
  intros Hs Hget Hst H2.
  destruct (getOrderById_Some _ _ _ Hget) as (u & Hu & Hf & _).
  assert (u = userId) by congruence. subst u.
  unfold cancelPayment, fmap, bind, completion, world_after.
  rewrite (cancelPayment_exit_found w orderId userId order Hs Hget). cbv zeta.
  unfold no_fault in H2. rewrite H2.
  assert (Hcond : negb (OrderStatus_eqb (Order.status (owi_order order)) pending)
                  && negb (OrderStatus_eqb (Order.status (owi_order order)) confirmed)
                  = false).
  { destruct Hst as [-> | ->]; reflexivity. }
  rewrite Hcond. simpl.
  split; [reflexivity|]. split; [reflexivity|].
  split; [rewrite filter_update by reflexivity; now rewrite Hf|].
  split; [reflexivity|].
  intros n. unfold tick. simpl. now rewrite !nth_tl.
Qed.

Lemma cancelPayment_environment orderId :
  preserves same_environment (cancelPayment orderId).
Proof. frame_with same_environment_refl same_environment_trans. Qed.

Lemma requestPayment_untouched orderId : preserves untouched (requestPayment orderId).
Proof. frame_with untouched_refl untouched_trans. Qed.

(** X13. After cancelPayment has cancelled an order, the order has
    status cancelled; updateOrderStatus on it fails whatever status is
    asked for, requestPayment on it fails and a second cancelPayment
    fails, each leaving the tables as they are; cancelPayment itself has
    sent nothing to the gateway. confirmPayment is the exception: it
    checks no status, so with the amount of the order, the secret key
    set, the gateway approving and the store answering, it succeeds on
    the cancelled order, which is then confirmed with payment_status
    success. *)
Theorem cancelled_order_stays_cancelled_unless_paid :
  forall w orderId order userId,
    truthy (session w) = Some userId ->
    completion (getOrderById orderId w) = Normal (Some order) ->
    Order.status (owi_order order) = pending
    \/ Order.status (owi_order order) = confirmed ->
    no_fault 2 w ->
    completion (cancelPayment orderId w)
    = Normal {| success := true; message := "주문이 취소되었습니다." |} /\
    toss_calls (world_after (cancelPayment orderId w)) = toss_calls w /\
    (exists o,
        filter (is_order_of orderId userId)
               (orders (db (world_after (cancelPayment orderId w)))) = [o] /\
        Order.status o = cancelled) /\
    (forall status res,
        completion (updateOrderStatus orderId status
                      (world_after (cancelPayment orderId w))) = Normal res ->
        success res = false /\
        db (world_after (updateOrderStatus orderId status
                           (world_after (cancelPayment orderId w))))
        = db (world_after (cancelPayment orderId w))) /\
    (forall res,
        completion (requestPayment orderId (world_after (cancelPayment orderId w)))
        = Normal res ->
        pr_success res = false /\
        db (world_after (requestPayment orderId (world_after (cancelPayment orderId w))))
        = db (world_after (cancelPayment orderId w))) /\
    (forall res,
        completion (cancelPayment orderId (world_after (cancelPayment orderId w)))
        = Normal res ->
        success res = false /\
        db (world_after (cancelPayment orderId (world_after (cancelPayment orderId w))))
        = db (world_after (cancelPayment orderId w))) /\
    (forall paymentKey secretKey paymentData,
        truthy (toss_secret_key w) = Some secretKey ->
        toss w {| req_secretKey := secretKey; req_paymentKey := paymentKey;
                  req_orderId := orderId;
                  req_amount := Order.total_amount (owi_order order) |}
        = FetchResponse true (Some paymentData) ->
        no_fault 3 w -> no_fault 4 w -> no_fault 5 w ->
        completion (confirmPayment paymentKey orderId
                      (Order.total_amount (owi_order order))
                      (world_after (cancelPayment orderId w)))
        = Normal {| success := true; message := "결제가 완료되었습니다." |} /\
        exists o',
          filter (is_order_of orderId userId)
                 (orders (db (world_after
                                (confirmPayment paymentKey orderId
                                   (Order.total_amount (owi_order order))
                                   (world_after (cancelPayment orderId w))))))
          = [o'] /\
          Order.status o' = confirmed /\
          Order.payment_status o' = Some pay_success).
Proof.
  intros w orderId order userId Hs Hget Hst H2.
  destruct (cancelPayment_done w orderId userId order Hs Hget Hst H2)
    as (Hres & Hses & Hf' & Htc & Hfaults).
  pose proof (cancelPayment_environment orderId w) as Henv.
  set (w' := world_after (cancelPayment orderId w)) in *.
  assert (Hs' : truthy (session w') = Some userId) by now rewrite Hses.
  split; [exact Hres|]. split; [exact Htc|].
  split; [exists (with_cancellation (owi_order order)); split; [exact Hf' | reflexivity]|].
  split; [|split; [|split]].
  - intros status res Hr.
    destruct (updateOrderStatus_inv w' orderId status) as (e & He & Hinv).
    unfold updateOrderStatus, fmap, bind, completion, world_after in *.
    destruct (updateOrderStatus_exit orderId status w') as [[e'|] w''];
      simpl in *; [|discriminate].
    inversion He; subst e'. inversion Hr; subst res.
    destruct e; try (split; [reflexivity | exact Hinv]).
    destruct Hinv as (_ & u & o & Hu & Hfo & Hcan & _).
    assert (u = userId) by congruence. subst u.
    rewrite Hf' in Hfo. inversion Hfo; subst o.
    simpl in Hcan. destruct status; discriminate.
  - intros res Hr. split.
    2:{ apply (requestPayment_untouched orderId w'). }
    destruct (getOrderById_cases orderId w') as [Hnone|[o Hgo]].
    + destruct (requestPayment_exit_none w' orderId Hnone) as [Hx|Hx];
        unfold requestPayment, fmap, bind, completion in *;
        destruct (requestPayment_exit orderId w') as [[e'|] w''];
        simpl in *; try discriminate;
        inversion Hx; subst e'; inversion Hr; reflexivity.
    + pose proof (requestPayment_exit_found w' orderId o Hgo) as Hx.
      destruct (getOrderById_Some _ _ _ Hgo) as (u & Hu & Hfo & _).
      assert (u = userId) by congruence. subst u.
      rewrite Hf' in Hfo. inversion Hfo as [Ho].
      rewrite <- Ho in Hx. simpl in Hx.
      unfold requestPayment, fmap, bind, completion in *.
      destruct (requestPayment_exit orderId w') as [[e'|] w''];
        simpl in *; [|discriminate].
      inversion Hx; subst e'. inversion Hr; reflexivity.
  - intros res Hr.
    destruct (getOrderById_cases orderId w') as [Hnone|[o Hgo]].
    + destruct (getOrderById_run orderId w')
        as (r & w2 & Hrun & _ & _ & _ & _ & Hunt & _).
      unfold completion in Hnone. rewrite Hrun in Hnone. simpl in Hnone.
      inversion Hnone; subst r.
      unfold cancelPayment, cancelPayment_exit, fmap, try_catch, bind, auth,
        completion, world_after in *.
      rewrite Hs' in *. simpl in *. rewrite Hrun in *. simpl in *.
      inversion Hr. split; [reflexivity | apply Hunt].
    + pose proof (cancelPayment_exit_found w' orderId userId o Hs' Hgo) as Hx.
      destruct (getOrderById_Some _ _ _ Hgo) as (u & Hu & Hfo & _).
      assert (u = userId) by congruence. subst u.
      rewrite Hf' in Hfo. inversion Hfo as [Ho].
      rewrite <- Ho in Hx. simpl in Hx.
      unfold cancelPayment, fmap, bind, completion, world_after in *.
      rewrite Hx in *. simpl in *. inversion Hr. split; reflexivity.
  - intros paymentKey secretKey paymentData Hkey Htoss H3 H4 H5.
    destruct Henv as (Hses' & Hkey' & _ & Htoss' & _).
    assert (Hu : uuidRegex_test orderId = true) by (eapply getOrderById_uuid; eassumption).
    destruct (getOrderById_found w' orderId userId (with_cancellation (owi_order order))
                Hs' Hu Hf') as (items & Hget').
    { unfold no_fault. rewrite (Hfaults 0%nat). exact H3. }
    { unfold no_fault. rewrite (Hfaults 1%nat). exact H4. }
    assert (Hf0 : filter (is_order_of orderId userId) (orders (db w'))
                  = [with_cancellation (owi_order order)]) by exact Hf'.
    clearbody w'.
    unfold confirmPayment, fmap, bind, completion, world_after.
    rewrite (confirmPayment_exit_found w' paymentKey orderId _ _ userId Hs' Hget').
    cbv zeta. cbn [owi_order with_cancellation Order.total_amount].
    rewrite Z.eqb_refl. cbn [negb].
    rewrite Hkey', Hkey, Htoss', Htoss.
    rewrite (Hfaults 2%nat).
    change (nth (3 + 2) (store_faults w) None) with (nth 5 (store_faults w) None).
    unfold no_fault in H5. rewrite H5. simpl.
    split; [reflexivity|].
    rewrite filter_update by reflexivity. rewrite Hf0. simpl.
    eexists. split; [reflexivity|]. split; reflexivity.
Qed.

Lemma cancelled_order_stays_cancelled_unless_paid_witness :
  completion (cancelPayment sample_order_id
                (world_of (store_with_order buyer confirmed) [] gateway_approves))
  = Normal {| success := true; message := "주문이 취소되었습니다." |} /\
  completion (confirmPayment "pay_key_1" sample_order_id 2500
                (world_after
                   (cancelPayment sample_order_id
                      (world_of (store_with_order buyer confirmed) []
                                gateway_approves))))
  = Normal {| success := true; message := "결제가 완료되었습니다." |} /\
  exists o',
    filter (is_order_of sample_order_id buyer)
           (orders (db (world_after
                          (confirmPayment "pay_key_1" sample_order_id 2500
                             (world_after
                                (cancelPayment sample_order_id
                                   (world_of (store_with_order buyer confirmed) []
                                             gateway_approves)))))))
    = [o'] /\
    Order.status o' = confirmed.
Proof.
  destruct (cancelled_order_stays_cancelled_unless_paid
              (world_of (store_with_order buyer confirmed) [] gateway_approves)
              sample_order_id
              {| owi_order := sample_order buyer confirmed; owi_order_items := [] |}
              buyer eq_refl eq_refl (or_intror eq_refl) eq_refl)
    as (Hres & _ & _ & _ & _ & _ & Hpay).
  destruct (Hpay "pay_key_1" "test_sk_1" sample_payment
              eq_refl eq_refl eq_refl eq_refl eq_refl)
    as (Hok & o' & Hline & Hstatus & _).
  split; [exact Hres|]. split; [exact Hok|].
  exists o'. split; [exact Hline | exact Hstatus].
Defined.

(** The scenario run: the order is cancelled, then paid. *)
Example cancelled_then_paid :
  let cancelled_world :=
    world_after (cancelPayment sample_order_id
                   (world_of (store_with_order buyer confirmed) [] gateway_approves)) in
  map Order.status (orders (db cancelled_world)) = [cancelled] /\
  map (fun o => (Order.status o, Order.payment_status o))
      (orders (db (world_after
                     (confirmPayment "pay_key_1" sample_order_id 2500
                        cancelled_world))))
  = [(confirmed, Some pay_success)].
Proof. vm_compute. split; reflexivity. Qed.

(** The world a successful confirmPayment leaves. *)
Lemma confirmPayment_done w paymentKey orderId amount order userId secretKey paymentData :
  truthy (session w) = Some userId ->
  completion (getOrderById orderId w) = Normal (Some order) ->
  amount = Order.total_amount (owi_order order) ->
  truthy (toss_secret_key w) = Some secretKey ->
  toss w {| req_secretKey := secretKey; req_paymentKey := paymentKey;
            req_orderId := orderId; req_amount := amount |}
  = FetchResponse true (Some paymentData) ->
  no_fault 2 w ->
  session (world_after (confirmPayment paymentKey orderId amount w)) = session w /\
  filter (is_order_of orderId userId)
         (orders (db (world_after (confirmPayment paymentKey orderId amount w))))
  = [with_payment paymentKey (paymentMethod_of (body_method paymentData)) (clock w)
       (paymentInfo_of paymentData (paymentMethod_of (body_method paymentData)))
       (owi_order order)] /\
  forall n,
    nth n (store_faults (world_after (confirmPayment paymentKey orderId amount w))) None
    = nth (3 + n) (store_faults w) None.
Proof.
  intros Hs Hget Ham Hkey Htoss H2.
  destruct (getOrderById_Some _ _ _ Hget) as (u & Hu & Hf & _).
  assert (u = userId) by congruence. subst u.
  unfold confirmPayment, fmap, bind, completion, world_after.
  rewrite (confirmPayment_exit_found w paymentKey orderId amount order userId Hs Hget).
  cbv zeta. rewrite <- Ham, Z.eqb_refl. cbn [negb].
  rewrite Hkey, Htoss. unfold no_fault in H2. rewrite H2. simpl.
  split; [reflexivity|].
  split; [rewrite filter_update by reflexivity; now rewrite Hf|].
  intros n. unfold tick. simpl. now rewrite !nth_tl.
Qed.

(** X14. After confirmPayment has recorded a payment, requestPayment on
    the same order answers already-paid; and cancelPayment on it still
    succeeds (the order is confirmed), sets status and payment_status to
    cancelled, keeps payment_id, paid_at and payment_info as recorded,
    and sends nothing to the gateway. *)
Theorem paid_order_afterwards :
  forall w paymentKey orderId amount order userId secretKey paymentData,
    truthy (session w) = Some userId ->
    completion (getOrderById orderId w) = Normal (Some order) ->
    amount = Order.total_amount (owi_order order) ->
    truthy (toss_secret_key w) = Some secretKey ->
    toss w {| req_secretKey := secretKey; req_paymentKey := paymentKey;
              req_orderId := orderId; req_amount := amount |}
    = FetchResponse true (Some paymentData) ->
    no_fault 2 w -> no_fault 3 w -> no_fault 4 w ->
    completion (requestPayment_exit orderId
                  (world_after (confirmPayment paymentKey orderId amount w)))
    = Normal RP_already_paid /\
    (no_fault 5 w ->
     completion (cancelPayment orderId
                   (world_after (confirmPayment paymentKey orderId amount w)))
     = Normal {| success := true; message := "주문이 취소되었습니다." |} /\
     toss_calls (world_after
                   (cancelPayment orderId
                      (world_after (confirmPayment paymentKey orderId amount w))))
     = toss_calls (world_after (confirmPayment paymentKey orderId amount w)) /\
     exists o',
       filter (is_order_of orderId userId)
              (orders (db (world_after
                             (cancelPayment orderId
                                (world_after
                                   (confirmPayment paymentKey orderId amount w))))))
       = [o'] /\
       Order.status o' = cancelled /\
       Order.payment_status o' = Some pay_cancelled /\
       Order.payment_id o' = Some paymentKey /\
       Order.paid_at o' = Some (clock w) /\
       Order.payment_info o'
       = Some (paymentInfo_of paymentData
                 (paymentMethod_of (body_method paymentData)))).
Proof.
  intros w paymentKey orderId amount order userId secretKey paymentData
         Hs Hget Ham Hkey Htoss H2 H3 H4.
  destruct (confirmPayment_done w paymentKey orderId amount order userId secretKey
              paymentData Hs Hget Ham Hkey Htoss H2)
    as (Hses & Hf' & Hfaults).
  set (w' := world_after (confirmPayment paymentKey orderId amount w)) in *.
  assert (Hs' : truthy (session w') = Some userId) by now rewrite Hses.
  pose proof (getOrderById_uuid _ _ _ Hget) as Huuid.
  assert (H0' : no_fault 0 w') by (unfold no_fault; rewrite Hfaults; exact H3).
  assert (H1' : no_fault 1 w') by (unfold no_fault; rewrite Hfaults; exact H4).
  destruct (getOrderById_found w' orderId userId _ Hs' Huuid Hf' H0' H1')
    as (items & Hget').
  split.
  - rewrite (requestPayment_exit_found w' orderId _ Hget'). reflexivity.
  - intros H5.
    assert (H2' : no_fault 2 w') by (unfold no_fault; rewrite Hfaults; exact H5).
    destruct (cancelPayment_done w' orderId userId _ Hs' Hget'
                (or_intror eq_refl) H2')
      as (Hres & _ & Hf'' & Htc & _).
    split; [exact Hres|]. split; [exact Htc|].
    eexists. split; [exact Hf''|]. repeat split.
Qed.

Lemma paid_order_afterwards_witness :
  completion (requestPayment_exit sample_order_id
                (world_after
                   (confirmPayment "pay_key_1" sample_order_id 2500
                      (world_of (store_with_order buyer pending) [] gateway_approves))))
  = Normal RP_already_paid.
Proof.
  apply (paid_order_afterwards
           (world_of (store_with_order buyer pending) [] gateway_approves)
           "pay_key_1" sample_order_id 2500
           {| owi_order := sample_order buyer pending; owi_order_items := [] |}
           buyer "test_sk_1" sample_payment);
    reflexivity.
Defined.

(** ** createOrder in full *)

Lemma validate_cart_None cartItems :
  validate_cart cartItems = None <-> Forall purchasable cartItems.
Proof.
  unfold purchasable. induction cartItems as [|c rest IH]; simpl.
  - split; [constructor | reflexivity].
  - destruct (Product.is_active (CartItemWithProduct.product c)) eqn:Ea; simpl.
    + destruct (Z.ltb_spec (Product.stock_quantity (CartItemWithProduct.product c))
                           (CartItemWithProduct.quantity c)) as [L|L].
      * split; [discriminate|]. intros H. inversion H; subst. lia.
      * rewrite IH. split.
        -- intros H. constructor; [split; [exact Ea | exact L] | exact H].
        -- intros H. now inversion H.
    + split; [discriminate|]. intros H. inversion H; subst.
      destruct H2 as [H2 _]. rewrite Ea in H2. discriminate.
Qed.

Lemma validate_cart_Some cartItems e :
  validate_cart cartItems = Some e ->
  exists accepted refused rest,
    cartItems = (accepted ++ refused :: rest)%list /\
    Forall purchasable accepted /\
    ~ purchasable refused /\
    e = refusal_of refused.
Proof.
  unfold purchasable, refusal_of.
  induction cartItems as [|c l IH]; simpl; [discriminate|].
  destruct (Product.is_active (CartItemWithProduct.product c)) eqn:Ea; simpl.
  - destruct (Z.ltb_spec (Product.stock_quantity (CartItemWithProduct.product c))
                         (CartItemWithProduct.quantity c)) as [L|L].
    + intros H. inversion H; subst.
      exists [], c, l. split; [reflexivity|]. split; [constructor|].
      split; [intros [_ Hq]; lia|]. now rewrite Ea.
    + intros H. destruct (IH H) as (acc & bad & rest & -> & Hacc & Hbad & He).
      exists (c :: acc), bad, rest. split; [reflexivity|].
      split; [constructor; [split; assumption | exact Hacc]|].
      split; assumption.
  - intros H. inversion H; subst.
    exists [], c, l. split; [reflexivity|]. split; [constructor|].
    split; [intros [Hact _]; rewrite Ea in Hact; discriminate|].
    now rewrite Ea.
Qed.

(** X15. createOrder checks the lines of the cart in the order
    getCartItems gives them, and the first line whose product is inactive
    or whose quantity exceeds the stock ends the checkout with the
    failure of that line (inactive before out-of-stock); nothing has been
    written then. *)
Theorem createOrder_refuses_an_unavailable_line :
  forall w userId shippingAddress orderNote e,
    truthy (session w) = Some userId ->
    no_fault 0 w ->
    validate_cart (cart_view userId (db w)) = Some e ->
    completion (createOrder shippingAddress orderNote w)
    = Normal (CreateOrderExit_result e) /\
    co_success (CreateOrderExit_result e) = false /\
    untouched w (world_after (createOrder shippingAddress orderNote w)) /\
    exists accepted refused rest,
      cart_view userId (db w) = (accepted ++ refused :: rest)%list /\
      Forall purchasable accepted /\
      ~ purchasable refused /\
      e = refusal_of refused.
Proof.
  intros w userId shippingAddress orderNote e Hs H0 Hval.
  assert (Hx : createOrder_exit shippingAddress orderNote w
               = (Normal e, tick op_select t_cart_items w)).
  { unfold createOrder_exit, try_catch, bind, auth. rewrite Hs. simpl.
    rewrite (getCartItems_found w userId Hs H0).
    destruct (cart_view userId (db w)) as [|c l]; [discriminate Hval|].
    cbn [List.length Nat.eqb]. now rewrite Hval. }
  destruct (validate_cart_Some _ _ Hval) as (acc & bad & rest & Hview & Hacc & Hbad & He).
  unfold createOrder, fmap, bind, completion, world_after.
  rewrite Hx. simpl.
  split; [reflexivity|].
  split; [subst e; unfold refusal_of; now destruct (negb _)|].
  split.
  - unfold untouched. repeat (split; [reflexivity|]).
    exists [(op_select, t_cart_items)]. split; reflexivity.
  - exists acc, bad, rest. repeat split; assumption.
Qed.

Lemma createOrder_refuses_an_unavailable_line_witness :
  completion (createOrder sample_address None
                (world_of (store_with_cart [cart_line "c1" P2_id 1 3;
                                            cart_line "c2" P1_id 9 2])
                          [] gateway_approves))
  = Normal (CreateOrderExit_result (CO_out_of_stock "P1" 9 5)).
Proof.
  apply (createOrder_refuses_an_unavailable_line
           (world_of (store_with_cart [cart_line "c1" P2_id 1 3;
                                       cart_line "c2" P1_id 9 2])
                     [] gateway_approves)
           buyer sample_address None (CO_out_of_stock "P1" 9 5));
    reflexivity.
Defined.

(** X16. In any world createOrder ends in one of three ways. It returns
    success: then every line of the cart was purchasable, the order
    header with the total of the cart and one line per cart line are in
    the store, and the id returned is the id of that header. Or it
    returns the order-lines failure: then the header is in the store
    without lines and the cart is as it was. Or it returns any other
    failure: then the tables are as they were. Order lines are never
    written without their header. *)
Theorem createOrder_outcomes :
  forall w shippingAddress orderNote,
    exists e,
      completion (createOrder_exit shippingAddress orderNote w) = Normal e /\
      completion (createOrder shippingAddress orderNote w)
      = Normal (CreateOrderExit_result e) /\
      match e with
      | CO_created orderId =>
          exists userId,
            truthy (session w) = Some userId /\
            cart_view userId (db w) <> [] /\
            Forall purchasable (cart_view userId (db w)) /\
            orderId = uuid_gen w (uuid_ctr w) /\
            orders (db (world_after (createOrder shippingAddress orderNote w)))
            = (orders (db w)
               ++ [new_order orderId (clock w) userId
                     (cart_total (cart_view userId (db w)))
                     shippingAddress (truthy orderNote)])%list /\
            order_items (db (world_after (createOrder shippingAddress orderNote w)))
            = (order_items (db w)
               ++ stamp_order_items (uuid_gen w) (S (uuid_ctr w)) (clock w)
                    (orderItems_of orderId (cart_view userId (db w))))%list
      | CO_order_items_insert_failed =>
          exists userId,
            truthy (session w) = Some userId /\
            orders (db (world_after (createOrder shippingAddress orderNote w)))
            = (orders (db w)
               ++ [new_order (uuid_gen w (uuid_ctr w)) (clock w) userId
                     (cart_total (cart_view userId (db w)))
                     shippingAddress (truthy orderNote)])%list /\
            order_items (db (world_after (createOrder shippingAddress orderNote w)))
            = order_items (db w) /\
            cart_items (db (world_after (createOrder shippingAddress orderNote w)))
            = cart_items (db w)
      | _ => db (world_after (createOrder shippingAddress orderNote w)) = db w
      end.
Proof.
  intros w shippingAddress orderNote.
  assert (Hwrap : forall e w',
             createOrder_exit shippingAddress orderNote w = (Normal e, w') ->
             completion (createOrder_exit shippingAddress orderNote w) = Normal e /\
             completion (createOrder shippingAddress orderNote w)
             = Normal (CreateOrderExit_result e) /\
             world_after (createOrder shippingAddress orderNote w) = w').
  { intros e w' Hx. unfold createOrder, fmap, bind, completion, world_after.
    rewrite Hx. repeat split. }
  destruct (truthy (session w)) as [userId|] eqn:Hs.
  2:{ assert (Hx : createOrder_exit shippingAddress orderNote w
                   = (Normal CO_unauthenticated, w)).
      { unfold createOrder_exit, try_catch, bind, auth. now rewrite Hs. }
      destruct (Hwrap _ _ Hx) as (H1 & H2 & H3).
      exists CO_unauthenticated. rewrite H3. repeat split; assumption. }
  destruct (nth 0 (store_faults w) None) as [e0|] eqn:E0.
  { assert (Hx : createOrder_exit shippingAddress orderNote w
                 = (Normal CO_empty_cart, tick op_select t_cart_items w)).
    { unfold createOrder_exit, try_catch, bind, auth. rewrite Hs. simpl.
      now rewrite (getCartItems_fault w userId e0 Hs E0). }
    destruct (Hwrap _ _ Hx) as (H1 & H2 & H3).
    exists CO_empty_cart. rewrite H3. repeat split; assumption. }
  destruct (cart_view userId (db w)) as [|c l] eqn:Hview.
  { assert (Hx : createOrder_exit shippingAddress orderNote w
                 = (Normal CO_empty_cart, tick op_select t_cart_items w)).
    { unfold createOrder_exit, try_catch, bind, auth. rewrite Hs. simpl.
      rewrite (getCartItems_found w userId Hs E0). now rewrite Hview. }
    destruct (Hwrap _ _ Hx) as (H1 & H2 & H3).
    exists CO_empty_cart. rewrite H3. repeat split; assumption. }
  destruct (validate_cart (c :: l)) as [bad|] eqn:Hval.
  { assert (Hx : createOrder_exit shippingAddress orderNote w
                 = (Normal bad, tick op_select t_cart_items w)).
    { unfold createOrder_exit, try_catch, bind, auth. rewrite Hs. simpl.
      rewrite (getCartItems_found w userId Hs E0). rewrite Hview.
      cbn [List.length Nat.eqb]. now rewrite Hval. }
    destruct (Hwrap _ _ Hx) as (H1 & H2 & H3).
    exists bad. rewrite H3. split; [exact H1|]. split; [exact H2|].
    destruct (validate_cart_Some _ _ Hval) as (_ & refused & _ & _ & _ & _ & ->).
    unfold refusal_of. destruct (negb _); reflexivity. }
  assert (Hne : cart_view userId (db w) <> []) by (rewrite Hview; discriminate).
  assert (Hval' : validate_cart (cart_view userId (db w)) = None)
    by (rewrite Hview; exact Hval).
  pose proof (createOrder_exit_steps w userId shippingAddress orderNote
                Hs E0 Hne Hval') as Hsteps.
  cbv zeta in Hsteps. rewrite Hview in Hsteps.
  destruct (nth 1 (store_faults w) None).
  { destruct (Hwrap _ _ Hsteps) as (H1 & H2 & H3).
    eexists. rewrite H3. split; [exact H1|]. split; [exact H2|]. reflexivity. }
  destruct (nth 2 (store_faults w) None).
  { destruct (Hwrap _ _ Hsteps) as (H1 & H2 & H3).
    eexists. rewrite H3. split; [exact H1|]. split; [exact H2|].
    exists userId. rewrite Hview. repeat split. }
  apply validate_cart_None in Hval.
  destruct (nth 3 (store_faults w) None);
    destruct (Hwrap _ _ Hsteps) as (H1 & H2 & H3);
    (eexists; rewrite H3; split; [exact H1|]; split; [exact H2|]);
    exists userId; rewrite Hview;
    (split; [reflexivity|]); (split; [discriminate|]);
    (split; [exact Hval|]); repeat split.
Qed.

Lemma filter_filter_neg {A : Type} (p : A -> bool) (l : list A) :
  filter p (filter (fun a => negb (p a)) l) = [].
Proof.
  apply filter_none. intros a Ha. apply filter_In in Ha.
  destruct Ha as [_ Ha]. now destruct (p a).
Qed.

Lemma String_eqb_sym (a b : string) : String.eqb a b = String.eqb b a.
Proof.
  destruct (String.eqb_spec a b) as [->|Hne].
  - now rewrite String.eqb_refl.
  - symmetry. apply String.eqb_neq. congruence.
Qed.

(** X17. A checkout that runs through empties the cart of the buyer and
    of nobody else: afterwards the buyer has no cart line, and every
    other user has the lines they had. *)
Theorem createOrder_clears_only_the_buyers_cart :
  forall w userId shippingAddress orderNote,
    truthy (session w) = Some userId ->
    cart_view userId (db w) <> [] ->
    validate_cart (cart_view userId (db w)) = None ->
    no_fault 0 w -> no_fault 1 w -> no_fault 2 w -> no_fault 3 w ->
    completion (createOrder_exit shippingAddress orderNote w)
    = Normal (CO_created (uuid_gen w (uuid_ctr w))) /\
    cart_of userId (db (world_after (createOrder shippingAddress orderNote w))) = [] /\
    forall other,
      other <> userId ->
      cart_of other (db (world_after (createOrder shippingAddress orderNote w)))
      = cart_of other (db w).
Proof.
  intros w userId shippingAddress orderNote Hs Hne Hval H0 H1 H2 H3.
  unfold createOrder, fmap, bind, completion, world_after, cart_of.
  rewrite (createOrder_exit_steps w userId shippingAddress orderNote Hs H0 Hne Hval).
  cbv zeta. unfold no_fault in H1, H2, H3. rewrite H1, H2, H3. simpl.
  split; [reflexivity|]. split.
  - apply (filter_filter_neg (fun c => String.eqb (CartItem.clerk_id c) userId)).
  - intros other Hother.
    induction (cart_items (db w)) as [|c l IH]; simpl; [reflexivity|].
    destruct (String.eqb_spec (CartItem.clerk_id c) userId) as [Hc|Hc]; simpl.
    + rewrite IH.
      replace (String.eqb (CartItem.clerk_id c) other) with false; [reflexivity|].
      symmetry. apply String.eqb_neq. congruence.
    + now rewrite IH.
Qed.

Lemma createOrder_clears_only_the_buyers_cart_witness :
  cart_of buyer
    (db (world_after
           (createOrder sample_address None
              (world_of (store_with_cart
                           (scenario_cart
                            ++ [{| CartItem.id := "c9"; CartItem.clerk_id := other_buyer;
                                   CartItem.product_id := P1_id; CartItem.quantity := 1;
                                   CartItem.created_at := 4; CartItem.updated_at := 4 |}]))
                        [] gateway_approves))))
  = [].
Proof.
  apply (createOrder_clears_only_the_buyers_cart
           (world_of (store_with_cart
                        (scenario_cart
                         ++ [{| CartItem.id := "c9"; CartItem.clerk_id := other_buyer;
                                CartItem.product_id := P1_id; CartItem.quantity := 1;
                                CartItem.created_at := 4; CartItem.updated_at := 4 |}]))
                     [] gateway_approves)
           buyer sample_address None);
    try reflexivity.
  vm_compute. discriminate.
Defined.

(** ** addToCart: a new line, and adding again and again *)

(** What addToCart does for a buyer who has no line for the product. *)
Lemma addToCart_exit_new w productId quantity userId product :
  truthy (session w) = Some userId ->
  1 <= quantity ->
  uuidRegex_test productId = true ->
  filter (is_active_product productId) (products (db w)) = [product] ->
  filter (is_cart_line_of userId productId) (cart_items (db w)) = [] ->
  no_fault 0 w -> no_fault 1 w ->
  addToCart_exit productId quantity w =
    let w1 := tick op_select t_products w in
    let w2 := tick op_select t_cart_items w1 in
    if Product.stock_quantity product <? quantity
    then (Normal (ATC_out_of_stock (Product.stock_quantity product)), w1)
    else
      match nth 2 (store_faults w) None with
      | Some _ => (Normal ATC_insert_failed, tick op_insert t_cart_items w2)
      | None =>
          (Normal ATC_inserted,
           set_db (set_cart_items
                     (cart_items (db w)
                      ++ [new_cart_line w userId productId quantity]) (db w))
                  (set_uuid_ctr (S (uuid_ctr w)) (tick op_insert t_cart_items w2)))
      end.
Proof.
  intros Hs Hq Hu Hp Hc H0 H1.
  unfold addToCart_exit, try_catch, bind, auth.
  rewrite Hs. simpl.
  replace (quantity =? 0) with false by (symmetry; apply Z.eqb_neq; lia).
  replace (quantity <? 1) with false by (symmetry; apply Z.ltb_ge; lia).
  simpl.
  rewrite (getProductById_found w productId product Hu Hp H0).
  destruct (Product.stock_quantity product <? quantity); [reflexivity|].
  rewrite store_call_no_fault by (apply no_fault_tick; assumption).
  unfold bind, read_db, ret. simpl.
  rewrite Hc. simpl.
  unfold insert_cart_item, store_call.
  rewrite hd_faults, !nth_faults_tick.
  destruct (nth 2 (store_faults w) None); reflexivity.
Qed.

(** X18. For a buyer who has no line for the product, addToCart creates
    one line, of the buyer, for that product, at the requested quantity,
    when the stock covers the quantity; looking the line up afterwards
    finds exactly it. When the quantity exceeds the stock it returns the
    insufficient-stock failure and no line is created. *)
Theorem addToCart_new_line :
  forall w productId quantity userId product,
    truthy (session w) = Some userId ->
    1 <= quantity ->
    uuidRegex_test productId = true ->
    filter (is_active_product productId) (products (db w)) = [product] ->
    filter (is_cart_line_of userId productId) (cart_items (db w)) = [] ->
    no_fault 0 w -> no_fault 1 w -> no_fault 2 w ->
    (quantity <= Product.stock_quantity product ->
     completion (addToCart productId quantity w)
     = Normal {| success := true; message := "장바구니에 추가되었습니다." |} /\
     cart_items (db (world_after (addToCart productId quantity w)))
     = (cart_items (db w) ++ [new_cart_line w userId productId quantity])%list /\
     filter (is_cart_line_of userId productId)
            (cart_items (db (world_after (addToCart productId quantity w))))
     = [new_cart_line w userId productId quantity] /\
     quantity_in_cart userId productId
       (db (world_after (addToCart productId quantity w))) = quantity) /\
    (Product.stock_quantity product < quantity ->
     completion (addToCart_exit productId quantity w)
     = Normal (ATC_out_of_stock (Product.stock_quantity product)) /\
     db (world_after (addToCart productId quantity w)) = db w).
Proof.
  intros w productId quantity userId product Hs Hq Hu Hp Hc H0 H1 H2.
  unfold addToCart, fmap, bind, completion, world_after, quantity_in_cart.
  rewrite (addToCart_exit_new w productId quantity userId product Hs Hq Hu Hp Hc H0 H1).
  cbv zeta. unfold no_fault in H2. rewrite H2.
  split.
  - intros Hle.
    replace (Product.stock_quantity product <? quantity) with false
      by (symmetry; apply Z.ltb_ge; lia).
    simpl. split; [reflexivity|]. split; [reflexivity|].
    rewrite filter_app, Hc. simpl.
    unfold is_cart_line_of. simpl. rewrite !String.eqb_refl. simpl.
    split; reflexivity.
  - intros Hlt.
    replace (Product.stock_quantity product <? quantity) with true
      by (symmetry; apply Z.ltb_lt; lia).
    simpl. split; reflexivity.
Qed.

Lemma addToCart_new_line_witness :
  quantity_in_cart buyer P1_id
    (db (world_after
           (addToCart P1_id 3
              (world_of (store_with_cart []) [] gateway_approves))))
  = 3.
Proof.
  destruct (addToCart_new_line
              (world_of (store_with_cart []) [] gateway_approves)
              P1_id 3 buyer P1 eq_refl ltac:(lia) eq_refl eq_refl eq_refl
              eq_refl eq_refl eq_refl)
    as (Hok & _).
  destruct Hok as (_ & _ & _ & Hq); [simpl; lia | exact Hq].
Defined.









(** ** updateCartItemQuantity, removeCartItem and removeCartItems *)

(** What updateCartItemQuantity does for a line of the caller. *)
Lemma updateCartItemQuantity_exit_found w cartItemId quantity userId line :
  truthy (session w) = Some userId ->
  1 <= quantity ->
  filter (is_cart_item_of cartItemId userId) (cart_items (db w)) = [line] ->
  no_fault 0 w ->
  updateCartItemQuantity_exit cartItemId quantity w =
    let w1 := tick op_select t_cart_items w in
    match find (fun p => String.eqb (Product.id p) (CartItem.product_id line))
               (products (db w)) with
    | None => (Normal UCQ_product_unavailable, w1)
    | Some product =>
        if negb (Product.is_active product)
        then (Normal UCQ_product_unavailable, w1)
        else if Product.stock_quantity product <? quantity
        then (Normal (UCQ_out_of_stock (Product.stock_quantity product)), w1)
        else
          match nth 1 (store_faults w) None with
          | Some _ => (Normal UCQ_update_failed, tick op_update t_cart_items w1)
          | None =>
              (Normal UCQ_updated,
               set_db (set_cart_items
                         (map (fun c => if is_cart_item_of cartItemId userId c
                                        then cart_set_quantity quantity c else c)
                              (cart_items (db w))) (db w))
                      (tick op_update t_cart_items w1))
          end
    end.
Proof.
  intros Hs Hq Hf H0.
  unfold updateCartItemQuantity_exit, try_catch, bind, auth.
  rewrite Hs. simpl.
  replace (quantity =? 0) with false by (symmetry; apply Z.eqb_neq; lia).
  replace (quantity <? 1) with false by (symmetry; apply Z.ltb_ge; lia).
  simpl.
  unfold select_cart_item_with_product.
  rewrite store_call_no_fault by assumption.
  unfold bind, read_db, ret. simpl. rewrite Hf. simpl.
  destruct (find _ (products (db w))) as [product|]; [|reflexivity].
  destruct (negb (Product.is_active product)); [reflexivity|].
  destruct (Product.stock_quantity product <? quantity); [reflexivity|].
  unfold update_cart_quantity_of, store_call.
  rewrite hd_faults, nth_faults_tick.
  destruct (nth 1 (store_faults w) None); reflexivity.
Qed.

(** X20. For a line of the caller, updateCartItemQuantity succeeds only
    when the product of the line exists, is active and has at least the
    requested quantity in stock; the quantity of the stored line is then
    the requested one (it is replaced, not added to) and the other
    columns of the line are as they were. A product that is missing or
    inactive gives the not-on-sale failure, a stock below the request the
    insufficient-stock failure, and every failure leaves the tables as
    they were. *)
Theorem updateCartItemQuantity_for_own_line :
  forall w cartItemId quantity userId line,
    truthy (session w) = Some userId ->
    1 <= quantity ->
    filter (is_cart_item_of cartItemId userId) (cart_items (db w)) = [line] ->
    no_fault 0 w ->
    exists e,
      completion (updateCartItemQuantity_exit cartItemId quantity w) = Normal e /\
      completion (updateCartItemQuantity cartItemId quantity w)
      = Normal (UpdateCartItemQuantityExit_result e) /\
      (success (UpdateCartItemQuantityExit_result e) = true ->
       exists product,
         find (fun p => String.eqb (Product.id p) (CartItem.product_id line))
              (products (db w)) = Some product /\
         Product.is_active product = true /\
         quantity <= Product.stock_quantity product) /\
      (success (UpdateCartItemQuantityExit_result e) = true ->
       exists stored,
         filter (is_cart_item_of cartItemId userId)
                (cart_items
                   (db (world_after (updateCartItemQuantity cartItemId quantity w))))
         = [stored] /\
         CartItem.quantity stored = quantity /\
         CartItem.id stored = CartItem.id line /\
         CartItem.clerk_id stored = CartItem.clerk_id line /\
         CartItem.product_id stored = CartItem.product_id line /\
         CartItem.created_at stored = CartItem.created_at line) /\
      (success (UpdateCartItemQuantityExit_result e) = false ->
       db (world_after (updateCartItemQuantity cartItemId quantity w)) = db w) /\
      (forall product,
          find (fun p => String.eqb (Product.id p) (CartItem.product_id line))
               (products (db w)) = Some product ->
          (Product.is_active product = false -> e = UCQ_product_unavailable) /\
          (Product.is_active product = true ->
           Product.stock_quantity product < quantity ->
           e = UCQ_out_of_stock (Product.stock_quantity product)) /\
          (Product.is_active product = true ->
           quantity <= Product.stock_quantity product ->
           no_fault 1 w ->
           e = UCQ_updated)) /\
      (find (fun p => String.eqb (Product.id p) (CartItem.product_id line))
            (products (db w)) = None ->
       e = UCQ_product_unavailable).
Proof.
  intros w cartItemId quantity userId line Hs Hq Hf H0.
  unfold updateCartItemQuantity, fmap, bind, completion, world_after.
  rewrite (updateCartItemQuantity_exit_found w cartItemId quantity userId line
             Hs Hq Hf H0).
  cbv zeta.
  destruct (find _ (products (db w))) as [product|] eqn:Hfind.
  2:{ simpl. eexists. split; [reflexivity|]. split; [reflexivity|]. simpl.
      split; [discriminate|]. split; [discriminate|]. split; [reflexivity|].
      split; [intros p Hp; discriminate Hp | reflexivity]. }
  destruct (Product.is_active product) eqn:Ea; simpl.
  2:{ eexists. split; [reflexivity|]. split; [reflexivity|]. simpl.
      split; [discriminate|]. split; [discriminate|]. split; [reflexivity|].
      split; [|discriminate].
      intros p Hp. inversion Hp; subst p. rewrite Ea.
      split; [reflexivity|]. split; discriminate. }
  destruct (Z.ltb_spec (Product.stock_quantity product) quantity) as [L|L]; simpl.
  { eexists. split; [reflexivity|]. split; [reflexivity|]. simpl.
    split; [discriminate|]. split; [discriminate|]. split; [reflexivity|].
    split; [|discriminate].
    intros p Hp. inversion Hp; subst p. rewrite Ea.
    split; [discriminate|]. split; [reflexivity|]. intros; lia. }
  destruct (nth 1 (store_faults w) None) eqn:E1; simpl;
    (eexists; split; [reflexivity|]; split; [reflexivity|]); simpl.
  - split; [discriminate|]. split; [discriminate|]. split; [reflexivity|].
    split; [|discriminate].
    intros p Hp. inversion Hp; subst p. rewrite Ea.
    split; [discriminate|]. split; [intros; lia|].
    unfold no_fault. rewrite E1. intros; discriminate.
  - split; [intros _; exists product; repeat split; assumption|].
    split.
    + intros _. exists (cart_set_quantity quantity line).
      split; [|repeat split].
      rewrite filter_update by reflexivity. now rewrite Hf.
    + split; [discriminate|]. split; [|discriminate].
      intros p Hp. inversion Hp; subst p. rewrite Ea.
      split; [discriminate|]. split; [intros; lia | reflexivity].
Qed.

Lemma updateCartItemQuantity_for_own_line_witness :
  exists e stored,
    completion (updateCartItemQuantity_exit "c1" 4
                  (world_of (store_with_cart scenario_cart) [] gateway_approves))
    = Normal e /\
    e = UCQ_updated /\
    filter (is_cart_item_of "c1" buyer)
           (cart_items
              (db (world_after
                     (updateCartItemQuantity "c1" 4
                        (world_of (store_with_cart scenario_cart) []
                                  gateway_approves)))))
    = [stored] /\
    CartItem.quantity stored = 4.
Proof.
  destruct (updateCartItemQuantity_for_own_line
              (world_of (store_with_cart scenario_cart) [] gateway_approves)
              "c1" 4 buyer (cart_line "c1" P1_id 2 2)
              eq_refl ltac:(lia) eq_refl eq_refl)
    as (e & He & _ & _ & Hstored & _ & Hprod & _).
  destruct (Hprod P1 eq_refl) as (_ & _ & Hok).
  assert (Hupdated : e = UCQ_updated)
    by (apply Hok; [reflexivity | simpl; lia | reflexivity]).
  destruct Hstored as (stored & Hline & Hquantity & _);
    [rewrite Hupdated; reflexivity|].
  exists e, stored. repeat split; assumption.
Defined.

(** X21. updateCartItemQuantity on a line that is not the caller's (no
    line with that id, or a line of another user) returns the not-found
    failure, the same in both cases, and changes nothing. *)
Theorem updateCartItemQuantity_not_own_line :
  forall w cartItemId quantity userId,
    truthy (session w) = Some userId ->
    1 <= quantity ->
    filter (is_cart_item_of cartItemId userId) (cart_items (db w)) = [] ->
    completion (updateCartItemQuantity cartItemId quantity w)
    = Normal {| success := false; message := "장바구니 아이템을 찾을 수 없습니다." |} /\
    untouched w (world_after (updateCartItemQuantity cartItemId quantity w)).
Proof.
  intros w cartItemId quantity userId Hs Hq Hf.
  assert (Hx : updateCartItemQuantity_exit cartItemId quantity w
               = (Normal UCQ_not_found, tick op_select t_cart_items w)).
  { unfold updateCartItemQuantity_exit, try_catch, bind, auth.
    rewrite Hs. simpl.
    replace (quantity =? 0) with false by (symmetry; apply Z.eqb_neq; lia).
    replace (quantity <? 1) with false by (symmetry; apply Z.ltb_ge; lia).
    simpl.
    unfold select_cart_item_with_product, store_call.
    destruct (hd None (store_faults w)); [reflexivity|].
    unfold bind, read_db, ret. simpl. rewrite Hf. reflexivity. }
  unfold updateCartItemQuantity, fmap, bind, completion, world_after.
  rewrite Hx. simpl. split; [reflexivity|].
  unfold untouched. repeat (split; [reflexivity|]).
  exists [(op_select, t_cart_items)]. split; reflexivity.
Qed.

Lemma updateCartItemQuantity_not_own_line_witness :
  completion (updateCartItemQuantity "c1" 1
                (signed_in_as (Some other_buyer)
                   (world_of (store_with_cart scenario_cart) [] gateway_approves)))
  = Normal {| success := false; message := "장바구니 아이템을 찾을 수 없습니다." |}.
Proof.
  apply (updateCartItemQuantity_not_own_line
           (signed_in_as (Some other_buyer)
              (world_of (store_with_cart scenario_cart) [] gateway_approves))
           "c1" 1 other_buyer);
    [reflexivity | lia | reflexivity].
Defined.

Lemma removeCartItem_exit_run w cartItemId userId :
  truthy (session w) = Some userId ->
  removeCartItem_exit cartItemId w =
    match nth 0 (store_faults w) None with
    | Some _ => (Normal RCI_delete_failed, tick op_delete t_cart_items w)
    | None =>
        (Normal RCI_removed,
         set_db (set_cart_items
                   (filter (fun c => negb (is_cart_item_of cartItemId userId c))
                           (cart_items (db w))) (db w))
                (tick op_delete t_cart_items w))
    end.
Proof.
  intros Hs.
  unfold removeCartItem_exit, try_catch, bind, auth. rewrite Hs. simpl.
  unfold delete_cart_items, store_call. rewrite hd_faults.
  destruct (nth 0 (store_faults w) None); reflexivity.
Qed.

(** X22. removeCartItem deletes the caller's line with the given id and
    no other: afterwards no line of the caller has that id, and every
    line of another user, and every line with another id, is still
    there. It succeeds also when the caller has no such line, and then
    the cart is unchanged: removing is idempotent. When the store answers
    the delete with an error it returns the delete failure and the cart is
    unchanged. *)
Theorem removeCartItem_removes_own_line_only :
  forall w cartItemId userId,
    truthy (session w) = Some userId ->
    (no_fault 0 w ->
     completion (removeCartItem cartItemId w)
     = Normal {| success := true; message := "장바구니에서 삭제되었습니다." |} /\
     filter (is_cart_item_of cartItemId userId)
            (cart_items (db (world_after (removeCartItem cartItemId w)))) = [] /\
     (forall c, In c (cart_items (db (world_after (removeCartItem cartItemId w))))
                <-> In c (cart_items (db w))
                    /\ (CartItem.id c <> cartItemId \/ CartItem.clerk_id c <> userId)) /\
     (filter (is_cart_item_of cartItemId userId) (cart_items (db w)) = [] ->
      cart_items (db (world_after (removeCartItem cartItemId w)))
      = cart_items (db w))) /\
    (fault_at 0 w ->
     completion (removeCartItem cartItemId w)
     = Normal {| success := false;
                 message := "장바구니에서 삭제하는 중 오류가 발생했습니다." |} /\
     db (world_after (removeCartItem cartItemId w)) = db w).
Proof.
  intros w cartItemId userId Hs.
  unfold removeCartItem, fmap, bind, completion, world_after.
  rewrite (removeCartItem_exit_run w cartItemId userId Hs).
  split.
  - intros H0. unfold no_fault in H0. rewrite H0. simpl.
    split; [reflexivity|].
    split; [apply filter_filter_neg|].
    split.
    + intros c. rewrite filter_In. unfold is_cart_item_of.
      split; intros [Hin Hc]; (split; [exact Hin|]).
      * destruct (String.eqb_spec (CartItem.id c) cartItemId) as [E1|E1];
          [|now left].
        destruct (String.eqb_spec (CartItem.clerk_id c) userId) as [E2|E2];
          [discriminate Hc | now right].
      * destruct Hc as [Hc|Hc]; apply String.eqb_neq in Hc; rewrite Hc;
          [reflexivity | now rewrite andb_false_r].
    + intros Hnone. apply filter_all. intros c Hc.
      destruct (is_cart_item_of cartItemId userId c) eqn:E; [|reflexivity].
      assert (Hin : In c (filter (is_cart_item_of cartItemId userId)
                                 (cart_items (db w))))
        by (apply filter_In; now split).
      rewrite Hnone in Hin. contradiction.
  - intros [e He]. rewrite He. simpl. split; reflexivity.
Qed.

Lemma removeCartItem_removes_own_line_only_witness :
  completion (removeCartItem "c1"
                (world_of (store_with_cart scenario_cart) [] gateway_approves))
  = Normal {| success := true; message := "장바구니에서 삭제되었습니다." |}.
Proof.
  destruct (removeCartItem_removes_own_line_only
              (world_of (store_with_cart scenario_cart) [] gateway_approves)
              "c1" buyer eq_refl)
    as (Hok & _).
  apply Hok. reflexivity.
Defined.

Lemma removeCartItems_exit_run w cartItemIds userId :
  truthy (session w) = Some userId ->
  cartItemIds <> [] ->
  removeCartItems_exit cartItemIds w =
    match nth 0 (store_faults w) None with
    | Some _ => (Normal RCS_delete_failed, tick op_delete t_cart_items w)
    | None =>
        (Normal (RCS_removed (List.length cartItemIds)),
         set_db (set_cart_items
                   (filter (fun c => negb (is_cart_item_among cartItemIds userId c))
                           (cart_items (db w))) (db w))
                (tick op_delete t_cart_items w))
    end.
Proof.
  intros Hs Hne.
  unfold removeCartItems_exit, try_catch, bind, auth. rewrite Hs. simpl.
  destruct cartItemIds as [|i l]; [now contradiction Hne|].
  cbn [List.length Nat.eqb].
  unfold delete_cart_items, store_call. rewrite hd_faults.
  destruct (nth 0 (store_faults w) None); reflexivity.
Qed.

(** X23. removeCartItems with a list of ids that is not empty deletes
    exactly the caller's lines whose id is in the list: a line is in the
    cart afterwards exactly when it was there before and is another
    user's or has an id outside the list. The message counts the ids that
    were asked for, whether or not each of them named a line of the
    caller. With an empty list it returns the nothing-selected failure and
    makes no store call. *)
Theorem removeCartItems_removes_own_listed_lines :
  forall w cartItemIds userId,
    truthy (session w) = Some userId ->
    (cartItemIds = [] ->
     removeCartItems cartItemIds w
     = (Normal {| success := false; message := "삭제할 아이템을 선택해주세요." |}, w)) /\
    (cartItemIds <> [] ->
     no_fault 0 w ->
     completion (removeCartItems cartItemIds w)
     = Normal {| success := true;
                 message := show (Z.of_nat (List.length cartItemIds))
                            ++ "개의 아이템이 삭제되었습니다." |} /\
     forall c,
       In c (cart_items (db (world_after (removeCartItems cartItemIds w))))
       <-> In c (cart_items (db w))
           /\ (CartItem.clerk_id c <> userId \/ ~ In (CartItem.id c) cartItemIds)).
Proof.
  intros w cartItemIds userId Hs.
  split.
  - intros ->. unfold removeCartItems, removeCartItems_exit, fmap,
      try_catch, bind, auth. rewrite Hs. reflexivity.
  - intros Hne H0.
    unfold removeCartItems, fmap, bind, completion, world_after.
    rewrite (removeCartItems_exit_run w cartItemIds userId Hs Hne).
    unfold no_fault in H0. rewrite H0. simpl.
    split; [reflexivity|].
    intros c. rewrite filter_In. unfold is_cart_item_among.
    split; intros [Hin Hc]; (split; [exact Hin|]).
    + destruct (String.eqb_spec (CartItem.clerk_id c) userId) as [E1|E1];
        [|now left].
      right. intros Hid. simpl in Hc.
      assert (Hex : existsb (String.eqb (CartItem.id c)) cartItemIds = true).
      { apply existsb_exists. exists (CartItem.id c).
        split; [exact Hid | apply String.eqb_refl]. }
      rewrite Hex in Hc. discriminate.
    + destruct Hc as [Hc|Hc].
      * apply String.eqb_neq in Hc. now rewrite Hc.
      * destruct (existsb (String.eqb (CartItem.id c)) cartItemIds) eqn:Hex.
        -- apply existsb_exists in Hex. destruct Hex as (i & Hi & Heq).
           apply String.eqb_eq in Heq. subst i. contradiction.
        -- now rewrite andb_false_r.
Qed.

Lemma removeCartItems_removes_own_listed_lines_witness :
  completion (removeCartItems ["c1"; "no-such-line"]
                (world_of (store_with_cart scenario_cart) [] gateway_approves))
  = Normal {| success := true; message := "2개의 아이템이 삭제되었습니다." |}.
Proof.
  destruct (removeCartItems_removes_own_listed_lines
              (world_of (store_with_cart scenario_cart) [] gateway_approves)
              ["c1"; "no-such-line"] buyer eq_refl)
    as (_ & Hok).
  destruct Hok as (Hres & _); [discriminate | reflexivity | exact Hres].
Defined.

(** ** The lists the queries return *)

Section OrderBy.
Context {A : Type} (key : A -> Z).

Lemma insert_by_newest_first x l :
  newest_first key l ->
  newest_first key (insert_by (fun a b => key b <=? key a) x l).
Proof.
  unfold newest_first.
  induction l as [|y l IH]; simpl; intros Hs.
  - constructor; constructor.
  - inversion Hs as [|? ? Hl Hy]; subst.
    destruct (Z.leb_spec (key y) (key x)) as [L|L].
    + constructor; [exact Hs|]. constructor; [exact L|].
      eapply Forall_impl; [|exact Hy]. simpl. intros z Hz. lia.
    + constructor; [now apply IH|].
      eapply Permutation_Forall; [symmetry; apply insert_by_perm|].
      constructor; [lia | exact Hy].
Qed.

Lemma order_by_newest_first l :
  newest_first key (order_by (fun a b => key b <=? key a) l).
Proof.
  unfold order_by. induction l as [|x l IH]; simpl.
  - constructor.
  - now apply insert_by_newest_first.
Qed.

Lemma insert_by_oldest_first x l :
  oldest_first key l ->
  oldest_first key (insert_by (fun a b => key a <=? key b) x l).
Proof.
  unfold oldest_first.
  induction l as [|y l IH]; simpl; intros Hs.
  - constructor; constructor.
  - inversion Hs as [|? ? Hl Hy]; subst.
    destruct (Z.leb_spec (key x) (key y)) as [L|L].
    + constructor; [exact Hs|]. constructor; [exact L|].
      eapply Forall_impl; [|exact Hy]. simpl. intros z Hz. lia.
    + constructor; [now apply IH|].
      eapply Permutation_Forall; [symmetry; apply insert_by_perm|].
      constructor; [lia | exact Hy].
Qed.

Lemma order_by_oldest_first l :
  oldest_first key (order_by (fun a b => key a <=? key b) l).
Proof.
  unfold order_by. induction l as [|x l IH]; simpl.
  - constructor.
  - now apply insert_by_oldest_first.
Qed.
End OrderBy.

Lemma getOrders_found w userId status :
  truthy (session w) = Some userId ->
  getOrders status w =
    match nth 0 (store_faults w) None with
    | Some _ => (Normal [], tick op_select t_orders w)
    | None => (Normal (orders_query userId status (orders (db w))),
               tick op_select t_orders w)
    end.
Proof.
  intros Hs. unfold getOrders, try_catch, bind, auth. rewrite Hs. simpl.
  unfold store_call. rewrite hd_faults.
  destruct (nth 0 (store_faults w) None); reflexivity.
Qed.

(** X25. getOrders returns the caller's orders and no one else's, each
    exactly once, newest first, and only those in the given status when a
    status is given; when the store answers with an error it returns the
    empty list. *)
Theorem getOrders_lists_own_orders_newest_first :
  forall w userId status,
    truthy (session w) = Some userId ->
    (no_fault 0 w ->
     exists result,
       completion (getOrders status w) = Normal result /\
       newest_first Order.created_at result /\
       (forall o, In o result <-> In o (orders (db w)) /\ is_listed_order userId status o) /\
       Permutation result
         (filter (fun o => String.eqb (Order.clerk_id o) userId
                           && match status with
                              | Some st => OrderStatus_eqb (Order.status o) st
                              | None => true
                              end)
                 (orders (db w)))) /\
    (fault_at 0 w -> completion (getOrders status w) = Normal []).
Proof.
  intros w userId status Hs.
  unfold completion. rewrite (getOrders_found w userId status Hs).
  split.
  - intros H0. unfold no_fault in H0. rewrite H0. simpl.
    eexists. split; [reflexivity|].
    split; [apply order_by_newest_first|].
    split; [|apply order_by_perm].
    intros o. unfold orders_query, is_listed_order.
    split.
    + intros Hin. apply (Permutation_in _ (order_by_perm _ _)) in Hin.
      apply filter_In in Hin. destruct Hin as [Hin Hp].
      apply andb_prop in Hp. destruct Hp as [Hc Hst].
      apply String.eqb_eq in Hc. split; [exact Hin|]. split; [exact Hc|].
      destruct status; [now apply OrderStatus_eqb_eq | exact I].
    + intros (Hin & Hc & Hst).
      apply (Permutation_in _ (Permutation_sym (order_by_perm _ _))).
      apply filter_In. split; [exact Hin|].
      apply andb_true_intro. split; [now apply String.eqb_eq|].
      destruct status; [now apply OrderStatus_eqb_eq | reflexivity].
  - intros [e He]. rewrite He. reflexivity.
Qed.

Lemma with_products_In s rows item :
  In item (with_products
             (map (fun c => (c, find (fun p => String.eqb (Product.id p)
                                                (CartItem.product_id c))
                                     (products s))) rows))
  <-> exists c p, In c rows /\ product_of c s = Some p /\ item = priced_line c p.
Proof.
  unfold product_of. induction rows as [|c rows IH]; simpl.
  - split; [contradiction | intros (c & p & [] & _)].
  - destruct (find _ (products s)) as [p|] eqn:Hfind; simpl.
    + split.
      * intros [<-|Hin].
        -- exists c, p. split; [now left|]. split; [exact Hfind | reflexivity].
        -- apply IH in Hin. destruct Hin as (c' & p' & Hc' & Hp' & ->).
           exists c', p'. split; [now right|]. split; [exact Hp' | reflexivity].
      * intros (c' & p' & [<-|Hc'] & Hp' & ->).
        -- left. rewrite Hfind in Hp'. inversion Hp'. reflexivity.
        -- right. apply IH. now exists c', p'.
    + rewrite IH. split.
      * intros (c' & p' & Hc' & Hp' & ->). exists c', p'. split; [now right|]. now split.
      * intros (c' & p' & [<-|Hc'] & Hp' & ->).
        -- rewrite Hfind in Hp'. discriminate.
        -- now exists c', p'.
Qed.

Lemma with_products_newest_first s rows :
  newest_first CartItem.created_at rows ->
  newest_first CartItemWithProduct.created_at
    (with_products
       (map (fun c => (c, find (fun p => String.eqb (Product.id p)
                                          (CartItem.product_id c))
                               (products s))) rows)).
Proof.
  unfold newest_first. induction rows as [|c rows IH]; simpl; intros Hs.
  - constructor.
  - inversion Hs as [|? ? Hrest Hc]; subst.
    destruct (find _ (products s)) as [p|]; [|now apply IH].
    constructor; [now apply IH|].
    apply Forall_forall. intros item Hin.
    apply with_products_In in Hin. destruct Hin as (c' & p' & Hc' & _ & ->).
    simpl. rewrite Forall_forall in Hc. now apply Hc.
Qed.

Lemma with_products_length s rows :
  (List.length
     (with_products
        (map (fun c => (c, find (fun p => String.eqb (Product.id p)
                                           (CartItem.product_id c))
                                (products s))) rows))
   <= List.length rows)%nat.
Proof.
  induction rows as [|c rows IH]; simpl; [lia|].
  destruct (find _ (products s)); simpl; lia.
Qed.

(** X24. getCartItems returns, newest first, one item for each cart row
    of the caller whose product row exists, carrying that product row
    (active or not); rows of other users never appear, and rows whose
    product is gone are left out without an error. When the store answers
    with an error it returns the empty list. *)
Theorem getCartItems_lists_own_priced_lines :
  forall w userId,
    truthy (session w) = Some userId ->
    (no_fault 0 w ->
     exists items,
       completion (getCartItems w) = Normal items /\
       newest_first CartItemWithProduct.created_at items /\
       (forall item,
           In item items <->
           exists c p,
             In c (cart_items (db w)) /\ CartItem.clerk_id c = userId /\
             product_of c (db w) = Some p /\ item = priced_line c p) /\
       Forall (fun item =>
                 In (CartItemWithProduct.product item) (products (db w)) /\
                 Product.id (CartItemWithProduct.product item)
                 = CartItemWithProduct.product_id item) items) /\
    (fault_at 0 w -> completion (getCartItems w) = Normal []).
Proof.
  intros w userId Hs. unfold completion. split.
  - intros H0. rewrite (getCartItems_found w userId Hs H0). simpl.
    eexists. split; [reflexivity|].
    unfold cart_view at 1 2. unfold cart_rows.
    split; [apply with_products_newest_first, order_by_newest_first|].
    split; [|apply cart_view_products].
    intros item. rewrite with_products_In.
    split.
    + intros (c & p & Hc & Hp & Hitem). exists c, p.
      apply (Permutation_in _ (order_by_perm _ _)) in Hc.
      apply filter_In in Hc. destruct Hc as [Hin Hclerk].
      apply String.eqb_eq in Hclerk. repeat split; assumption.
    + intros (c & p & Hc & Hclerk & Hp & Hitem). exists c, p.
      split; [|now split].
      apply (Permutation_in _ (Permutation_sym (order_by_perm _ _))).
      apply filter_In. split; [exact Hc | now apply String.eqb_eq].
  - intros [e He]. now rewrite (getCartItems_fault w userId e Hs He).
Qed.

(** The loop of getCartTotal is two reduces side by side; the one of
    the subtotal is the reduce of createOrder. *)
Lemma cart_totals_from acc (cartItems : list CartItemWithProduct.t) :
  fold_left
    (fun acc item =>
       let itemTotal := js_mul (Product.price (CartItemWithProduct.product item))
                               (CartItemWithProduct.quantity item) in
       {| subtotal := js_add (subtotal acc) itemTotal;
          itemCount := js_add (itemCount acc) (CartItemWithProduct.quantity item) |})
    cartItems acc
  = {| subtotal :=
         fold_left
           (fun sum item =>
              js_add sum (js_mul (Product.price (CartItemWithProduct.product item))
                                 (CartItemWithProduct.quantity item)))
           cartItems (subtotal acc);
       itemCount :=
         fold_left (fun n item => js_add n (CartItemWithProduct.quantity item))
                   cartItems (itemCount acc) |}.
Proof.
  revert acc. induction cartItems as [|item rest IH]; intros acc; simpl.
  - now destruct acc.
  - now rewrite IH.
Qed.

Lemma cart_total_exact cartItems :
  cart_magnitude cartItems <= MAX_SAFE_INTEGER ->
  cart_total cartItems = cart_sum cartItems.
Proof.
  intros H. unfold cart_total.
  rewrite (js_reduce_exact
             (fun item => Product.price (CartItemWithProduct.product item))
             CartItemWithProduct.quantity) by exact H.
  reflexivity.
Qed.

Lemma cart_units_exact cartItems :
  units_magnitude cartItems <= MAX_SAFE_INTEGER ->
  fold_left (fun n item => js_add n (CartItemWithProduct.quantity item)) cartItems 0
  = fold_right Z.add 0 (map CartItemWithProduct.quantity cartItems).
Proof.
  intros H.
  rewrite (js_count_exact CartItemWithProduct.quantity) by exact H.
  simpl. induction cartItems as [|item rest IH]; simpl; [reflexivity|].
  f_equal. apply IH. unfold units_magnitude in *. simpl in H.
  pose proof (magnitude_nonneg CartItemWithProduct.quantity rest). lia.
Qed.

(** X26. As long as the magnitudes of the line amounts of the cart add
    up to at most Number.MAX_SAFE_INTEGER, the subtotal getCartTotal
    returns is the sum of price times quantity over the items
    getCartItems returns, and it is the total_amount of the order that
    createOrder creates from the same state of the store; as long as the
    magnitudes of the quantities do, itemCount is the sum of the
    quantities. *)
Theorem getCartTotal_is_the_checkout_total :
  forall w userId shippingAddress orderNote,
    truthy (session w) = Some userId ->
    no_fault 0 w ->
    exists total,
      completion (getCartTotal w) = Normal total /\
      (cart_magnitude (cart_view userId (db w)) <= MAX_SAFE_INTEGER ->
       subtotal total = cart_sum (cart_view userId (db w))) /\
      (units_magnitude (cart_view userId (db w)) <= MAX_SAFE_INTEGER ->
       itemCount total
       = fold_right Z.add 0
           (map CartItemWithProduct.quantity (cart_view userId (db w)))) /\
      (forall orderId,
          cart_magnitude (cart_view userId (db w)) <= MAX_SAFE_INTEGER ->
          completion (createOrder_exit shippingAddress orderNote w)
          = Normal (CO_created orderId) ->
          exists order,
            In order (orders (db (world_after
                                    (createOrder shippingAddress orderNote w)))) /\
            Order.id order = orderId /\
            Order.total_amount order = subtotal total).
Proof.
  intros w userId shippingAddress orderNote Hs H0.
  unfold getCartTotal, try_catch, bind, completion.
  rewrite (getCartItems_found w userId Hs H0). simpl.
  unfold cart_totals. rewrite cart_totals_from. simpl.
  eexists. split; [reflexivity|]. simpl.
  split; [intros Hrange; now apply cart_total_exact|].
  split; [intros Hrange; now apply cart_units_exact|].
  intros orderId _ Hcreated.
  destruct (cart_view userId (db w)) as [|c l] eqn:Hview.
  { exfalso. revert Hcreated.
    unfold createOrder_exit, try_catch, bind, auth. rewrite Hs. simpl.
    rewrite (getCartItems_found w userId Hs H0), Hview. simpl. discriminate. }
  destruct (validate_cart (c :: l)) as [bad|] eqn:Hval.
  { exfalso. revert Hcreated.
    unfold createOrder_exit, try_catch, bind, auth. rewrite Hs. simpl.
    rewrite (getCartItems_found w userId Hs H0), Hview.
    cbn [List.length Nat.eqb]. rewrite Hval. simpl.
    destruct (validate_cart_Some _ _ Hval) as (_ & refused & _ & _ & _ & _ & ->).
    unfold refusal_of. destruct (negb _); discriminate. }
  assert (Hne : cart_view userId (db w) <> []) by (rewrite Hview; discriminate).
  assert (Hval' : validate_cart (cart_view userId (db w)) = None)
    by (rewrite Hview; exact Hval).
  pose proof (createOrder_exit_steps w userId shippingAddress orderNote
                Hs H0 Hne Hval') as Hsteps.
  cbv zeta in Hsteps. rewrite Hview in Hsteps.
  unfold createOrder, fmap, bind, world_after.
  rewrite Hsteps in *.
  destruct (nth 1 (store_faults w) None); [discriminate Hcreated|].
  destruct (nth 2 (store_faults w) None); [discriminate Hcreated|].
  destruct (nth 3 (store_faults w) None); simpl in *;
    inversion Hcreated; subst orderId;
    (eexists; split; [apply in_or_app; right; left; reflexivity|]);
    split; reflexivity.
Qed.

Lemma with_products_length_all s rows :
  Forall (fun c => product_of c s <> None) rows ->
  List.length
    (with_products
       (map (fun c => (c, find (fun p => String.eqb (Product.id p)
                                          (CartItem.product_id c))
                               (products s))) rows))
  = List.length rows.
Proof.
  induction 1 as [|c rows Hc _ IH]; simpl; [reflexivity|].
  unfold product_of in Hc.
  destruct (find _ (products s)); [simpl; now rewrite IH | now contradiction Hc].
Qed.

Lemma getCartItemsCount_run w userId :
  truthy (session w) = Some userId ->
  completion (getCartItemsCount w)
  = Normal (match nth 0 (store_faults w) None with
            | Some _ => 0
            | None => Z.of_nat (List.length (cart_of userId (db w)))
            end).
Proof.
  intros Hs. unfold getCartItemsCount, try_catch, bind, auth, completion.
  rewrite Hs. simpl. unfold store_call. rewrite hd_faults.
  destruct (nth 0 (store_faults w) None); reflexivity.
Qed.

(** X27. getCartItemsCount counts the cart rows of the caller (rows, not
    units), so it is never less than the number of items getCartItems
    returns, and equal to it when the product of every row exists. *)
Theorem getCartItemsCount_counts_lines :
  forall w userId,
    truthy (session w) = Some userId ->
    no_fault 0 w ->
    exists count items,
      completion (getCartItemsCount w) = Normal count /\
      completion (getCartItems w) = Normal items /\
      count = Z.of_nat (List.length (cart_of userId (db w))) /\
      Z.of_nat (List.length items) <= count /\
      (Forall (fun c => product_of c (db w) <> None) (cart_of userId (db w)) ->
       Z.of_nat (List.length items) = count).
Proof.
  intros w userId Hs H0.
  rewrite (getCartItemsCount_run w userId Hs).
  unfold completion at 1. rewrite (getCartItems_found w userId Hs H0). simpl.
  unfold no_fault in H0. rewrite H0.
  eexists _, _. split; [reflexivity|]. split; [reflexivity|]. split; [reflexivity|].
  unfold cart_view, cart_rows.
  assert (Hlen : List.length
                   (order_by (fun a b => CartItem.created_at b <=? CartItem.created_at a)
                      (filter (fun c => String.eqb (CartItem.clerk_id c) userId)
                              (cart_items (db w))))
                 = List.length (cart_of userId (db w))).
  { apply Permutation_length, order_by_perm. }
  split.
  - pose proof (with_products_length (db w)
                  (order_by (fun a b => CartItem.created_at b <=? CartItem.created_at a)
                     (filter (fun c => String.eqb (CartItem.clerk_id c) userId)
                             (cart_items (db w))))) as Hle.
    lia.
  - intros Hall. rewrite <- Hlen. f_equal.
    assert (Hall' : Forall (fun c => product_of c (db w) <> None)
                      (order_by (fun a b => CartItem.created_at b <=? CartItem.created_at a)
                         (filter (fun c => String.eqb (CartItem.clerk_id c) userId)
                                 (cart_items (db w))))).
    { eapply Permutation_Forall; [symmetry; apply order_by_perm | exact Hall]. }
    now apply with_products_length_all.
Qed.

Lemma getOrders_lists_own_orders_newest_first_witness :
  exists result,
    completion (getOrders (Some pending)
                  (world_of (store_with_order buyer pending) [] gateway_approves))
    = Normal result /\
    newest_first Order.created_at result.
Proof.
  destruct (getOrders_lists_own_orders_newest_first
              (world_of (store_with_order buyer pending) [] gateway_approves)
              buyer (Some pending) eq_refl)
    as (Hok & _).
  destruct (Hok eq_refl) as (result & Hres & Hsorted & _).
  exists result. split; [exact Hres | exact Hsorted].
Defined.

Lemma getCartItems_lists_own_priced_lines_witness :
  exists items,
    completion (getCartItems
                  (world_of (store_with_cart scenario_cart) [] gateway_approves))
    = Normal items /\
    newest_first CartItemWithProduct.created_at items.
Proof.
  destruct (getCartItems_lists_own_priced_lines
              (world_of (store_with_cart scenario_cart) [] gateway_approves)
              buyer eq_refl)
    as (Hok & _).
  destruct (Hok eq_refl) as (items & Hres & Hsorted & _).
  exists items. split; [exact Hres | exact Hsorted].
Defined.

Lemma getCartTotal_is_the_checkout_total_witness :
  exists total order,
    completion (getCartTotal
                  (world_of (store_with_cart scenario_cart) [] gateway_approves))
    = Normal total /\
    subtotal total = cart_sum (cart_view buyer (store_with_cart scenario_cart)) /\
    itemCount total
    = fold_right Z.add 0
        (map CartItemWithProduct.quantity
             (cart_view buyer (store_with_cart scenario_cart))) /\
    In order
       (orders (db (world_after
                      (createOrder sample_address None
                         (world_of (store_with_cart scenario_cart) []
                                   gateway_approves))))) /\
    Order.total_amount order = subtotal total.
Proof.
  destruct (getCartTotal_is_the_checkout_total
              (world_of (store_with_cart scenario_cart) [] gateway_approves)
              buyer sample_address None eq_refl eq_refl)
    as (total & Hres & Hsub & Hcount & Horder).
  destruct (Horder (sample_uuid 0)) as (order & Hin & _ & Htotal);
    [vm_compute; discriminate | vm_compute; reflexivity |].
  exists total, order. split; [exact Hres|].
  split; [apply Hsub; vm_compute; discriminate|].
  split; [apply Hcount; vm_compute; discriminate|].
  split; [exact Hin | exact Htotal].
Defined.

Lemma getCartItemsCount_counts_lines_witness :
  exists count,
    completion (getCartItemsCount
                  (world_of (store_with_cart scenario_cart) [] gateway_approves))
    = Normal count /\
    count = Z.of_nat (List.length (cart_of buyer (store_with_cart scenario_cart))).
Proof.
  destruct (getCartItemsCount_counts_lines
              (world_of (store_with_cart scenario_cart) [] gateway_approves)
              buyer eq_refl eq_refl)
    as (count & items & Hres & _ & Hcount & _).
  exists count. split; [exact Hres | exact Hcount].
Defined.

(** The scenario cart totalled: 2500 won, 3 units. *)
Example getCartTotal_scenario :
  completion (getCartTotal
                (world_of (store_with_cart scenario_cart) [] gateway_approves))
  = Normal {| subtotal := 2500; itemCount := 3 |}.
Proof. reflexivity. Qed.

(** The cart of 94906267 units at 94906267: the subtotal is the nearest
    double to 9007199515875289. *)
Example getCartTotal_rounds :
  completion (getCartTotal (world_of store_with_bulk_cart [] gateway_approves))
  = Normal {| subtotal := 9007199515875288; itemCount := 94906267 |}.
Proof. vm_compute. reflexivity. Qed.

Lemma confirmPayment_late_failures_witness :
  completion (confirmPayment "pay_key_1" sample_order_id 2500
                (without_secret_key
                   (world_of (store_with_order buyer pending) [] gateway_approves)))
  = Normal {| success := false;
              message := "결제 서버 설정 오류입니다. 관리자에게 문의해주세요." |} /\
  db (world_after
        (confirmPayment "pay_key_1" sample_order_id 2500
           (world_of (store_with_order buyer pending)
                     [None; None; Some a_store_error] gateway_approves)))
  = store_with_order buyer pending.
Proof.
  split.
  - destruct (confirmPayment_late_failures
                (without_secret_key
                   (world_of (store_with_order buyer pending) [] gateway_approves))
                "pay_key_1" sample_order_id 2500
                {| owi_order := sample_order buyer pending; owi_order_items := [] |}
                buyer eq_refl eq_refl eq_refl)
      as (Hnokey & _).
    apply Hnokey. reflexivity.
  - destruct (confirmPayment_late_failures
                (world_of (store_with_order buyer pending)
                          [None; None; Some a_store_error] gateway_approves)
                "pay_key_1" sample_order_id 2500
                {| owi_order := sample_order buyer pending; owi_order_items := [] |}
                buyer eq_refl eq_refl eq_refl)
      as (_ & Hpersist).
    apply (Hpersist "test_sk_1" sample_payment); try reflexivity.
    exists a_store_error. reflexivity.
Defined.

(** ** Ids *)

Lemma String_append_nil (s : string) : s ++ "" = s.
Proof. induction s; simpl; congruence. Qed.

Lemma take_hex_spec n s r :
  take_hex n s = Some r <-> exists h, s = h ++ r /\ hex_digits n h.
Proof.
  unfold hex_digits. revert s. induction n as [|n IH]; intros s; simpl.
  - split.
    + intros H. inversion H; subst. exists "". repeat split.
    + intros (h & -> & Hlen & _). destruct h; [reflexivity | discriminate].
  - destruct s as [|c rest].
    + split; [discriminate|].
      intros (h & Hs & Hlen & _). destruct h; discriminate.
    + destruct (is_hex c) eqn:Hc.
      * rewrite IH. split.
        -- intros (h & -> & Hlen & Hall). exists (String c h).
           split; [reflexivity|]. simpl. rewrite Hc, Hall. now rewrite Hlen.
        -- intros (h & Hs & Hlen & Hall). destruct h as [|c' h]; [discriminate|].
           simpl in *. inversion Hs; subst. inversion Hlen.
           apply andb_prop in Hall. destruct Hall as [_ Hall].
           exists h. repeat split; assumption.
      * split; [discriminate|].
        intros (h & Hs & Hlen & Hall). destruct h as [|c' h]; [discriminate|].
        simpl in *. inversion Hs; subst. rewrite Hc in Hall. discriminate.
Qed.

Lemma take_hyphen_spec o r :
  take_hyphen o = Some r <-> o = Some (String "-"%char r).
Proof.
  unfold take_hyphen. destruct o as [[|c rest]|]; try (split; discriminate).
  destruct (Ascii.eqb_spec c "-"%char) as [->|Hne].
  - split; intros H; inversion H; reflexivity.
  - split.
    + destruct c as [[] [] [] [] [] [] [] []]; try discriminate.
      now contradiction Hne.
    + intros H. inversion H. now contradiction Hne.
Qed.

Lemma uuidRegex_test_groups :
  forall s,
    uuidRegex_test s = true <->
    exists a b c d e,
      s = a ++ "-" ++ b ++ "-" ++ c ++ "-" ++ d ++ "-" ++ e /\
      hex_digits 8 a /\ hex_digits 4 b /\ hex_digits 4 c /\
      hex_digits 4 d /\ hex_digits 12 e.
Proof.
  intros s. unfold uuidRegex_test. split.
  - destruct (take_hex 8 s) as [r1|] eqn:E1; [|discriminate].
    destruct (take_hyphen (Some r1)) as [r2|] eqn:E2; [|discriminate].
    destruct (take_hyphen (take_hex 4 r2)) as [r3|] eqn:E3; [|discriminate].
    destruct (take_hyphen (take_hex 4 r3)) as [r4|] eqn:E4; [|discriminate].
    destruct (take_hyphen (take_hex 4 r4)) as [r5|] eqn:E5; [|discriminate].
    destruct (take_hex 12 r5) as [[|x r6]|] eqn:E6; try discriminate.
    intros _.
    apply take_hex_spec in E1. destruct E1 as (a & -> & Ha).
    apply take_hyphen_spec in E2. inversion E2; subst r1.
    apply take_hyphen_spec in E3. apply take_hex_spec in E3.
    destruct E3 as (b & -> & Hb).
    apply take_hyphen_spec in E4. apply take_hex_spec in E4.
    destruct E4 as (c & -> & Hc).
    apply take_hyphen_spec in E5. apply take_hex_spec in E5.
    destruct E5 as (d & -> & Hd).
    apply take_hex_spec in E6. destruct E6 as (e & -> & He).
    exists a, b, c, d, e.
    split; [|repeat (split; [assumption|]); assumption].
    now rewrite String_append_nil.
  - intros (a & b & c & d & e & -> & Ha & Hb & Hc & Hd & He).
    assert (H1 : take_hex 8 (a ++ "-" ++ b ++ "-" ++ c ++ "-" ++ d ++ "-" ++ e)
                 = Some ("-" ++ b ++ "-" ++ c ++ "-" ++ d ++ "-" ++ e))
      by (apply take_hex_spec; now exists a).
    assert (H2 : take_hex 4 (b ++ "-" ++ c ++ "-" ++ d ++ "-" ++ e)
                 = Some ("-" ++ c ++ "-" ++ d ++ "-" ++ e))
      by (apply take_hex_spec; now exists b).
    assert (H3 : take_hex 4 (c ++ "-" ++ d ++ "-" ++ e) = Some ("-" ++ d ++ "-" ++ e))
      by (apply take_hex_spec; now exists c).
    assert (H4 : take_hex 4 (d ++ "-" ++ e) = Some ("-" ++ e))
      by (apply take_hex_spec; now exists d).
    assert (H5 : take_hex 12 e = Some "").
    { apply take_hex_spec. exists e. split; [|exact He].
      now rewrite String_append_nil. }
    cbn [append] in H1, H2, H3, H4 |- *.
    rewrite H1. cbn [take_hyphen]. rewrite H2. cbn [take_hyphen].
    rewrite H3. cbn [take_hyphen]. rewrite H4. cbn [take_hyphen].
    now rewrite H5.
Qed.

Lemma hex_digits_length n s : hex_digits n s -> String.length s = n.
Proof. now intros [H _]. Qed.

Lemma String_length_append a b :
  String.length (a ++ b) = (String.length a + String.length b)%nat.
Proof. induction a; simpl; [reflexivity | now rewrite IHa]. Qed.

Lemma uuidRegex_test_length s : uuidRegex_test s = true -> String.length s = 36%nat.
Proof.
  intros H. apply uuidRegex_test_groups in H.
  destruct H as (a & b & c & d & e & -> & Ha & Hb & Hc & Hd & He).
  rewrite !String_length_append. simpl.
  rewrite (hex_digits_length _ _ Ha), (hex_digits_length _ _ Hb),
    (hex_digits_length _ _ Hc), (hex_digits_length _ _ Hd),
    (hex_digits_length _ _ He). reflexivity.
Qed.

Lemma is_hex_chars c :
  is_hex c = true <-> In c (list_ascii_of_string "0123456789abcdefABCDEF").
Proof.
  destruct c as [[] [] [] [] [] [] [] []]; vm_compute;
    (split; [intros H; first [discriminate H | tauto]
            | intros H; first [reflexivity | exfalso; intuition discriminate]]).
Qed.

(** X28. The id check of the actions (the UUID regular expression)
    accepts exactly the strings made of five groups of 8, 4, 4, 4 and 12
    hexadecimal digits, in upper or lower case, separated by single
    hyphens, with nothing before or after; so every accepted id has 36
    characters. *)
Theorem uuidRegex_test_spec :
  forall s,
    (uuidRegex_test s = true <->
     exists a b c d e,
       s = a ++ "-" ++ b ++ "-" ++ c ++ "-" ++ d ++ "-" ++ e /\
       hex_digits 8 a /\ hex_digits 4 b /\ hex_digits 4 c /\
       hex_digits 4 d /\ hex_digits 12 e) /\
    (uuidRegex_test s = true -> String.length s = 36%nat) /\
    (forall c, is_hex c = true
               <-> In c (list_ascii_of_string "0123456789abcdefABCDEF")).
Proof.
  intros s. split; [apply uuidRegex_test_groups|].
  split; [apply uuidRegex_test_length | apply is_hex_chars].
Qed.

Lemma uuidRegex_test_spec_witness :
  String.length sample_order_id = 36%nat.
Proof.
  destruct (uuidRegex_test_spec sample_order_id) as (_ & Hlen & _).
  apply Hlen. reflexivity.
Defined.

(** X29. The order getOrderById returns has the requested id and comes
    with exactly the lines of that order, oldest first. An id that is not
    a UUID gives null without any store call, and when the order is found
    but its lines cannot be read the answer is null as well, not an order
    without lines. *)
Theorem getOrderById_lines :
  forall w orderId,
    (forall order,
        completion (getOrderById orderId w) = Normal (Some order) ->
        Order.id (owi_order order) = orderId /\
        oldest_first OrderItem.created_at (owi_order_items order) /\
        (forall i, In i (owi_order_items order)
                   <-> In i (order_items (db w)) /\ OrderItem.order_id i = orderId)) /\
    (uuidRegex_test orderId = false ->
     getOrderById orderId w = (Normal None, w)) /\
    (forall userId order,
        truthy (session w) = Some userId ->
        uuidRegex_test orderId = true ->
        filter (is_order_of orderId userId) (orders (db w)) = [order] ->
        no_fault 0 w ->
        fault_at 1 w ->
        completion (getOrderById orderId w) = Normal None).
Proof.
  intros w orderId. split; [|split].
  - intros order Hget.
    pose proof (getOrderById_uuid _ _ _ Hget) as Hu.
    destruct (getOrderById_Some _ _ _ Hget) as (userId & Hs & Hf & _ & H0 & H1 & _).
    pose proof Hf as Hf'. apply is_order_of_clerk in Hf'.
    destruct Hf' as (_ & Hid & _).
    split; [exact Hid|].
    revert Hget.
    unfold getOrderById, try_catch, bind, auth, completion.
    rewrite Hs, Hu. simpl.
    unfold select_order_of. rewrite store_call_no_fault by assumption.
    unfold bind, read_db, ret. simpl. rewrite Hf. simpl.
    unfold select_order_items_of.
    rewrite store_call_no_fault by (apply no_fault_tick; assumption).
    simpl. intros Hget. inversion Hget as [Horder]. simpl.
    split; [apply order_by_oldest_first|].
    intros i. split.
    + intros Hin. apply (Permutation_in _ (order_by_perm _ _)) in Hin.
      apply filter_In in Hin. destruct Hin as [Hin Ho].
      apply String.eqb_eq in Ho. now split.
    + intros [Hin Ho].
      apply (Permutation_in _ (Permutation_sym (order_by_perm _ _))).
      apply filter_In. split; [exact Hin | now apply String.eqb_eq].
  - intros Hu. unfold getOrderById, try_catch, bind, auth.
    destruct (truthy (session w)); simpl; [now rewrite Hu | reflexivity].
  - intros userId order Hs Hu Hf H0 [e1 H1].
    unfold getOrderById, try_catch, bind, auth, completion.
    rewrite Hs, Hu. simpl.
    unfold select_order_of. rewrite store_call_no_fault by assumption.
    unfold bind, read_db, ret. simpl. rewrite Hf. simpl.
    unfold select_order_items_of.
    rewrite (store_call_fault _ _ _ _ e1) by (now rewrite nth_faults_tick).
    reflexivity.
Qed.

Lemma getOrderById_lines_witness :
  Order.id (sample_order buyer pending) = sample_order_id /\
  completion (getOrderById sample_order_id
                (world_of (store_with_order buyer pending)
                          [None; Some a_store_error] gateway_approves))
  = Normal None.
Proof.
  split.
  - destruct (getOrderById_lines
                (world_of (store_with_order buyer pending) [] gateway_approves)
                sample_order_id)
      as (Hlines & _).
    destruct (Hlines {| owi_order := sample_order buyer pending;
                        owi_order_items := [] |} eq_refl)
      as (Hid & _).
    exact Hid.
  - destruct (getOrderById_lines
                (world_of (store_with_order buyer pending)
                          [None; Some a_store_error] gateway_approves)
                sample_order_id)
      as (_ & _ & Hfault).
    apply (Hfault buyer (sample_order buyer pending));
      try reflexivity.
    exists a_store_error. reflexivity.
Defined.

(** ** Requests that are turned away at the door *)

(** X30. A request without a signed-in user (no session, or an empty
    user id) is turned away by every action before anything else
    happens: the action returns its login failure (the queries return
    their empty answer) and the world is exactly as it was, with no store
    call and no gateway call made. The same holds for addToCart and
    updateCartItemQuantity with a quantity below 1, which return the
    quantity failure. *)
Theorem requests_turned_away :
  forall w,
    (truthy (session w) = None ->
     (forall productId quantity,
         addToCart productId quantity w
         = (Normal (AddToCartExit_result ATC_unauthenticated), w)) /\
     getCartItems w = (Normal [], w) /\
     getCartItemsCount w = (Normal 0, w) /\
     getCartTotal w = (Normal {| subtotal := 0; itemCount := 0 |}, w) /\
     (forall cartItemId quantity,
         updateCartItemQuantity cartItemId quantity w
         = (Normal (UpdateCartItemQuantityExit_result UCQ_unauthenticated), w)) /\
     (forall cartItemId,
         removeCartItem cartItemId w
         = (Normal (RemoveCartItemExit_result RCI_unauthenticated), w)) /\
     (forall cartItemIds,
         removeCartItems cartItemIds w
         = (Normal (RemoveCartItemsExit_result RCS_unauthenticated), w)) /\
     (forall shippingAddress orderNote,
         createOrder shippingAddress orderNote w
         = (Normal (CreateOrderExit_result CO_unauthenticated), w)) /\
     (forall orderId, getOrderById orderId w = (Normal None, w)) /\
     (forall status, getOrders status w = (Normal [], w)) /\
     (forall orderId status,
         updateOrderStatus orderId status w
         = (Normal (UpdateOrderStatusExit_result UOS_unauthenticated), w)) /\
     (forall orderId,
         requestPayment orderId w
         = (Normal (RequestPaymentExit_result RP_unauthenticated), w)) /\
     (forall paymentKey orderId amount,
         confirmPayment paymentKey orderId amount w
         = (Normal (ConfirmPaymentExit_result CP_unauthenticated), w)) /\
     (forall orderId,
         cancelPayment orderId w
         = (Normal (CancelPaymentExit_result XP_unauthenticated), w))) /\
    (forall userId quantity,
        truthy (session w) = Some userId ->
        quantity < 1 ->
        (forall productId,
            addToCart productId quantity w
            = (Normal (AddToCartExit_result ATC_invalid_quantity), w)) /\
        (forall cartItemId,
            updateCartItemQuantity cartItemId quantity w
            = (Normal (UpdateCartItemQuantityExit_result UCQ_invalid_quantity), w))).
Proof.
  intros w. split.
  - intros Hs.
    repeat apply conj; intros;
      autounfold with actions; unfold fmap, try_catch, bind, auth;
      rewrite ?Hs; reflexivity.
  - intros userId quantity Hs Hq.
    assert (Hbad : (quantity =? 0) || (quantity <? 1) = true).
    { replace (quantity <? 1) with true by (symmetry; apply Z.ltb_lt; lia).
      apply orb_true_r. }
    split; intros;
      autounfold with actions; unfold fmap, try_catch, bind, auth;
      rewrite Hs; simpl; now rewrite Hbad.
Qed.

Lemma requests_turned_away_witness :
  confirmPayment "pay_key_1" sample_order_id 2500
    (signed_in_as None
       (world_of (store_with_order buyer pending) [] gateway_approves))
  = (Normal {| success := false; message := "로그인이 필요합니다." |},
     signed_in_as None
       (world_of (store_with_order buyer pending) [] gateway_approves)) /\
  addToCart P1_id 0 (world_of (store_with_cart []) [] gateway_approves)
  = (Normal {| success := false; message := "수량은 1개 이상이어야 합니다." |},
     world_of (store_with_cart []) [] gateway_approves).
Proof.
  split.
  - destruct (requests_turned_away
                (signed_in_as None
                   (world_of (store_with_order buyer pending) [] gateway_approves)))
      as (Hnobody & _).
    destruct (Hnobody eq_refl)
      as (_ & _ & _ & _ & _ & _ & _ & _ & _ & _ & _ & _ & Hconfirm & _).
    apply Hconfirm.
  - destruct (requests_turned_away
                (world_of (store_with_cart []) [] gateway_approves))
      as (_ & Hquantity).
    destruct (Hquantity buyer 0 eq_refl ltac:(lia)) as (Hadd & _).
    apply Hadd.
Defined.
